(** * Node Feature Discovery operator: staged reconciliation core

    A shallow embedding of [controllers/nodefeaturediscovery_resources.go]
    (manifest loading and stage construction), of the [NFD] stepper
    ([addState], [init], [step], [last]) and of
    [NodeFeatureDiscoveryReconciler.Reconcile], followed by the properties
    of the specification that concern them.

    Conventions.
    - A Go [string] is a [String.string] (a sequence of bytes), a [[]byte]
      is a [list byte].
    - A Go [int] is a [Z]; the one arithmetic operation of the code
      ([n.idx + 1]) is written with its 64-bit wrap-around.
    - The package keeps global state ([nfd], the loggers) and touches the
      outside world (file system, cluster).  All of it lives in one record
      [Sys], threaded by a small state monad whose results are either a
      returned value or a Go panic.  Whatever the code does that is visible
      from outside is appended to the event trace of [Sys]. *)

From Stdlib Require Import ZArith List String Ascii Bool Lia.
From Stdlib Require Import Strings.Byte.
Import ListNotations.
Open Scope string_scope.
Open Scope Z_scope.

Set Implicit Arguments.

(* ------------------------------------------------------------------ *)
(** ** Go integers *)

Module GoInt.

Definition MaxInt : Z := 2 ^ 63 - 1.
Definition MinInt : Z := - 2 ^ 63.

(** Two's complement reduction of a mathematical integer to [int]. *)
Definition wrap (z : Z) : Z := (z + 2 ^ 63) mod 2 ^ 64 - 2 ^ 63.

Definition add (a b : Z) : Z := wrap (a + b).

(** [len] of a slice. *)
Definition len {A : Type} (l : list A) : Z := Z.of_nat (List.length l).

End GoInt.

(* ------------------------------------------------------------------ *)
(** ** Characters and the [strings] package *)

Module Strings.

Definition byte_val (c : ascii) : N := N_of_ascii c.

Definition between (lo hi : N) (c : ascii) : bool :=
  (N.leb lo (byte_val c) && N.leb (byte_val c) hi)%bool.

(** ASCII white space as [strings.TrimSpace] sees it:
    ['\t'], ['\n'], ['\v'], ['\f'], ['\r'], [' ']. *)
Definition asciiSpace (c : ascii) : bool :=
  (between 9 13 c || N.eqb (byte_val c) 32)%bool.

Definition byte_is (n : N) (c : ascii) : bool := N.eqb (byte_val c) n.

(** Number of bytes of the white-space rune at the head of [s], 0 when
    the head is no white space.  A byte below [utf8.RuneSelf] (128) is
    a rune of its own.  Beyond ASCII, [unicode.IsSpace] holds for
    U+0085, U+00A0, U+1680, U+2000..U+200A, U+2028, U+2029, U+202F,
    U+205F and U+3000, here in their UTF-8 encodings. *)
Definition spaceAtHead (s : string) : nat :=
  match s with
  | String a r =>
      if asciiSpace a then 1%nat
      else if N.ltb (byte_val a) 128 then 0%nat
      else match r with
           | String b r' =>
               if (byte_is 194 a && (byte_is 133 b || byte_is 160 b))%bool
               then 2%nat
               else match r' with
                    | String c _ =>
                        if (byte_is 225 a && byte_is 154 b && byte_is 128 c)%bool
                        then 3%nat
                        else if (byte_is 226 a && byte_is 128 b &&
                                 (between 128 138 c || byte_is 168 c ||
                                  byte_is 169 c || byte_is 175 c))%bool
                        then 3%nat
                        else if (byte_is 226 a && byte_is 129 b && byte_is 159 c)%bool
                        then 3%nat
                        else if (byte_is 227 a && byte_is 128 b && byte_is 128 c)%bool
                        then 3%nat
                        else 0%nat
                    | EmptyString => 0%nat
                    end
           | EmptyString => 0%nat
           end
  | EmptyString => 0%nat
  end.

(** The same for the rune at the end of a string, given reversed: the
    bytes of the rune then come last byte first. *)
Definition spaceAtTail (rs : string) : nat :=
  match rs with
  | String c r =>
      if asciiSpace c then 1%nat
      else if N.ltb (byte_val c) 128 then 0%nat
      else match r with
           | String b r' =>
               if (byte_is 194 b && (byte_is 133 c || byte_is 160 c))%bool
               then 2%nat
               else match r' with
                    | String a _ =>
                        if (byte_is 225 a && byte_is 154 b && byte_is 128 c)%bool
                        then 3%nat
                        else if (byte_is 226 a && byte_is 128 b &&
                                 (between 128 138 c || byte_is 168 c ||
                                  byte_is 169 c || byte_is 175 c))%bool
                        then 3%nat
                        else if (byte_is 226 a && byte_is 129 b && byte_is 159 c)%bool
                        then 3%nat
                        else if (byte_is 227 a && byte_is 128 b && byte_is 128 c)%bool
                        then 3%nat
                        else 0%nat
                    | EmptyString => 0%nat
                    end
           | EmptyString => 0%nat
           end
  | EmptyString => 0%nat
  end.

Fixpoint drop (n : nat) (s : string) : string :=
  match n, s with
  | S n', String _ r => drop n' r
  | _, _ => s
  end.

Fixpoint rev_onto (s acc : string) : string :=
  match s with
  | EmptyString => acc
  | String c r => rev_onto r (String c acc)
  end.

Definition rev (s : string) : string := rev_onto s EmptyString.

(** Strip white-space runes from the head; [fuel] bounds the number of
    runes, the length of the string is always enough. *)
Fixpoint trimHead (fuel : nat) (at_head : string -> nat) (s : string) : string :=
  match fuel with
  | O => s
  | S fuel' =>
      match at_head s with
      | O => s
      | k => trimHead fuel' at_head (drop k s)
      end
  end.

Definition TrimLeftSpace (s : string) : string :=
  trimHead (String.length s) spaceAtHead s.

Definition TrimRightSpace (s : string) : string :=
  rev (trimHead (String.length s) spaceAtTail (rev s)).

(** [strings.TrimSpace]. *)
Definition TrimSpace (s : string) : string :=
  TrimRightSpace (TrimLeftSpace s).

(** [strings.Split(s, sep)] for a separator of one byte, which is the
    only way the code calls it: the pieces between the occurrences of
    [sep], one more than there are occurrences. *)
Fixpoint Split (s : string) (sep : ascii) : list string :=
  match s with
  | EmptyString => [EmptyString]
  | String c r =>
      if Ascii.eqb c sep then EmptyString :: Split r sep
      else match Split r sep with
           | piece :: pieces => String c piece :: pieces
           | [] => [String c EmptyString]
           end
  end.

End Strings.

(* ------------------------------------------------------------------ *)
(** ** The [regexp] package, as far as the pattern of the code needs it *)

Module Regexp.

(** The matcher works on bytes where [regexp] works on runes.  For the
    pattern of the code this makes no difference: [\w], [\b] and [\B]
    are ASCII-only, a match can only begin and end next to an ASCII word
    character, and [.] takes every byte of a rune but the line feed, so
    that the byte positions inside a rune are never where a match
    begins, ends, or passes from one part of the pattern to the next. *)

(** One-character classes: [\w] (ASCII word characters) and [.] (any
    character but a line feed). *)
Inductive class := Word | Dot.

Definition isWord (c : ascii) : bool :=
  (Strings.between 48 57 c || Strings.between 65 90 c ||
   Strings.between 97 122 c || Strings.byte_is 95 c)%bool.

Definition inClass (k : class) (c : ascii) : bool :=
  match k with
  | Word => isWord c
  | Dot => negb (Strings.byte_is 10 c)
  end.

(** Syntax: literals, greedy stars of a class, the two empty-width
    assertions, concatenation and (capturing) groups. *)
Inductive regex :=
| Lit (s : string)
| Star (k : class)
| WordBoundary
| NoWordBoundary
| Cat (r1 r2 : regex)
| Group (r : regex).

(** A position in the text: the character before it, if any, and the
    text from it on. *)
Definition wordBefore (prev : option ascii) : bool :=
  match prev with Some c => isWord c | None => false end.

Definition wordAfter (s : string) : bool :=
  match s with String c _ => isWord c | EmptyString => false end.

(** [\b]: exactly one side of the position is a word character. *)
Definition atBoundary (prev : option ascii) (s : string) : bool :=
  xorb (wordBefore prev) (wordAfter s).

(** Continuations receive the position reached and answer with the
    number of characters they went on to consume. *)
Definition cont := option ascii -> string -> option nat.

Fixpoint lit (l : string) (prev : option ascii) (s : string) (k : cont)
  : option nat :=
  match l with
  | EmptyString => k prev s
  | String a l' =>
      match s with
      | String c s' =>
          if Ascii.eqb a c then option_map S (lit l' (Some c) s' k) else None
      | EmptyString => None
      end
  end.

(** Greedy star: take one more character first, come back to stopping
    here when the rest of the pattern fails after that. *)
Fixpoint star (p : ascii -> bool) (prev : option ascii) (s : string) (k : cont)
  : option nat :=
  match s with
  | String c s' =>
      if p c then
        match star p (Some c) s' k with
        | Some n => Some (S n)
        | None => k prev s
        end
      else k prev s
  | EmptyString => k prev s
  end.

(** Backtracking match of [r] at a position, followed by [k]. *)
Fixpoint matchAt (r : regex) (prev : option ascii) (s : string) (k : cont)
  : option nat :=
  match r with
  | Lit l => lit l prev s k
  | Star c => star (inClass c) prev s k
  | WordBoundary => if atBoundary prev s then k prev s else None
  | NoWordBoundary => if atBoundary prev s then None else k prev s
  | Cat r1 r2 => matchAt r1 prev s (fun prev' s' => matchAt r2 prev' s' k)
  | Group r' => matchAt r' prev s k
  end.

Definition accept : cont := fun _ _ => Some 0%nat.

(** Leftmost match: the first start position, scanning from the left,
    at which the backtracking search succeeds; the text it matched. *)
Fixpoint findFrom (r : regex) (prev : option ascii) (s : string)
  : option string :=
  match matchAt r prev s accept with
  | Some n => Some (substring 0 n s)
  | None =>
      match s with
      | String c s' => findFrom r (Some c) s'
      | EmptyString => None
      end
  end.

(** [Regexp.FindString]: the text of the leftmost match, the empty
    string when there is none. *)
Definition FindString (r : regex) (s : string) : string :=
  match findFrom r None s with
  | Some m => m
  | None => EmptyString
  end.

End Regexp.

Import Regexp.

(** The compiled pattern of [addResourcesControls], which reads, token by
    token: [\b] [(] [\w*] [kind:] [\w*] [)] [\B] [.*] [\b]. *)
Definition reg : regex :=
  Cat WordBoundary
   (Cat (Group (Cat (Star Word) (Cat (Lit "kind:") (Star Word))))
     (Cat NoWordBoundary
       (Cat (Star Dot) WordBoundary))).

(* ------------------------------------------------------------------ *)
(** ** Errors, panics, events *)

(** A Go [error] value, by its dynamic type and what it carries:
    [errors.New] makes an [errorString], the API client answers with
    status errors that carry a reason, anything else (I/O, decoding) is
    kept with the name of its type.  The address of an [errorString] is
    not modelled: [step] allocates a new one on each return, so no caller
    holds a value to compare it with. *)
Inductive error :=
| errorString (s : string)
| StatusError (reason message : string)
| foreignError (type message : string).

Module errors.
Definition New (text : string) : error := errorString text.
End errors.

Definition Error (e : error) : string :=
  match e with
  | errorString s => s
  | StatusError _ m => m
  | foreignError _ m => m
  end.

Module k8serrors.
(** The reason [metav1.StatusReasonNotFound] is the string "NotFound". *)
Definition IsNotFound (e : error) : bool :=
  match e with
  | StatusError reason _ => String.eqb reason "NotFound"
  | _ => false
  end.
End k8serrors.

(** What a Go panic carries: the value given to [panic], or one of the two
    run-time errors the code can raise. *)
Inductive panic :=
| PanicError (e : error)
| IndexOutOfRange (index length : Z)
| NilDereference.

(** The fields of [Resources], in the order of the struct. *)
Inductive field :=
| FNamespace | FServiceAccount | FRole | FRoleBinding | FClusterRole
| FClusterRoleBinding | FConfigMap | FDaemonSet | FPod | FService
| FSecurityContextConstraints.

Definition field_eq_dec (f g : field) : {f = g} + {f <> g}.
Proof. decide equality. Defined.

(** The control functions that [addResourcesControls] appends, by name.
    They are package-level functions of a file that is not part of the
    sources at hand; [controlFunc] is a slice of them. *)
Module Ctl.
Inductive control :=
| Namespace | ServiceAccount | ClusterRole | ClusterRoleBinding | Role
| RoleBinding | ConfigMap | DaemonSet | Service
| SecurityContextConstraints.
End Ctl.

Definition controlFunc := list Ctl.control.

(** Modelled from the spec: the declaration of [ResourceStatus] with its
    constants [Ready] and [NotReady] is missing from the sources; the
    specification gives the two values [ReadinessStatus{Ready|NotReady}]. *)
Inductive ResourceStatus := Ready | NotReady.

Definition isReady (stat : ResourceStatus) : bool :=
  match stat with Ready => true | NotReady => false end.

Definition assetsFromFile := list byte.

Record NamespacedName := { Namespace_ : string; Name : string }.

(** [ctrl.Request]. *)
Record Request := { NamespacedName_ : NamespacedName }.

(** [ctrl.Result] ([reconcile.Result] is the same type). *)
Record Result := { Requeue : bool; RequeueAfter : Z }.

Definition Result_zero : Result := {| Requeue := false; RequeueAfter := 0 |}.

Inductive logger := packageLog | reconcilerLog.

(** Everything the code does that an observer outside can see. *)
Inductive event :=
| LogInfo (l : logger) (msg : string) (keysAndValues : list (string * string))
| LogError (l : logger) (err : error) (msg : string)
| FsWalk (root : string)
| FsReadFile (file : string)
| ApiGet (key : NamespacedName)
| CallInit
| CallStep
| CallLast
| CallControl (c : Ctl.control).

(* ------------------------------------------------------------------ *)
(** ** The file system, as [filepath.Walk] and [ioutil.ReadFile] show it *)

Record FileInfo := { IsDir : bool }.

(** One invocation of the callback of [filepath.Walk]: the path, the file
    information ([nil] when [Lstat] failed) and the error handed over. *)
Record visit :=
  { visit_path : string; visit_info : option FileInfo; visit_err : option error }.

(** [Walk root] lists the visits [filepath.Walk] makes, in its (lexical)
    order, to a callback that answers [nil] every time, which is what the
    callback of [filePathWalkDir] does. *)
Record FileSystem :=
  { Walk : string -> list visit;
    ReadFile : string -> list byte * option error }.

(* ------------------------------------------------------------------ *)
(** ** What the code takes from outside *)

(** The types of the Kubernetes API the code only passes around. *)
Class Platform := {
  (** the state of the cluster behind the API client *)
  Cluster : Type;
  (** [nfdv1.NodeFeatureDiscovery] *)
  NodeFeatureDiscovery : Type;
  NodeFeatureDiscovery_zero : NodeFeatureDiscovery;
  NodeFeatureDiscovery_Name : NodeFeatureDiscovery -> string;
  (** [context.Context] *)
  Ctx : Type;
  (** the type of each field of [Resources] and its zero value *)
  obj : field -> Type;
  obj_zero : forall f, obj f
}.

Section Types.
Context {P : Platform}.

(** Resources holds objects owned by NFD. *)
Record Resources := {
  Namespace : obj FNamespace;
  ServiceAccount : obj FServiceAccount;
  Role : obj FRole;
  RoleBinding : obj FRoleBinding;
  ClusterRole : obj FClusterRole;
  ClusterRoleBinding : obj FClusterRoleBinding;
  ConfigMap : obj FConfigMap;
  DaemonSet : obj FDaemonSet;
  Pod : obj FPod;
  Service : obj FService;
  SecurityContextConstraints : obj FSecurityContextConstraints
}.

(** [Resources{}]. *)
Definition Resources_zero : Resources :=
  {| Namespace := obj_zero _; ServiceAccount := obj_zero _;
     Role := obj_zero _; RoleBinding := obj_zero _;
     ClusterRole := obj_zero _; ClusterRoleBinding := obj_zero _;
     ConfigMap := obj_zero _; DaemonSet := obj_zero _; Pod := obj_zero _;
     Service := obj_zero _; SecurityContextConstraints := obj_zero _ |}.

(** Reading [res.F] and writing through [&res.F]. *)
Definition getField (f : field) (res : Resources) : obj f :=
  match f with
  | FNamespace => Namespace res
  | FServiceAccount => ServiceAccount res
  | FRole => Role res
  | FRoleBinding => RoleBinding res
  | FClusterRole => ClusterRole res
  | FClusterRoleBinding => ClusterRoleBinding res
  | FConfigMap => ConfigMap res
  | FDaemonSet => DaemonSet res
  | FPod => Pod res
  | FService => Service res
  | FSecurityContextConstraints => SecurityContextConstraints res
  end.

Definition setField (f : field) : obj f -> Resources -> Resources :=
  match f with
  | FNamespace => fun v r =>
      {| Namespace := v; ServiceAccount := ServiceAccount r; Role := Role r;
         RoleBinding := RoleBinding r; ClusterRole := ClusterRole r;
         ClusterRoleBinding := ClusterRoleBinding r; ConfigMap := ConfigMap r;
         DaemonSet := DaemonSet r; Pod := Pod r; Service := Service r;
         SecurityContextConstraints := SecurityContextConstraints r |}
  | FServiceAccount => fun v r =>
      {| Namespace := Namespace r; ServiceAccount := v; Role := Role r;
         RoleBinding := RoleBinding r; ClusterRole := ClusterRole r;
         ClusterRoleBinding := ClusterRoleBinding r; ConfigMap := ConfigMap r;
         DaemonSet := DaemonSet r; Pod := Pod r; Service := Service r;
         SecurityContextConstraints := SecurityContextConstraints r |}
  | FRole => fun v r =>
      {| Namespace := Namespace r; ServiceAccount := ServiceAccount r; Role := v;
         RoleBinding := RoleBinding r; ClusterRole := ClusterRole r;
         ClusterRoleBinding := ClusterRoleBinding r; ConfigMap := ConfigMap r;
         DaemonSet := DaemonSet r; Pod := Pod r; Service := Service r;
         SecurityContextConstraints := SecurityContextConstraints r |}
  | FRoleBinding => fun v r =>
      {| Namespace := Namespace r; ServiceAccount := ServiceAccount r;
         Role := Role r; RoleBinding := v; ClusterRole := ClusterRole r;
         ClusterRoleBinding := ClusterRoleBinding r; ConfigMap := ConfigMap r;
         DaemonSet := DaemonSet r; Pod := Pod r; Service := Service r;
         SecurityContextConstraints := SecurityContextConstraints r |}
  | FClusterRole => fun v r =>
      {| Namespace := Namespace r; ServiceAccount := ServiceAccount r;
         Role := Role r; RoleBinding := RoleBinding r; ClusterRole := v;
         ClusterRoleBinding := ClusterRoleBinding r; ConfigMap := ConfigMap r;
         DaemonSet := DaemonSet r; Pod := Pod r; Service := Service r;
         SecurityContextConstraints := SecurityContextConstraints r |}
  | FClusterRoleBinding => fun v r =>
      {| Namespace := Namespace r; ServiceAccount := ServiceAccount r;
         Role := Role r; RoleBinding := RoleBinding r;
         ClusterRole := ClusterRole r; ClusterRoleBinding := v;
         ConfigMap := ConfigMap r; DaemonSet := DaemonSet r; Pod := Pod r;
         Service := Service r;
         SecurityContextConstraints := SecurityContextConstraints r |}
  | FConfigMap => fun v r =>
      {| Namespace := Namespace r; ServiceAccount := ServiceAccount r;
         Role := Role r; RoleBinding := RoleBinding r;
         ClusterRole := ClusterRole r;
         ClusterRoleBinding := ClusterRoleBinding r; ConfigMap := v;
         DaemonSet := DaemonSet r; Pod := Pod r; Service := Service r;
         SecurityContextConstraints := SecurityContextConstraints r |}
  | FDaemonSet => fun v r =>
      {| Namespace := Namespace r; ServiceAccount := ServiceAccount r;
         Role := Role r; RoleBinding := RoleBinding r;
         ClusterRole := ClusterRole r;
         ClusterRoleBinding := ClusterRoleBinding r; ConfigMap := ConfigMap r;
         DaemonSet := v; Pod := Pod r; Service := Service r;
         SecurityContextConstraints := SecurityContextConstraints r |}
  | FPod => fun v r =>
      {| Namespace := Namespace r; ServiceAccount := ServiceAccount r;
         Role := Role r; RoleBinding := RoleBinding r;
         ClusterRole := ClusterRole r;
         ClusterRoleBinding := ClusterRoleBinding r; ConfigMap := ConfigMap r;
         DaemonSet := DaemonSet r; Pod := v; Service := Service r;
         SecurityContextConstraints := SecurityContextConstraints r |}
  | FService => fun v r =>
      {| Namespace := Namespace r; ServiceAccount := ServiceAccount r;
         Role := Role r; RoleBinding := RoleBinding r;
         ClusterRole := ClusterRole r;
         ClusterRoleBinding := ClusterRoleBinding r; ConfigMap := ConfigMap r;
         DaemonSet := DaemonSet r; Pod := Pod r; Service := v;
         SecurityContextConstraints := SecurityContextConstraints r |}
  | FSecurityContextConstraints => fun v r =>
      {| Namespace := Namespace r; ServiceAccount := ServiceAccount r;
         Role := Role r; RoleBinding := RoleBinding r;
         ClusterRole := ClusterRole r;
         ClusterRoleBinding := ClusterRoleBinding r; ConfigMap := ConfigMap r;
         DaemonSet := DaemonSet r; Pod := Pod r; Service := Service r;
         SecurityContextConstraints := v |}
  end.

(** NodeFeatureDiscoveryReconciler reconciles a NodeFeatureDiscovery
    object.  Of the embedded [client.Client] the code at hand uses [Get]
    on the managed instance: it reads the cluster, fills the object it
    is given and answers with an error or [nil]. *)
Record NodeFeatureDiscoveryReconciler := {
  Get : Ctx -> NamespacedName -> Cluster -> NodeFeatureDiscovery ->
        NodeFeatureDiscovery * option error;
  AssetsDir : string
}.

(** NFD holds the needed information to watch from the Controller.
    The two pointers are [None] while they are [nil]. *)
Record NFD := {
  resources : list Resources;
  controls : list controlFunc;
  rec : option NodeFeatureDiscoveryReconciler;
  ins : option NodeFeatureDiscovery;
  idx : Z
}.

(** The zero value of the package variable [nfd]. *)
Definition NFD_zero : NFD :=
  {| resources := []; controls := []; rec := None; ins := None; idx := 0 |}.

(** The package state and the world around it. *)
Record Sys := {
  nfd : NFD;
  cluster : Cluster;
  disk : FileSystem;
  trace : list event
}.

End Types.

(** The functions the code calls and whose code is elsewhere. *)
Class Externals (P : Platform) := {
  (** [s.Decode(m, nil, &res.F)] of the YAML serializer: given the bytes
      and the object behind the pointer, the object as the decoder leaves
      it and the error it answers with. *)
  Decode : forall f : field, assetsFromFile -> obj f -> obj f * option error;
  (** What a control function does when called with (a copy of) the
      stepper: it works on the cluster and reports a status and an error. *)
  runControl : Ctl.control -> NFD -> Cluster ->
               (ResourceStatus * option error) * Cluster
}.

(* ------------------------------------------------------------------ *)
(** ** The monad of the package: state, with returns and panics *)

(** How a call ends: it returns, it panics, or the model ran out of the
    steps it was given ([Reconcile_returns_or_panics] shows that the one
    loop that needs a bound never does). *)
Inductive outcome (A : Type) :=
| Ret (a : A)
| Panic (p : panic)
| OutOfFuel.

Arguments Ret {A} a.
Arguments Panic {A} p.
Arguments OutOfFuel {A}.

Section Monad.
Context {P : Platform}.

Definition M (A : Type) : Type := Sys -> outcome A * Sys.

Definition ret {A} (a : A) : M A := fun s => (Ret a, s).

Definition bind {A B} (m : M A) (k : A -> M B) : M B :=
  fun s =>
    match m s with
    | (Ret a, s') => k a s'
    | (Panic p, s') => (Panic p, s')
    | (OutOfFuel, s') => (OutOfFuel, s')
    end.

(** The built-in [panic]. *)
Definition raise {A} (p : panic) : M A := fun s => (Panic p, s).

Definition outOfFuel {A} : M A := fun s => (OutOfFuel, s).

Definition emit (e : event) : M unit :=
  fun s => (Ret tt, {| nfd := nfd s; cluster := cluster s; disk := disk s;
                       trace := (trace s ++ [e])%list |}).

Definition getNFD : M NFD := fun s => (Ret (nfd s), s).

Definition putNFD (n : NFD) : M unit :=
  fun s => (Ret tt, {| nfd := n; cluster := cluster s; disk := disk s;
                       trace := trace s |}).

Definition getCluster : M Cluster := fun s => (Ret (cluster s), s).

Definition putCluster (c : Cluster) : M unit :=
  fun s => (Ret tt, {| nfd := nfd s; cluster := c; disk := disk s;
                       trace := trace s |}).

Definition getDisk : M FileSystem := fun s => (Ret (disk s), s).

End Monad.

Notation "x <- m ;; k" := (bind m (fun x => k))
  (at level 61, m at next level, right associativity).
Notation "m ;;; k" := (bind m (fun _ => k))
  (at level 61, right associativity).

Section Code.
Context {P : Platform} {E : Externals P}.

(** A [for _, x := range xs] loop that carries the variables [acc]. *)
Fixpoint forRange {A B} (xs : list A) (body : A -> B -> M B) (acc : B) : M B :=
  match xs with
  | [] => ret acc
  | x :: rest => acc' <- body x acc ;; forRange rest body acc'
  end.

(** [xs[i]] on a slice. *)
Definition index {A} (xs : list A) (i : Z) : M A :=
  if (0 <=? i) && (i <? GoInt.len xs) then
    match nth_error xs (Z.to_nat i) with
    | Some x => ret x
    | None => raise (IndexOutOfRange i (GoInt.len xs))
    end
  else raise (IndexOutOfRange i (GoInt.len xs)).

(* ---------------------------------------------------------------- *)
(** *** nodefeaturediscovery_resources.go *)

(** The callback of [filePathWalkDir]: it asks [info.IsDir()] without
    looking at [err], and answers [nil]. *)
Definition walkFn (v : visit) (files : list string) : M (list string) :=
  match visit_info v with
  | None => raise NilDereference
  | Some info =>
      if negb (IsDir info) then ret (files ++ [visit_path v])%list else ret files
  end.

(** [filepath.Walk] answers with the error of its callback, [nil] here. *)
Definition filePathWalkDir (root : string) : M (list string * option error) :=
  emit (FsWalk root) ;;;
  d <- getDisk ;;
  files <- forRange (Walk d root) walkFn [] ;;
  ret (files, None).

Definition getAssetsFrom (path : string) : M (list assetsFromFile) :=
  let assets := path in
  r <- filePathWalkDir assets ;;
  let '(files, err) := r in
  match err with
  | Some e => raise (PanicError e)
  | None =>
      forRange files
        (fun file manifests =>
           emit (FsReadFile file) ;;;
           d <- getDisk ;;
           let '(buffer, err) := ReadFile d file in
           match err with
           | Some e => raise (PanicError e)
           | None => ret (manifests ++ [buffer])%list
           end)
        []
  end.

Definition panicIfError (err : option error) : M unit :=
  match err with
  | Some e => raise (PanicError e)
  | None => ret tt
  end.

(** The first three statements of the loop body: the leftmost match of
    [reg], cut at the colons, the second piece trimmed. *)
Definition kindOf (m : assetsFromFile) : M string :=
  let kind := FindString reg (string_of_list_byte m) in
  let slce := Strings.Split kind ":"%char in
  piece <- index slce 1 ;;
  ret (Strings.TrimSpace piece).

(** The [switch kind]: every case decodes into one field of [res] and
    appends one control function; this is the table of the cases, in
    their order, [None] standing for [default]. *)
Definition caseOf (kind : string) : option (field * Ctl.control) :=
  if (kind =? "Namespace")%string then Some (FNamespace, Ctl.Namespace)
  else if (kind =? "ServiceAccount")%string then Some (FServiceAccount, Ctl.ServiceAccount)
  else if (kind =? "ClusterRole")%string then Some (FClusterRole, Ctl.ClusterRole)
  else if (kind =? "ClusterRoleBinding")%string
       then Some (FClusterRoleBinding, Ctl.ClusterRoleBinding)
  else if (kind =? "Role")%string then Some (FRole, Ctl.Role)
  else if (kind =? "RoleBinding")%string then Some (FRoleBinding, Ctl.RoleBinding)
  else if (kind =? "ConfigMap")%string then Some (FConfigMap, Ctl.ConfigMap)
  else if (kind =? "DaemonSet")%string then Some (FDaemonSet, Ctl.DaemonSet)
  else if (kind =? "Service")%string then Some (FService, Ctl.Service)
  else if (kind =? "SecurityContextConstraints")%string
       then Some (FSecurityContextConstraints, Ctl.SecurityContextConstraints)
  else None.

(** The body of the loop over the manifests. *)
Definition addManifest (m : assetsFromFile) (st : Resources * controlFunc)
  : M (Resources * controlFunc) :=
  let '(res, ctrl) := st in
  kind <- kindOf m ;;
  match caseOf kind with
  | Some (f, c) =>
      let '(o, err) := Decode f m (getField f res) in
      panicIfError err ;;;
      ret (setField f o res, (ctrl ++ [c])%list)
  | None =>
      emit (LogInfo packageLog "Unknown Resource: " [("Kind", kind)]) ;;;
      ret (res, ctrl)
  end.

Definition addResourcesControls (path : string) : M (Resources * controlFunc) :=
  let res := Resources_zero in
  let ctrl : controlFunc := [] in
  manifests <- getAssetsFrom path ;;
  forRange manifests addManifest (res, ctrl).

(* ---------------------------------------------------------------- *)
(** *** The stepper [NFD]; its methods act on the package variable [nfd] *)

Definition set_controls (v : list controlFunc) (n : NFD) : NFD :=
  {| resources := resources n; controls := v; rec := rec n; ins := ins n;
     idx := idx n |}.
Definition set_resources (v : list Resources) (n : NFD) : NFD :=
  {| resources := v; controls := controls n; rec := rec n; ins := ins n;
     idx := idx n |}.
Definition set_rec (v : option NodeFeatureDiscoveryReconciler) (n : NFD) : NFD :=
  {| resources := resources n; controls := controls n; rec := v; ins := ins n;
     idx := idx n |}.
Definition set_ins (v : option NodeFeatureDiscovery) (n : NFD) : NFD :=
  {| resources := resources n; controls := controls n; rec := rec n; ins := v;
     idx := idx n |}.
Definition set_idx (v : Z) (n : NFD) : NFD :=
  {| resources := resources n; controls := controls n; rec := rec n;
     ins := ins n; idx := v |}.

Definition modifyNFD (f : NFD -> NFD) : M unit :=
  n <- getNFD ;; putNFD (f n).

(** addState finds resources in a given path and adds them and their
    control functions to the NFD instance. *)
Definition addState (path : string) : M unit :=
  r <- addResourcesControls path ;;
  let '(res, ctrl) := r in
  modifyNFD (fun n => set_controls (controls n ++ [ctrl])%list n) ;;;
  modifyNFD (fun n => set_resources (resources n ++ [res])%list n).

(** init initializes an NFD object by populating the fields before
    attempting to run any kind of check. *)
Definition init (r : NodeFeatureDiscoveryReconciler) (i : NodeFeatureDiscovery)
  : M unit :=
  emit CallInit ;;;
  modifyNFD (set_rec (Some r)) ;;;
  modifyNFD (set_ins (Some i)) ;;;
  modifyNFD (set_idx 0) ;;;
  n <- getNFD ;;
  if GoInt.len (controls n) =? 0 then
    addState "/opt/nfd/master" ;;;
    addState "/opt/nfd/worker"
  else ret tt.

(** The call [fs( *n )]: the control function gets a copy of the stepper
    as it is now. *)
Definition callControl (fs : Ctl.control) : M (ResourceStatus * option error) :=
  n <- getNFD ;;
  emit (CallControl fs) ;;;
  c <- getCluster ;;
  let '(r, c') := runControl fs n c in
  putCluster c' ;;;
  ret r.

(** The loop of [step]; its value is what a [return] inside the loop
    gives back, [None] when the loop runs to its end. *)
Fixpoint stepRange (stage : controlFunc) : M (option error) :=
  match stage with
  | [] => ret None
  | fs :: rest =>
      r <- callControl fs ;;
      let '(stat, err) := r in
      match err with
      | Some e => ret (Some e)
      | None =>
          if negb (isReady stat)
          then ret (Some (errors.New "ResourceNotReady"))
          else stepRange rest
      end
  end.

(** step performs one step of the resource reconciliation loop,
    iterating over one set of resource control functions in order to
    determine if the related resources are ready. *)
Definition step : M (option error) :=
  emit CallStep ;;;
  n <- getNFD ;;
  stage <- index (controls n) (idx n) ;;
  returned <- stepRange stage ;;
  match returned with
  | Some e => ret (Some e)
  | None =>
      modifyNFD (fun n => set_idx (GoInt.add (idx n) 1) n) ;;;
      ret None
  end.

(** last checks if all control functions have been processed. *)
Definition last : M bool :=
  emit CallLast ;;;
  n <- getNFD ;;
  ret (idx n =? GoInt.len (controls n)).

(* ---------------------------------------------------------------- *)
(** *** Reconcile *)

(** The [for] loop of [Reconcile]: [Some] is the [return] from inside
    the loop, [None] the [break]. *)
Fixpoint reconcileLoop (fuel : nat) : M (option (Result * option error)) :=
  match fuel with
  | O => outOfFuel
  | S fuel' =>
      err <- step ;;
      match err with
      | Some e => ret (Some (Result_zero, Some e))
      | None =>
          l <- last ;;
          if l then ret None else reconcileLoop fuel'
      end
  end.

(** Reconcile is part of the main kubernetes reconciliation loop which
    aims to move the current state of the cluster closer to the desired
    state.  Each pass of the loop that goes on leaves the cursor one
    stage further, so one pass more than there are stages is allowed. *)
Definition Reconcile (r : NodeFeatureDiscoveryReconciler) (ctx : Ctx)
    (req : Request) : M (Result * option error) :=
  emit (LogInfo reconcilerLog "Fetch the NodeFeatureDiscovery instance" []) ;;;
  emit (ApiGet (NamespacedName_ req)) ;;;
  c <- getCluster ;;
  let '(instance, err) :=
    Get r ctx (NamespacedName_ req) c NodeFeatureDiscovery_zero in
  match err with
  | Some e =>
      if k8serrors.IsNotFound e then
        emit (LogInfo reconcilerLog "resource has been deleted"
                [("req", Name (NamespacedName_ req));
                 ("got", NodeFeatureDiscovery_Name instance)]) ;;;
        ret ({| Requeue := false; RequeueAfter := 0 |}, None)
      else
        emit (LogError reconcilerLog e
                "requeueing event since there was an error reading object") ;;;
        ret ({| Requeue := true; RequeueAfter := 0 |}, Some e)
  | None =>
      emit (LogInfo reconcilerLog "Ready to apply components" []) ;;;
      init r instance ;;;
      n <- getNFD ;;
      returned <- reconcileLoop (S (List.length (controls n))) ;;
      match returned with
      | Some res => ret res
      | None => ret (Result_zero, None)
      end
  end.

End Code.

(* ------------------------------------------------------------------ *)
(** ** Vocabulary of the properties *)

Definition nl : string := String (ascii_of_nat 10) EmptyString.

(** Does [s] begin with [needle]? *)
Fixpoint startsWith (needle s : string) : bool :=
  match needle with
  | EmptyString => true
  | String a needle' =>
      match s with
      | String c s' => (Ascii.eqb a c && startsWith needle' s')%bool
      | EmptyString => false
      end
  end.

(** Does [needle] occur in [s]? *)
Fixpoint hasSubstring (needle s : string) : bool :=
  match s with
  | EmptyString => startsWith needle EmptyString
  | String _ r => (startsWith needle s || hasSubstring needle r)%bool
  end.

(** Is the character before the end of [s] a word character?  [prev] is
    the character before [s]. *)
Fixpoint endsInWord (prev : option ascii) (s : string) : bool :=
  match s with
  | EmptyString => wordBefore prev
  | String c r => endsInWord (Some c) r
  end.

(** The character before the end of [s]. *)
Fixpoint lastChar (prev : option ascii) (s : string) : option ascii :=
  match s with
  | EmptyString => prev
  | String c r => lastChar (Some c) r
  end.

Fixpoint allChars (p : ascii -> bool) (s : string) : bool :=
  match s with
  | EmptyString => true
  | String c r => (p c && allChars p r)%bool
  end.

(** A word: one word character or more, and nothing else. *)
Definition isWordText (s : string) : bool :=
  match s with
  | EmptyString => false
  | String _ _ => allChars isWord s
  end.

(** The text stops here: it is over or a line feed comes next. *)
Definition lineEnds (s : string) : bool :=
  match s with
  | EmptyString => true
  | String c _ => Strings.byte_is 10 c
  end.

Fixpoint restOfLine (s : string) : string :=
  match s with
  | EmptyString => EmptyString
  | String c r => if Strings.byte_is 10 c then EmptyString else String c (restOfLine r)
  end.

(** The kind field at the document root, as the specification of the
    decoder means it, for a manifest in block style: the value of the
    first line that starts, in its first column, with the key [kind:].
    No function of the sources computes it; it is what the label that
    the code extracts is compared with. *)
Fixpoint rootKindFrom (atLineStart : bool) (s : string) : option string :=
  match s with
  | EmptyString => None
  | String c r =>
      if (atLineStart && startsWith "kind:" s)%bool then
        Some (Strings.TrimSpace (restOfLine (Strings.drop 5 s)))
      else rootKindFrom (Strings.byte_is 10 c) r
  end.

Definition rootKind (m : assetsFromFile) : option string :=
  rootKindFrom true (string_of_list_byte m).

(** The first position of a list at which [p] holds. *)
Fixpoint firstIndex {A} (p : A -> bool) (l : list A) : option nat :=
  match l with
  | [] => None
  | x :: r => if p x then Some 0%nat else option_map S (firstIndex p r)
  end.

(** A report other than ([Ready], [nil]) ends the stage. *)
Definition halts (r : ResourceStatus * option error) : bool :=
  match r with
  | (Ready, None) => false
  | _ => true
  end.

(** The error [step] returns for a report that ends the stage. *)
Definition stopError (r : ResourceStatus * option error) : error :=
  match r with
  | (_, Some e) => e
  | (_, None) => errors.New "ResourceNotReady"
  end.

Definition isCallControl (e : event) : bool :=
  match e with CallControl _ => true | _ => false end.

Definition isStepperCall (e : event) : bool :=
  match e with
  | CallInit | CallStep | CallLast | CallControl _ => true
  | _ => false
  end.

Definition isFsEvent (e : event) : bool :=
  match e with FsWalk _ | FsReadFile _ => true | _ => false end.

Section Vocabulary.
Context {P : Platform} {E : Externals P}.

(** The stage under the cursor, when the cursor is inside the list. *)
Definition currentStage (n : NFD) : option controlFunc :=
  if (0 <=? idx n) && (idx n <? GoInt.len (controls n))
  then nth_error (controls n) (Z.to_nat (idx n))
  else None.

(** What the functions of a stage would report, one after the other
    and each on the cluster as the one before left it, if all of them
    were called. *)
Fixpoint reports (stage : controlFunc) (n : NFD) (c : Cluster)
  : list (ResourceStatus * option error) :=
  match stage with
  | [] => []
  | fs :: rest =>
      let '(r, c') := runControl fs n c in r :: reports rest n c'
  end.

(** The cluster after the calls of all functions of [stage]. *)
Fixpoint clusterAfter (stage : controlFunc) (n : NFD) (c : Cluster) : Cluster :=
  match stage with
  | [] => c
  | fs :: rest => clusterAfter rest n (snd (runControl fs n c))
  end.

(** The state once [step] has been entered. *)
Definition stepped (s : Sys) : Sys :=
  {| nfd := nfd s; cluster := cluster s; disk := disk s;
     trace := (trace s ++ [CallStep])%list |}.

(** The functions of [stage] that a run of the stage calls: those up
    to and including the first whose report ends the stage. *)
Definition called (stage : controlFunc) (n : NFD) (c : Cluster) : controlFunc :=
  match firstIndex halts (reports stage n c) with
  | Some k => firstn (S k) stage
  | None => stage
  end.

(** Every function of the stage reports ([Ready], [nil]). *)
Definition allReady (stage : controlFunc) (n : NFD) (c : Cluster) : bool :=
  forallb (fun r => negb (halts r)) (reports stage n c).

(** [k] calls of [step] in a row, whatever each of them returns. *)
Fixpoint stepMany (k : nat) : M unit :=
  match k with
  | O => ret tt
  | S k' => step ;;; stepMany k'
  end.

(** The state in which the loop of [Reconcile] begins its pass number
    [j] (counting from 0), when it gets that far: each pass before it
    had [step] return [nil] and [last] return [false]. *)
Fixpoint passes (j : nat) (s : Sys) : option Sys :=
  match j with
  | O => Some s
  | S j' =>
      match step s with
      | (Ret None, s1) =>
          match last s1 with
          | (Ret false, s2) => passes j' s2
          | _ => None
          end
      | _ => None
      end
  end.

(** The state in which [Reconcile] calls [init], after a fetch that
    went well. *)
Definition fetched (req : Request) (s : Sys) : Sys :=
  {| nfd := nfd s; cluster := cluster s; disk := disk s;
     trace := (trace s ++
               [LogInfo reconcilerLog "Fetch the NodeFeatureDiscovery instance" [];
                ApiGet (NamespacedName_ req);
                LogInfo reconcilerLog "Ready to apply components" []])%list |}.

(** The state in which [init] has made its three assignments. *)
Definition initialised (r : NodeFeatureDiscoveryReconciler)
    (i : NodeFeatureDiscovery) (s : Sys) : Sys :=
  {| nfd := set_idx 0 (set_ins (Some i) (set_rec (Some r) (nfd s)));
     cluster := cluster s; disk := disk s;
     trace := (trace s ++ [CallInit])%list |}.

(** The state in which [addState] has appended a stage. *)
Definition withStage (res : Resources) (ctrl : controlFunc) (s : Sys) : Sys :=
  {| nfd := set_resources (resources (nfd s) ++ [res])%list
              (set_controls (controls (nfd s) ++ [ctrl])%list (nfd s));
     cluster := cluster s; disk := disk s; trace := trace s |}.

(** A computation that leaves stepper, cluster and disk alone, calls
    nothing of the stepper, and needs no bound on its steps. *)
Definition framed {A} (m : M A) : Prop :=
  forall s,
    nfd (snd (m s)) = nfd s /\ cluster (snd (m s)) = cluster s /\
    disk (snd (m s)) = disk s /\ fst (m s) <> OutOfFuel /\
    exists evs, trace (snd (m s)) = (trace s ++ evs)%list /\
                forallb (fun e => negb (isStepperCall e)) evs = true.

(** The state after one more event. *)
Definition logged (e : event) (s : Sys) : Sys :=
  {| nfd := nfd s; cluster := cluster s; disk := disk s;
     trace := (trace s ++ [e])%list |}.

(** The slice the loop body indexes: the match, cut at the colons. *)
Definition pieces (m : assetsFromFile) : list string :=
  Strings.Split (FindString reg (string_of_list_byte m)) ":"%char.

(** The kind label of a manifest, when it has one. *)
Definition labelOf (m : assetsFromFile) : option string :=
  match nth_error (pieces m) 1%nat with
  | Some piece => Some (Strings.TrimSpace piece)
  | None => None
  end.

(** The case of the [switch] a manifest falls into. *)
Definition caseOfManifest (m : assetsFromFile) : option (field * Ctl.control) :=
  match labelOf m with
  | Some kind => caseOf kind
  | None => None
  end.

Definition recognized (m : assetsFromFile) : bool :=
  match caseOfManifest m with Some _ => true | None => false end.

Definition hasLabel (m : assetsFromFile) : bool :=
  match labelOf m with Some _ => true | None => false end.

Definition unrecognized (m : assetsFromFile) : bool :=
  (hasLabel m && negb (recognized m))%bool.

Definition fieldIs (f : field) (m : assetsFromFile) : bool :=
  match caseOfManifest m with
  | Some (f', _) => if field_eq_dec f f' then true else false
  | None => false
  end.

(** The control functions of the recognized manifests, in their order. *)
Fixpoint controlsOf (ms : list assetsFromFile) : controlFunc :=
  match ms with
  | [] => []
  | m :: rest =>
      match caseOfManifest m with
      | Some (_, c) => c :: controlsOf rest
      | None => controlsOf rest
      end
  end.

(** The bundle after decoding the recognized manifests of [ms], in
    their order, into [res]. *)
Fixpoint bundleOf (ms : list assetsFromFile) (res : Resources) : Resources :=
  match ms with
  | [] => res
  | m :: rest =>
      match caseOfManifest m with
      | Some (f, _) =>
          bundleOf rest (setField f (fst (Decode f m (getField f res))) res)
      | None => bundleOf rest res
      end
  end.

(** The log entry of a skipped manifest. *)
Definition skipEvent (m : assetsFromFile) : event :=
  LogInfo packageLog "Unknown Resource: "
    [("Kind", match labelOf m with Some k => k | None => EmptyString end)].

End Vocabulary.

(* ------------------------------------------------------------------ *)
(** ** A small world to run the code in *)

Module Fixture.

(** The cluster is the list of the objects that exist, each with the
    stage it belongs to; an instance is its name; a decoded object is
    the bytes it was decoded from. *)
#[local] Instance platform : Platform := {|
  Cluster := list (Z * Ctl.control);
  NodeFeatureDiscovery := string;
  NodeFeatureDiscovery_zero := EmptyString;
  NodeFeatureDiscovery_Name := fun i => i;
  Ctx := unit;
  obj := fun _ => list byte;
  obj_zero := fun _ => []
|}.

Definition control_eqb (a b : Ctl.control) : bool :=
  match a, b with
  | Ctl.Namespace, Ctl.Namespace
  | Ctl.ServiceAccount, Ctl.ServiceAccount
  | Ctl.ClusterRole, Ctl.ClusterRole
  | Ctl.ClusterRoleBinding, Ctl.ClusterRoleBinding
  | Ctl.Role, Ctl.Role
  | Ctl.RoleBinding, Ctl.RoleBinding
  | Ctl.ConfigMap, Ctl.ConfigMap
  | Ctl.DaemonSet, Ctl.DaemonSet
  | Ctl.Service, Ctl.Service
  | Ctl.SecurityContextConstraints, Ctl.SecurityContextConstraints => true
  | _, _ => false
  end.

Definition exists_in (cl : list (Z * Ctl.control)) (stage : Z) (c : Ctl.control)
  : bool :=
  existsb (fun x => (fst x =? stage) && control_eqb c (snd x))%bool cl.

(** The decoder refuses a manifest that holds an exclamation mark and
    otherwise replaces the object by the bytes. *)
Definition decode (f : field) (m : assetsFromFile) (o : list byte)
  : list byte * option error :=
  if existsb (Byte.eqb x21) m
  then (o, Some (foreignError "yaml" "cannot unmarshal"))
  else (m, None).

(** A control function creates the object of its stage when it is
    missing, and says [NotReady] for a daemon set it has just created;
    the one for the security context constraints fails on a cluster
    without them. *)
Definition control (c : Ctl.control) (n : NFD) (cl : list (Z * Ctl.control))
  : (ResourceStatus * option error) * list (Z * Ctl.control) :=
  if exists_in cl (idx n) c then ((Ready, None), cl)
  else match c with
       | Ctl.DaemonSet => ((NotReady, None), (idx n, c) :: cl)
       | Ctl.SecurityContextConstraints =>
           ((NotReady, Some (StatusError "Forbidden" "no such resource type")), cl)
       | _ => ((Ready, None), (idx n, c) :: cl)
       end.

Definition externals : Externals platform :=
  {| Decode := decode; runControl := control |}.

(** Control functions that report a daemon set they have just created
    as a plain error with the text of the not-ready error of [step]. *)
Definition controlPlain (c : Ctl.control) (n : NFD) (cl : list (Z * Ctl.control))
  : (ResourceStatus * option error) * list (Z * Ctl.control) :=
  match c with
  | Ctl.DaemonSet =>
      if exists_in cl (idx n) c then ((Ready, None), cl)
      else ((Ready, Some (errors.New "ResourceNotReady")), (idx n, c) :: cl)
  | _ => control c n cl
  end.

Definition externalsPlain : Externals platform :=
  {| Decode := decode; runControl := controlPlain |}.

Definition manifest (kind name : string) : assetsFromFile :=
  list_byte_of_string
    ("apiVersion: v1" ++ nl ++ "kind: " ++ kind ++ nl ++
     "metadata:" ++ nl ++ "  name: " ++ name ++ nl).

Definition fileVisit (path : string) : visit :=
  {| visit_path := path; visit_info := Some {| IsDir := false |};
     visit_err := None |}.

Definition dirVisit (path : string) : visit :=
  {| visit_path := path; visit_info := Some {| IsDir := true |};
     visit_err := None |}.

(** A directory given by its files, with names and contents. *)
Definition files := list (string * assetsFromFile).

Fixpoint contentOf (fs : files) (path : string) : list byte * option error :=
  match fs with
  | [] => ([], Some (foreignError "*fs.PathError" "no such file or directory"))
  | (p, b) :: r => if String.eqb p path then (b, None) else contentOf r path
  end.

Definition diskOf (master worker : files) : FileSystem :=
  {| Walk := fun root =>
       if String.eqb root "/opt/nfd/master"
       then dirVisit root :: map (fun f => fileVisit (fst f)) master
       else if String.eqb root "/opt/nfd/worker"
       then dirVisit root :: map (fun f => fileVisit (fst f)) worker
       else [{| visit_path := root; visit_info := None;
                visit_err := Some (foreignError "*fs.PathError"
                                     "no such file or directory") |}];
     ReadFile := contentOf (master ++ worker)%list |}.

Definition masterFiles : files :=
  [("/opt/nfd/master/0100_namespace.yaml", manifest "Namespace" "nfd");
   ("/opt/nfd/master/0200_serviceaccount.yaml", manifest "ServiceAccount" "nfd-master");
   ("/opt/nfd/master/0300_daemonset.yaml", manifest "DaemonSet" "nfd-master")].

Definition workerFiles : files :=
  [("/opt/nfd/worker/0100_serviceaccount.yaml", manifest "ServiceAccount" "nfd-worker");
   ("/opt/nfd/worker/0200_scc.yaml", manifest "SecurityContextConstraints" "nfd-worker");
   ("/opt/nfd/worker/0300_daemonset.yaml", manifest "DaemonSet" "nfd-worker")].

Definition disk0 : FileSystem := diskOf masterFiles workerFiles.

(** Four manifests of kinds the code knows, two of them service
    accounts, and one of a kind it does not know. *)
Definition mixedFiles : files :=
  [("/opt/nfd/master/0100_namespace.yaml", manifest "Namespace" "nfd");
   ("/opt/nfd/master/0200_serviceaccount.yaml", manifest "ServiceAccount" "first");
   ("/opt/nfd/master/0250_frobnicator.yaml", manifest "Frobnicator" "frob");
   ("/opt/nfd/master/0300_serviceaccount.yaml", manifest "ServiceAccount" "second");
   ("/opt/nfd/master/0400_daemonset.yaml", manifest "DaemonSet" "nfd-master")].

Definition diskMixed : FileSystem := diskOf mixedFiles workerFiles.

(** A daemon set the decoder refuses, after a manifest it accepts. *)
Definition brokenFiles : files :=
  [("/opt/nfd/worker/0100_serviceaccount.yaml", manifest "ServiceAccount" "nfd-worker");
   ("/opt/nfd/worker/0300_daemonset.yaml", manifest "DaemonSet" "nfd-worker!");
   ("/opt/nfd/worker/0400_scc.yaml", manifest "SecurityContextConstraints" "nfd-worker")].

Definition diskBroken : FileSystem := diskOf masterFiles brokenFiles.

(** A file without any [kind:] in it, after a manifest. *)
Definition notes : assetsFromFile :=
  list_byte_of_string ("These manifests are applied by the operator." ++ nl).

Definition strayFiles : files :=
  [("/opt/nfd/master/0100_namespace.yaml", manifest "Namespace" "nfd");
   ("/opt/nfd/master/README", notes);
   ("/opt/nfd/master/0300_daemonset.yaml", manifest "DaemonSet" "nfd-master")].

Definition diskStray : FileSystem := diskOf strayFiles workerFiles.

(** A namespace manifest with a comment above it, and one with a
    nested field of the name [kind] before the one at the root. *)
Definition commented : assetsFromFile :=
  list_byte_of_string
    ("# kind: Pod" ++ nl ++ "kind: Namespace" ++ nl ++
     "metadata:" ++ nl ++ "  name: nfd" ++ nl).

Definition nested : assetsFromFile :=
  list_byte_of_string
    ("metadata:" ++ nl ++ "  name: nfd" ++ nl ++ "  labels:" ++ nl ++
     "    kind: Role" ++ nl ++ "kind: Namespace" ++ nl).

(** The process right after its start, on a cluster with the objects
    [cl]. *)
Definition boot (d : FileSystem) (cl : list (Z * Ctl.control)) : Sys :=
  {| nfd := NFD_zero; cluster := cl; disk := d; trace := [] |}.

(** A client whose [Get] finds the instance by its name, does not find
    one named "gone", and times out on one named "slow". *)
Definition reconciler : NodeFeatureDiscoveryReconciler :=
  {| Get := fun _ key _ i =>
       if String.eqb (Name key) "gone"
       then (i, Some (StatusError "NotFound" "not found"))
       else if String.eqb (Name key) "slow"
       then (i, Some (StatusError "Timeout" "context deadline exceeded"))
       else (Name key, None);
     AssetsDir := "/opt/nfd" |}.

Definition request (name : string) : Request :=
  {| NamespacedName_ := {| Namespace_ := "openshift-nfd"; Name := name |} |}.

(** A cluster on which the first stage is ready and the daemon set of
    the second is missing. *)
Definition halfReady : list (Z * Ctl.control) :=
  [(0, Ctl.DaemonSet); (1, Ctl.SecurityContextConstraints)].

(** [Reconcile] on [halfReady]: the state after [init], and the state
    at the second pass of the loop. *)
Definition afterInit : Sys :=
  snd (init (E := externals) reconciler "nfd"
         (fetched (request "nfd") (boot disk0 halfReady))).

Definition secondPass : Sys :=
  match passes (E := externals) 1 afterInit with
  | Some t => t
  | None => afterInit
  end.

(** The stepper with its stages built, the cursor at [i], on a cluster
    with the objects [cl]. *)
Definition running (i : Z) (cl : list (Z * Ctl.control)) : Sys :=
  {| nfd := set_idx i (nfd afterInit); cluster := cl; disk := disk0;
     trace := [] |}.

Definition stageMaster : controlFunc :=
  [Ctl.Namespace; Ctl.ServiceAccount; Ctl.DaemonSet].

Definition stageWorker : controlFunc :=
  [Ctl.ServiceAccount; Ctl.SecurityContextConstraints; Ctl.DaemonSet].

(** What [getAssetsFrom] finds in a directory, and the state it
    leaves. *)
Definition assetsIn (d : FileSystem) (path : string) : list assetsFromFile :=
  match fst (getAssetsFrom path (boot d [])) with
  | Ret ms => ms
  | _ => []
  end.

Definition scanned (d : FileSystem) (path : string) : Sys :=
  snd (getAssetsFrom path (boot d [])).

(** What [addResourcesControls] builds from a directory, and the
    state it leaves. *)
Definition stageOf (d : FileSystem) (path : string) : Resources * controlFunc :=
  match fst (addResourcesControls (E := externals) path (boot d [])) with
  | Ret st => st
  | _ => (Resources_zero, [])
  end.

Definition constructed (d : FileSystem) (path : string) : Sys :=
  snd (addResourcesControls (E := externals) path (boot d [])).

End Fixture.

(* ------------------------------------------------------------------ *)
(** ** The event filter of the controller *)

(** [event.UpdateEvent]: the two objects of an update, [None] for [nil]. *)
Record UpdateEvent (Object : Type) :=
  { ObjectOld : option Object; ObjectNew : option Object }.

(** What [klog.Error] is called with. *)
Definition klogEntry := string.

(** validateUpdateEvent looks at an update event and returns true or
    false depending on whether the update event has runtime objects to
    update.  The value comes with the entries written to [klog]. *)
Definition validateUpdateEvent {Object : Type} (e : UpdateEvent Object)
  : bool * list klogEntry :=
  match ObjectOld e with
  | None => (false, ["Update event has no old runtime object to update"])
  | Some _ =>
      match ObjectNew e with
      | None => (false, ["Update event has no new runtime object for update"])
      | Some _ => (true, [])
      end
  end.

(* ------------------------------------------------------------------ *)
(** ** Vocabulary of the further properties *)

(** Has [Lstat] given file information for this visit? *)
Definition hasInfo (v : visit) : bool :=
  match visit_info v with Some _ => true | None => false end.

(** Is the visit that of something other than a directory? *)
Definition isFile (v : visit) : bool :=
  match visit_info v with Some info => negb (IsDir info) | None => false end.

(** The paths of a walk that are no directories, in the order of the walk. *)
Definition filesOf (vs : list visit) : list string :=
  map visit_path (filter isFile vs).

(** Can the file be read? *)
Definition readable (d : FileSystem) (file : string) : bool :=
  match snd (ReadFile d file) with None => true | Some _ => false end.

(** A character of a line that is no word character. *)
Definition padding (c : ascii) : bool :=
  (negb (isWord c) && inClass Dot c)%bool.

(** The text before the first colon, all of it when there is none. *)
Definition upToColon (s : string) : string :=
  hd EmptyString (Strings.Split s ":").

(** The control functions of a stage, as the events of their calls. *)
Definition callsOfStage (stage : controlFunc) : list event :=
  (CallStep :: map CallControl stage ++ [CallLast])%list.

(** The events of the passes of the loop of [Reconcile] over stages that
    are all ready. *)
Fixpoint callsOfStages (stages : list controlFunc) : list event :=
  match stages with
  | [] => []
  | stage :: rest => (callsOfStage stage ++ callsOfStages rest)%list
  end.

(** Two states that differ in nothing but the cursor and the bindings
    of the stepper. *)
Definition sameStages {P : Platform} (s t : Sys) : Prop :=
  controls (nfd s) = controls (nfd t) /\
  resources (nfd s) = resources (nfd t) /\
  cluster s = cluster t /\ disk s = disk t /\ trace s = trace t.

Section FurtherVocabulary.
Context {P : Platform} {E : Externals P}.

(** Every stage of [stages] is ready when its turn comes: the first on
    the cluster [c] with the stepper [n], each next one with the cursor
    one further and on the cluster as the stage before left it. *)
Fixpoint readyFrom (stages : list controlFunc) (n : NFD) (c : Cluster) : bool :=
  match stages with
  | [] => true
  | stage :: rest =>
      (allReady stage n c &&
       readyFrom rest (set_idx (idx n + 1) n) (clusterAfter stage n c))%bool
  end.

(** The cluster after all those stages. *)
Fixpoint clusterAfterStages (stages : list controlFunc) (n : NFD) (c : Cluster)
  : Cluster :=
  match stages with
  | [] => c
  | stage :: rest =>
      clusterAfterStages rest (set_idx (idx n + 1) n) (clusterAfter stage n c)
  end.

End FurtherVocabulary.

(** More of the small world: a directory with a sub-directory, a file
    that cannot be read, a directory that is missing, and clusters on
    which everything is ready. *)
Module FixtureMore.

Definition nestedVisits : list visit :=
  [Fixture.dirVisit "/opt/nfd/master";
   Fixture.fileVisit "/opt/nfd/master/0100_namespace.yaml";
   Fixture.dirVisit "/opt/nfd/master/rbac";
   Fixture.fileVisit "/opt/nfd/master/rbac/0200_serviceaccount.yaml";
   Fixture.fileVisit "/opt/nfd/master/secret.yaml"].

(** [secret.yaml] is listed by the walk and cannot be read. *)
Definition diskLocked : FileSystem :=
  {| Walk := fun root =>
       if String.eqb root "/opt/nfd/master" then nestedVisits
       else [Fixture.dirVisit root];
     ReadFile := fun file =>
       if String.eqb file "/opt/nfd/master/0100_namespace.yaml"
       then (Fixture.manifest "Namespace" "nfd", None)
       else if String.eqb file "/opt/nfd/master/rbac/0200_serviceaccount.yaml"
       then (Fixture.manifest "ServiceAccount" "nfd-master", None)
       else ([], Some (foreignError "*fs.PathError" "permission denied")) |}.

(** The same directory with nothing that cannot be read. *)
Definition diskNested : FileSystem :=
  {| Walk := fun root =>
       if String.eqb root "/opt/nfd/master" then removelast nestedVisits
       else [Fixture.dirVisit root];
     ReadFile := ReadFile diskLocked |}.

(** A disk on which the worker directory holds a file without marker. *)
Definition diskHalf : FileSystem :=
  Fixture.diskOf Fixture.masterFiles
    [("/opt/nfd/worker/README", Fixture.notes)].

Definition allReadyCluster : list (Z * Ctl.control) :=
  [(0, Ctl.DaemonSet); (1, Ctl.SecurityContextConstraints); (1, Ctl.DaemonSet)].

(** A cluster on which the first stage is ready and the security
    context constraints of the second are missing. *)
Definition forbidding : list (Z * Ctl.control) := [(0, Ctl.DaemonSet)].

Definition started (cl : list (Z * Ctl.control)) : Sys :=
  snd (init (E := Fixture.externals) Fixture.reconciler "nfd"
         (fetched (Fixture.request "nfd") (Fixture.boot Fixture.disk0 cl))).

Definition secondPassOn (cl : list (Z * Ctl.control)) : Sys :=
  match passes (E := Fixture.externals) 1 (started cl) with
  | Some t => t
  | None => started cl
  end.

(** The state in which the first [init] has built the master stage of
    [diskHalf] and is about to build the worker stage. *)
Definition masterBuilt : Sys :=
  match addResourcesControls (E := Fixture.externals) "/opt/nfd/master"
          (initialised Fixture.reconciler "nfd" (Fixture.boot diskHalf [])) with
  | (Ret (res, ctl), sa) => withStage res ctl sa
  | (_, sa) => sa
  end.

(** What the first [init] gets for the master stage of [diskHalf], and
    the states it goes through. *)
Definition halfStart : Sys :=
  initialised Fixture.reconciler "nfd" (Fixture.boot diskHalf []).

Definition masterStage : Resources * controlFunc :=
  match fst (addResourcesControls (E := Fixture.externals) "/opt/nfd/master"
               halfStart) with
  | Ret st => st
  | _ => (Resources_zero, [])
  end.

Definition masterScanned : Sys :=
  snd (addResourcesControls (E := Fixture.externals) "/opt/nfd/master" halfStart).

Definition workerFailed : Sys :=
  snd (addResourcesControls (E := Fixture.externals) "/opt/nfd/worker" masterBuilt).

(** A master directory with the manifest of a pod in it. *)
Definition diskPod : FileSystem :=
  Fixture.diskOf
    [("/opt/nfd/master/0100_namespace.yaml", Fixture.manifest "Namespace" "nfd");
     ("/opt/nfd/master/0200_pod.yaml", Fixture.manifest "Pod" "nfd-probe")]
    Fixture.workerFiles.

(** A decoder that, like an unmarshaller handed an object that is not
    empty, keeps what the object holds and adds what the bytes say. *)
Definition decodeInto (f : field) (m : assetsFromFile) (o : list byte)
  : list byte * option error :=
  if existsb (Byte.eqb x21) m
  then (o, Some (foreignError "yaml" "cannot unmarshal"))
  else ((o ++ m)%list, None).

Definition externalsInto : Externals Fixture.platform :=
  @Build_Externals Fixture.platform decodeInto Fixture.control.

(** A service with a remark after the value of its kind field. *)
Definition remarked : string :=
  "apiVersion: v1" ++ nl ++ "kind: Service # the core one ..." ++ nl ++
  "metadata:" ++ nl ++ "  name: nfd-master" ++ nl.

End FixtureMore.

(* ------------------------------------------------------------------ *)
(** ** Properties of the stepper *)

Unset Implicit Arguments.

Section StepperProperties.
Context {P : Platform} {E : Externals P}.

Lemma firstIndex_Some {A} (p : A -> bool) (l : list A) (k : nat) :
  firstIndex p l = Some k ->
  (exists x, nth_error l k = Some x /\ p x = true) /\
  (forall j x, (j < k)%nat -> nth_error l j = Some x -> p x = false).
Proof.
  revert k; induction l as [|a l IH]; intros k H; simpl in H.
  - discriminate.
  - destruct (p a) eqn:Ha.
    + inversion H; subst. split.
      * exists a; simpl; auto.
      * intros j x Hj; lia.
    + destruct (firstIndex p l) as [k'|] eqn:Hk; simpl in H; inversion H; subst.
      destruct (IH k' eq_refl) as [Hx Hlt]. split.
      * exact Hx.
      * intros [|j] x Hj Hn; simpl in Hn.
        -- inversion Hn; subst; exact Ha.
        -- apply (Hlt j); [lia | exact Hn].
Qed.

Lemma firstIndex_None {A} (p : A -> bool) (l : list A) :
  firstIndex p l = None <-> forallb (fun x => negb (p x)) l = true.
Proof.
  induction l as [|a l IH]; simpl.
  - tauto.
  - destruct (p a); simpl.
    + split; discriminate.
    + destruct (firstIndex p l); simpl in *.
      * split; [discriminate|]. intros H; apply IH in H; discriminate.
      * split; intros _; [apply IH|]; reflexivity.
Qed.

Lemma reports_length (stage : controlFunc) (n : NFD) (c : Cluster) :
  List.length (reports stage n c) = List.length stage.
Proof.
  revert c; induction stage as [|f r IH]; intros c; simpl.
  - reflexivity.
  - destruct (runControl f n c) as [x c']; simpl; rewrite IH; reflexivity.
Qed.

(** The loop of [step], in one equation: it calls the functions up to
    and including the first whose report ends the stage, and no other. *)
Lemma stepRange_run (stage : controlFunc) (s : Sys) :
  let rs := reports stage (nfd s) (cluster s) in
  let called := called stage (nfd s) (cluster s) in
  fst (stepRange stage s) =
    Ret (match firstIndex halts rs with
         | Some k => option_map stopError (nth_error rs k)
         | None => None
         end) /\
  nfd (snd (stepRange stage s)) = nfd s /\
  disk (snd (stepRange stage s)) = disk s /\
  cluster (snd (stepRange stage s)) = clusterAfter called (nfd s) (cluster s) /\
  trace (snd (stepRange stage s)) = (trace s ++ map CallControl called)%list.
Proof.
  unfold called.
  revert s; induction stage as [|f rest IH]; intros s.
  - simpl. rewrite app_nil_r. repeat split; reflexivity.
  - cbn [stepRange reports]. unfold bind at 1. unfold callControl.
    unfold bind, getNFD, emit, getCluster, putCluster, ret; cbn [nfd cluster disk trace].
    destruct (runControl f (nfd s) (cluster s)) as [[stat err] c'] eqn:Hrun.
    cbn [nfd cluster disk trace firstIndex halts].
    destruct err as [e|].
    + destruct stat; cbn [fst snd nfd cluster disk trace firstn map clusterAfter
                            nth_error option_map stopError];
        rewrite Hrun; repeat split; reflexivity.
    + destruct stat; cbn [isReady negb].
      * specialize (IH {| nfd := nfd s; cluster := c'; disk := disk s;
                          trace := (trace s ++ [CallControl f])%list |}).
        cbn [nfd cluster disk trace] in IH.
        destruct IH as (H1 & H2 & H3 & H4 & H5).
        rewrite H1, H2, H3, H4, H5.
        destruct (firstIndex halts (reports rest (nfd s) c')) as [k|];
          cbn [option_map nth_error firstn map clusterAfter];
          rewrite Hrun; cbn [snd]; rewrite <- app_assoc; repeat split; reflexivity.
      * cbn [fst snd nfd cluster disk trace firstn map clusterAfter
               nth_error option_map stopError].
        rewrite Hrun; repeat split; reflexivity.
Qed.

Lemma currentStage_index (n : NFD) (stage : controlFunc) (s : Sys) :
  currentStage n = Some stage ->
  index (controls n) (idx n) s = (Ret stage, s).
Proof.
  unfold currentStage, index. intros H.
  destruct ((0 <=? idx n) && (idx n <? GoInt.len (controls n)))%bool;
    [|discriminate].
  rewrite H. reflexivity.
Qed.

Lemma currentStage_range (n : NFD) (stage : controlFunc) :
  currentStage n = Some stage -> 0 <= idx n < GoInt.len (controls n).
Proof.
  unfold currentStage. intros H.
  destruct ((0 <=? idx n) && (idx n <? GoInt.len (controls n)))%bool eqn:Hb;
    [|discriminate].
  apply andb_true_iff in Hb. destruct Hb as [H0 H1].
  apply Z.leb_le in H0. apply Z.ltb_lt in H1. lia.
Qed.

Lemma currentStage_None_index (n : NFD) (s : Sys) :
  currentStage n = None ->
  index (controls n) (idx n) s =
    (Panic (IndexOutOfRange (idx n) (GoInt.len (controls n))), s).
Proof.
  unfold currentStage, index. intros H.
  destruct ((0 <=? idx n) && (idx n <? GoInt.len (controls n)))%bool;
    [|reflexivity].
  rewrite H. reflexivity.
Qed.

(** [step] on a cursor inside the list, in terms of its loop. *)
Lemma step_inside (s : Sys) (stage : controlFunc) :
  currentStage (nfd s) = Some stage ->
  step s =
    match stepRange stage (stepped s) with
    | (Ret (Some e), s') => (Ret (Some e), s')
    | (Ret None, s') =>
        (Ret None, {| nfd := set_idx (GoInt.add (idx (nfd s')) 1) (nfd s');
                      cluster := cluster s'; disk := disk s';
                      trace := trace s' |})
    | (Panic p, s') => (Panic p, s')
    | (OutOfFuel, s') => (OutOfFuel, s')
    end.
Proof.
  intros H. unfold step, bind at 1, emit. unfold bind at 1, getNFD.
  fold (stepped s). unfold bind at 1.
  change (nfd (stepped s)) with (nfd s).
  rewrite (currentStage_index _ _ _ H).
  unfold bind at 1.
  destruct (stepRange stage (stepped s)) as [[[e|]|p|] s']; try reflexivity.
Qed.

(** [step] on a cursor outside the list panics on the index, before
    any change to the stepper. *)
Lemma step_outside (s : Sys) :
  currentStage (nfd s) = None ->
  step s = (Panic (IndexOutOfRange (idx (nfd s)) (GoInt.len (controls (nfd s)))),
            stepped s).
Proof.
  intros H. unfold step, bind at 1, emit. unfold bind at 1, getNFD.
  fold (stepped s). unfold bind at 1.
  change (nfd (stepped s)) with (nfd s).
  rewrite (currentStage_None_index _ _ H). reflexivity.
Qed.

End StepperProperties.

Section CursorProperties.
Context {P : Platform} {E : Externals P}.

Lemma wrap_small (z : Z) :
  GoInt.MinInt <= z <= GoInt.MaxInt -> GoInt.wrap z = z.
Proof.
  unfold GoInt.MinInt, GoInt.MaxInt, GoInt.wrap. intros H.
  rewrite Z.mod_small; lia.
Qed.

(** What one call of [step] on a cursor inside the list does. *)
Lemma step_run (s : Sys) (stage : controlFunc) :
  currentStage (nfd s) = Some stage ->
  let rs := reports stage (nfd s) (cluster s) in
  let stop := firstIndex halts rs in
  fst (step s) =
    Ret (match stop with
         | Some k => option_map stopError (nth_error rs k)
         | None => None
         end) /\
  nfd (snd (step s)) =
    match stop with
    | Some _ => nfd s
    | None => set_idx (GoInt.add (idx (nfd s)) 1) (nfd s)
    end /\
  disk (snd (step s)) = disk s /\
  cluster (snd (step s)) =
    clusterAfter (called stage (nfd s) (cluster s)) (nfd s) (cluster s) /\
  trace (snd (step s)) =
    (trace s ++ CallStep :: map CallControl (called stage (nfd s) (cluster s)))%list.
Proof.
  intros H rs stop. rewrite (step_inside _ _ H).
  destruct (stepRange_run stage (stepped s)) as (H1 & H2 & H3 & H4 & H5).
  cbn [stepped nfd cluster disk trace] in *.
  fold rs in H1. fold stop in H1.
  destruct (stepRange stage (stepped s)) as [o s'] eqn:Hs.
  cbn [fst snd] in *. subst o.
  rewrite <- app_assoc in H5. cbn [app] in H5.
  destruct stop as [k|] eqn:Hstop.
  - destruct (firstIndex_Some _ _ _ Hstop) as [[r [Hr _]] _].
    rewrite Hr. cbn [option_map fst snd]. auto.
  - cbn [fst snd nfd cluster disk trace]. rewrite H2. auto.
Qed.

Lemma step_keeps_stages (s : Sys) :
  controls (nfd (snd (step s))) = controls (nfd s) /\
  resources (nfd (snd (step s))) = resources (nfd s).
Proof.
  destruct (currentStage (nfd s)) as [stage|] eqn:H.
  - destruct (step_run _ _ H) as (_ & H2 & _). rewrite H2.
    destruct (firstIndex halts (reports stage (nfd s) (cluster s))); auto.
  - rewrite (step_outside _ H). auto.
Qed.

Lemma step_cursor (s : Sys) :
  GoInt.len (controls (nfd s)) <= GoInt.MaxInt ->
  idx (nfd (snd (step s))) = idx (nfd s) \/
  (fst (step s) = Ret None /\ idx (nfd (snd (step s))) = idx (nfd s) + 1).
Proof.
  intros Hlen.
  destruct (currentStage (nfd s)) as [stage|] eqn:H.
  - destruct (step_run _ _ H) as (H1 & H2 & _). rewrite H1, H2.
    destruct (firstIndex halts (reports stage (nfd s) (cluster s))); auto.
    right. split; auto. cbn [set_idx idx]. unfold GoInt.add.
    apply currentStage_range in H. apply wrap_small.
    unfold GoInt.MinInt, GoInt.MaxInt in *. lia.
  - rewrite (step_outside _ H). auto.
Qed.

Lemma stepMany_cursor (k : nat) (s : Sys) :
  GoInt.len (controls (nfd s)) <= GoInt.MaxInt ->
  idx (nfd s) <= idx (nfd (snd (stepMany k s))).
Proof.
  revert s; induction k as [|k IH]; intros s Hlen.
  - simpl. lia.
  - cbn [stepMany]. unfold bind.
    pose proof (step_cursor s Hlen) as Hc.
    pose proof (step_keeps_stages s) as [Hk _].
    destruct (step s) as [[o|p|] s'] eqn:Hs; cbn [fst snd] in *.
    + assert (Hlen' : GoInt.len (controls (nfd s')) <= GoInt.MaxInt)
        by (rewrite Hk; exact Hlen).
      specialize (IH s' Hlen'). lia.
    + destruct Hc as [Hc|[Hc _]]; [lia|discriminate].
    + destruct Hc as [Hc|[Hc _]]; [lia|discriminate].
Qed.

Lemma last_run (s : Sys) :
  last s = (Ret (idx (nfd s) =? GoInt.len (controls (nfd s))),
            {| nfd := nfd s; cluster := cluster s; disk := disk s;
               trace := (trace s ++ [CallLast])%list |}).
Proof. reflexivity. Qed.

(** C1. For every stage and every cursor position that selects it,
    [step] calls the control functions of the stage in list order and
    returns at the first one whose report is not ([Ready], [nil]): the
    calls it makes are exactly those of the functions up to and
    including that one, no later function of the stage is called, and
    the error returned is the one reported, or the not-ready error.  If
    every function reports ready, all are called, in order, and [step]
    returns no error. *)
Theorem step_short_circuits (s : Sys) (stage : controlFunc) :
  currentStage (nfd s) = Some stage ->
  let rs := reports stage (nfd s) (cluster s) in
  match firstIndex halts rs with
  | Some k =>
      (exists r, nth_error rs k = Some r /\ halts r = true /\
                 fst (step s) = Ret (Some (stopError r))) /\
      (forall j r, (j < k)%nat -> nth_error rs j = Some r -> r = (Ready, None)) /\
      trace (snd (step s)) =
        (trace s ++ CallStep :: map CallControl (firstn (S k) stage))%list
  | None =>
      fst (step s) = Ret None /\
      (forall j r, nth_error rs j = Some r -> r = (Ready, None)) /\
      trace (snd (step s)) = (trace s ++ CallStep :: map CallControl stage)%list
  end.
Proof.
  intros H rs.
  destruct (step_run _ _ H) as (H1 & _ & _ & _ & H5).
  fold rs in H1. unfold called in H5. fold rs in H5.
  assert (Hready : forall r, halts r = false -> r = (Ready, None)).
  { intros [[|] [e|]]; simpl; congruence. }
  destruct (firstIndex halts rs) as [k|] eqn:Hstop.
  - destruct (firstIndex_Some _ _ _ Hstop) as [[r [Hr Hh]] Hbefore].
    split; [|split].
    + exists r. rewrite H1, Hr. auto.
    + intros j r' Hj Hn. apply Hready. exact (Hbefore j r' Hj Hn).
    + exact H5.
  - split; [exact H1|split; [|exact H5]].
    intros j r Hn. apply Hready.
    apply firstIndex_None in Hstop. rewrite forallb_forall in Hstop.
    apply nth_error_In in Hn. specialize (Hstop r Hn).
    destruct (halts r); [discriminate|reflexivity].
Qed.

(** C2. On a call of [step] in which every control function of the
    current stage reports ready the cursor goes up by exactly one; on a
    call that returns an error it stays; over any number of calls of
    [step] it never goes down; and [last] returns true exactly when the
    cursor equals the number of stages.  (A slice is never longer than
    [MaxInt].) *)
Theorem cursor_advances_by_one (s : Sys) :
  GoInt.len (controls (nfd s)) <= GoInt.MaxInt ->
  (forall stage, currentStage (nfd s) = Some stage ->
     allReady stage (nfd s) (cluster s) = true ->
     fst (step s) = Ret None /\ idx (nfd (snd (step s))) = idx (nfd s) + 1) /\
  (forall e, fst (step s) = Ret (Some e) ->
     idx (nfd (snd (step s))) = idx (nfd s)) /\
  (forall k, idx (nfd s) <= idx (nfd (snd (stepMany k s)))) /\
  (exists b, fst (last s) = Ret b /\
     (b = true <-> idx (nfd s) = GoInt.len (controls (nfd s)))).
Proof.
  intros Hlen. split; [|split; [|split]].
  - intros stage H Hall.
    destruct (step_run _ _ H) as (H1 & H2 & _). rewrite H1, H2.
    unfold allReady in Hall. apply firstIndex_None in Hall. rewrite Hall.
    split; [reflexivity|]. cbn [set_idx idx]. unfold GoInt.add.
    apply currentStage_range in H. apply wrap_small.
    unfold GoInt.MinInt, GoInt.MaxInt in *. lia.
  - intros e He. destruct (step_cursor s Hlen) as [Hc|[Hc _]]; [exact Hc|].
    rewrite Hc in He. discriminate.
  - intros k. apply stepMany_cursor. exact Hlen.
  - exists (idx (nfd s) =? GoInt.len (controls (nfd s))).
    rewrite last_run. split; [reflexivity|]. apply Z.eqb_eq.
Qed.

End CursorProperties.

(* ------------------------------------------------------------------ *)
(** ** Properties of stage construction *)

Section StageProperties.
Context {P : Platform} {E : Externals P}.

Lemma kindOf_run (m : assetsFromFile) (s : Sys) :
  kindOf m s =
    (match labelOf m with
     | Some kind => Ret kind
     | None => Panic (IndexOutOfRange 1 (GoInt.len (pieces m)))
     end, s).
Proof.
  unfold kindOf, labelOf, index, bind, ret, raise. fold (pieces m).
  cbv zeta.
  change (Z.to_nat 1) with 1%nat.
  destruct (nth_error (pieces m) 1) as [piece|] eqn:Hn.
  - assert (Hlen : (1 < List.length (pieces m))%nat)
      by (apply nth_error_Some; congruence).
    assert (Hb : ((0 <=? 1) && (1 <? GoInt.len (pieces m)))%bool = true).
    { apply andb_true_iff. split; [reflexivity|].
      apply Z.ltb_lt. unfold GoInt.len. lia. }
    rewrite Hb. reflexivity.
  - destruct ((0 <=? 1) && (1 <? GoInt.len (pieces m)))%bool; reflexivity.
Qed.

(** The loop body, case by case. *)
Lemma addManifest_run (m : assetsFromFile) (res : Resources)
      (ctrl : controlFunc) (s : Sys) :
  addManifest m (res, ctrl) s =
    match labelOf m with
    | None => (Panic (IndexOutOfRange 1 (GoInt.len (pieces m))), s)
    | Some kind =>
        match caseOf kind with
        | Some (f, c) =>
            match snd (Decode f m (getField f res)) with
            | Some e => (Panic (PanicError e), s)
            | None =>
                (Ret (setField f (fst (Decode f m (getField f res))) res,
                      (ctrl ++ [c])%list), s)
            end
        | None =>
            (Ret (res, ctrl),
             logged (LogInfo packageLog "Unknown Resource: " [("Kind", kind)]) s)
        end
    end.
Proof.
  unfold addManifest. unfold bind at 1. rewrite kindOf_run.
  destruct (labelOf m) as [kind|]; [|reflexivity].
  destruct (caseOf kind) as [[f c]|]; [|reflexivity].
  destruct (Decode f m (getField f res)) as [o [e|]]; reflexivity.
Qed.

Lemma skipEvent_label (m : assetsFromFile) (kind : string) :
  labelOf m = Some kind ->
  skipEvent m = LogInfo packageLog "Unknown Resource: " [("Kind", kind)].
Proof. unfold skipEvent. intros ->. reflexivity. Qed.

(** A run of the loop that returns: what it returns and what it logs. *)
Lemma manifests_run (ms : list assetsFromFile) :
  forall res ctrl s res' ctrl' s',
    forRange ms addManifest (res, ctrl) s = (Ret (res', ctrl'), s') ->
    res' = bundleOf ms res /\
    ctrl' = (ctrl ++ controlsOf ms)%list /\
    nfd s' = nfd s /\ cluster s' = cluster s /\ disk s' = disk s /\
    trace s' = (trace s ++ map skipEvent (filter unrecognized ms))%list /\
    forallb hasLabel ms = true.
Proof.
  induction ms as [|m ms IH]; intros res ctrl s res' ctrl' s' H.
  - cbn in H. inversion H; subst. cbn. rewrite !app_nil_r. auto 10.
  - cbn [forRange] in H. unfold bind in H. rewrite addManifest_run in H.
    cbn [bundleOf controlsOf filter map forallb].
    unfold unrecognized, recognized, hasLabel, caseOfManifest.
    destruct (labelOf m) as [kind|] eqn:Hl; [|discriminate].
    destruct (caseOf kind) as [[f c]|] eqn:Hc.
    + destruct (Decode f m (getField f res)) as [o [e|]] eqn:Hd;
        cbn [fst snd] in H; [discriminate|].
      apply IH in H. destruct H as (H1 & H2 & H3 & H4 & H5 & H6 & H7).
      cbn [negb andb]. rewrite <- app_assoc in H2. auto 10.
    + apply IH in H. destruct H as (H1 & H2 & H3 & H4 & H5 & H6 & H7).
      cbn [negb andb map]. cbn [logged nfd cluster disk trace] in *.
      rewrite <- app_assoc in H6. cbn [app] in H6.
      rewrite (skipEvent_label _ _ Hl). auto 10.
Qed.


(** The loop is the loop over a prefix followed by the loop over the
    rest. *)
Lemma forRange_app {A B} (xs ys : list A) (body : A -> B -> M B) (acc : B)
      (s : Sys) :
  forRange (xs ++ ys)%list body acc s =
    bind (forRange xs body acc) (forRange ys body) s.
Proof.
  revert acc s; induction xs as [|x xs IH]; intros acc s.
  - reflexivity.
  - cbn [app forRange]. unfold bind.
    destruct (body x acc s) as [[acc'|p|] s1]; try reflexivity.
    rewrite IH. reflexivity.
Qed.

Lemma setField_same (f : field) (v : obj f) (res : Resources) :
  getField f (setField f v res) = v.
Proof. destruct f; reflexivity. Qed.

Lemma setField_other (f g : field) (v : obj f) (res : Resources) :
  f <> g -> getField g (setField f v res) = getField g res.
Proof. destruct f, g; intros H; try reflexivity; congruence. Qed.

Lemma bundleOf_app (xs ys : list assetsFromFile) (res : Resources) :
  bundleOf (xs ++ ys)%list res = bundleOf ys (bundleOf xs res).
Proof.
  revert res; induction xs as [|m xs IH]; intros res; cbn.
  - reflexivity.
  - destruct (caseOfManifest m) as [[f c]|]; apply IH.
Qed.

(** Manifests of other kinds leave a field as it is. *)
Lemma bundleOf_untouched (f : field) (ms : list assetsFromFile) (res : Resources) :
  forallb (fun m => negb (fieldIs f m)) ms = true ->
  getField f (bundleOf ms res) = getField f res.
Proof.
  revert res; induction ms as [|m ms IH]; intros res H; cbn in *.
  - reflexivity.
  - apply andb_true_iff in H. destruct H as [Hm H]. unfold fieldIs in Hm.
    destruct (caseOfManifest m) as [[f' c]|].
    + rewrite (IH _ H). apply setField_other.
      destruct (field_eq_dec f f'); [discriminate|congruence].
    + apply IH. exact H.
Qed.

Lemma controlsOf_length (ms : list assetsFromFile) :
  List.length (controlsOf ms) = List.length (filter recognized ms).
Proof.
  induction ms as [|m ms IH]; cbn [controlsOf filter].
  - reflexivity.
  - unfold recognized at 1.
    destruct (caseOfManifest m) as [[f c]|]; cbn [List.length]; lia.
Qed.




Lemma addResourcesControls_unfold (path : string) (s s1 : Sys)
      (ms : list assetsFromFile) :
  getAssetsFrom path s = (Ret ms, s1) ->
  addResourcesControls path s =
    forRange ms addManifest (Resources_zero, []) s1.
Proof.
  intros H. unfold addResourcesControls, bind. rewrite H. reflexivity.
Qed.

End StageProperties.

(* ------------------------------------------------------------------ *)
(** ** Properties of the extraction of the kind label *)

Section StringFacts.

Lemma append_assoc' (a b c : string) : (a ++ b) ++ c = a ++ (b ++ c).
Proof. induction a as [|x a IH]; cbn; [reflexivity|rewrite IH; reflexivity]. Qed.

Lemma append_empty_r (a : string) : a ++ EmptyString = a.
Proof. induction a as [|x a IH]; cbn; [reflexivity|rewrite IH; reflexivity]. Qed.

Lemma startsWith_app (a b : string) : startsWith a (a ++ b) = true.
Proof.
  induction a as [|x a IH]; cbn.
  - reflexivity.
  - rewrite Ascii.eqb_refl. exact IH.
Qed.

Lemma hasSubstring_here (needle b : string) :
  hasSubstring needle (needle ++ b) = true.
Proof.
  destruct (needle ++ b) as [|c r] eqn:H; cbn.
  - destruct needle; [reflexivity|discriminate].
  - rewrite <- H, startsWith_app. reflexivity.
Qed.

(** [hasSubstring] finds every occurrence. *)
Lemma hasSubstring_app (needle a b : string) :
  hasSubstring needle (a ++ needle ++ b) = true.
Proof.
  induction a as [|x a IH].
  - cbn [append]. apply hasSubstring_here.
  - cbn. rewrite IH. apply orb_true_r.
Qed.

Lemma hasSubstring_tail (needle : string) (c : ascii) (r : string) :
  hasSubstring needle (String c r) = false -> hasSubstring needle r = false.
Proof. cbn. intros H. apply orb_false_iff in H. tauto. Qed.

Lemma hasSubstring_prefix (needle : string) (c : ascii) (r : string) :
  hasSubstring needle (String c r) = false ->
  startsWith needle (String c r) = false.
Proof. cbn [hasSubstring]. intros H. apply orb_false_iff in H. tauto. Qed.

Lemma substring_app (a b : string) :
  substring 0 (String.length a) (a ++ b) = a.
Proof.
  induction a as [|x a IH]; cbn.
  - destruct b; reflexivity.
  - rewrite IH. reflexivity.
Qed.

Lemma isWord_ascii (c : ascii) :
  isWord c = true ->
  Strings.asciiSpace c = false /\ N.ltb (Strings.byte_val c) 128 = true /\
  Strings.byte_is 10 c = false /\ Ascii.eqb c ":" = false.
Proof.
  destruct c as [[] [] [] [] [] [] [] []]; vm_compute; intros H;
    try discriminate H; repeat split.
Qed.

Lemma rev_onto_app (a acc : string) :
  Strings.rev_onto a acc = Strings.rev a ++ acc.
Proof.
  unfold Strings.rev. revert acc; induction a as [|x a IH]; intros acc; cbn.
  - reflexivity.
  - rewrite IH, (IH (String x EmptyString)), append_assoc'. reflexivity.
Qed.

Lemma rev_app (a b : string) :
  Strings.rev (a ++ b) = Strings.rev b ++ Strings.rev a.
Proof.
  induction a as [|x a IH]; cbn.
  - rewrite append_empty_r. reflexivity.
  - change (Strings.rev (String x a ++ b))
      with (Strings.rev_onto (a ++ b) (String x EmptyString)).
    change (Strings.rev (String x a)) with (Strings.rev_onto a (String x EmptyString)).
    rewrite !rev_onto_app, IH, append_assoc'. reflexivity.
Qed.

Lemma rev_involutive (a : string) : Strings.rev (Strings.rev a) = a.
Proof.
  induction a as [|x a IH]; [reflexivity|].
  change (Strings.rev (String x a)) with (Strings.rev_onto a (String x EmptyString)).
  rewrite rev_onto_app, rev_app, IH. reflexivity.
Qed.

(** A text of word characters that is not empty ends, and so its
    reverse begins, with a word character. *)
Lemma rev_word_head (w : string) :
  w <> EmptyString -> allChars isWord w = true ->
  exists c r, Strings.rev w = String c r /\ isWord c = true.
Proof.
  induction w as [|x w IH]; intros Hne Hw; [congruence|].
  cbn in Hw. apply andb_true_iff in Hw. destruct Hw as [Hx Hw].
  change (Strings.rev (String x w)) with (Strings.rev_onto w (String x EmptyString)).
  rewrite rev_onto_app.
  destruct w as [|y w'].
  - exists x, EmptyString. auto.
  - destruct IH as (c & r & Hr & Hc); [discriminate|exact Hw|].
    rewrite Hr. exists c, (r ++ String x EmptyString). auto.
Qed.

Lemma trimHead_word (fuel : nat) (at_head : string -> nat) (s : string) :
  at_head s = 0%nat -> Strings.trimHead fuel at_head s = s.
Proof. intros H. destruct fuel; cbn; [reflexivity|rewrite H; reflexivity]. Qed.

Lemma spaceAtHead_word (c : ascii) (r : string) :
  isWord c = true -> Strings.spaceAtHead (String c r) = 0%nat.
Proof.
  intros H. destruct (isWord_ascii _ H) as (H1 & H2 & _).
  cbn. rewrite H1, H2. reflexivity.
Qed.

Lemma spaceAtTail_word (c : ascii) (r : string) :
  isWord c = true -> Strings.spaceAtTail (String c r) = 0%nat.
Proof.
  intros H. destruct (isWord_ascii _ H) as (H1 & H2 & _).
  cbn. rewrite H1, H2. reflexivity.
Qed.

(** Trimming a word preceded by one blank gives the word. *)
Lemma TrimSpace_blank_word (w : string) :
  w <> EmptyString -> allChars isWord w = true ->
  Strings.TrimSpace (String " " w) = w.
Proof.
  intros Hne Hw. unfold Strings.TrimSpace.
  assert (Hl : Strings.TrimLeftSpace (String " " w) = w).
  { unfold Strings.TrimLeftSpace. cbn [String.length Strings.trimHead].
    change (Strings.spaceAtHead (String " " w)) with 1%nat.
    cbn [Strings.drop]. destruct w as [|x w']; [congruence|].
    cbn in Hw. apply andb_true_iff in Hw. destruct Hw as [Hx _].
    apply trimHead_word. apply spaceAtHead_word. exact Hx. }
  rewrite Hl. unfold Strings.TrimRightSpace.
  destruct (rev_word_head _ Hne Hw) as (c & r & Hr & Hc).
  rewrite trimHead_word.
  - apply rev_involutive.
  - rewrite Hr. apply spaceAtTail_word. exact Hc.
Qed.

Lemma Split_word (w : string) :
  allChars isWord w = true -> Strings.Split w ":" = [w].
Proof.
  induction w as [|x w IH]; intros Hw; cbn.
  - reflexivity.
  - cbn in Hw. apply andb_true_iff in Hw. destruct Hw as [Hx Hw].
    destruct (isWord_ascii _ Hx) as (_ & _ & _ & H4). rewrite H4, (IH Hw).
    reflexivity.
Qed.

End StringFacts.

Section RegexpFacts.

(** A star that succeeds has taken a run of characters of its class. *)
Lemma star_Some (p : ascii -> bool) (k : cont) :
  forall s prev n,
    star p prev s k = Some n ->
    exists w s' prev' m,
      s = w ++ s' /\ allChars p w = true /\ k prev' s' = Some m.
Proof.
  induction s as [|c s IH]; intros prev n H; cbn in H.
  - exists EmptyString, EmptyString, prev, n. auto.
  - destruct (p c) eqn:Hp.
    + destruct (star p (Some c) s k) as [n'|] eqn:Hs.
      * destruct (IH _ _ Hs) as (w & s' & prev' & m & -> & Hw & Hk).
        exists (String c w), s', prev', m. cbn. rewrite Hp, Hw. auto.
      * exists EmptyString, (String c s), prev, n. auto.
    + exists EmptyString, (String c s), prev, n. auto.
Qed.

Lemma lit_Some (l : string) (k : cont) :
  forall s prev n, lit l prev s k = Some n -> exists s', s = l ++ s'.
Proof.
  induction l as [|a l IH]; intros s prev n H; cbn in H.
  - exists s. reflexivity.
  - destruct s as [|c s]; [discriminate|].
    destruct (Ascii.eqb_spec a c) as [->|]; [|discriminate].
    destruct (lit l (Some c) s k) as [n'|] eqn:Hl; [|discriminate].
    destruct (IH _ _ _ Hl) as [s' ->]. exists s'. reflexivity.
Qed.

(** Every match of the pattern of the code holds the marker [kind:],
    after a run of word characters from where the match begins. *)
Lemma match_needs_marker (prev : option ascii) (s : string) (n : nat) :
  matchAt reg prev s accept = Some n ->
  exists w rest, s = w ++ "kind:" ++ rest /\ allChars isWord w = true.
Proof.
  unfold reg. cbn [matchAt]. intros H.
  destruct (atBoundary prev s); [|discriminate].
  apply star_Some in H. destruct H as (w & s' & prev' & m & -> & Hw & Hk).
  apply lit_Some in Hk. destruct Hk as [rest ->].
  exists w, rest. auto.
Qed.

Lemma no_marker_no_match (prev : option ascii) (s : string) :
  hasSubstring "kind:" s = false -> matchAt reg prev s accept = None.
Proof.
  intros H. destruct (matchAt reg prev s accept) as [n|] eqn:Hm; [|reflexivity].
  apply match_needs_marker in Hm. destruct Hm as (w & rest & -> & _).
  rewrite hasSubstring_app in H. discriminate.
Qed.

Lemma no_marker_findFrom (s : string) :
  forall prev, hasSubstring "kind:" s = false -> findFrom reg prev s = None.
Proof.
  induction s as [|c s IH]; intros prev H.
  - cbn [findFrom]. rewrite (@no_marker_no_match _ _ H). reflexivity.
  - cbn [findFrom]. rewrite (@no_marker_no_match _ _ H).
    apply IH. eapply hasSubstring_tail; eauto.
Qed.

(** Without the marker there is no match. *)
Lemma no_marker_FindString (s : string) :
  hasSubstring "kind:" s = false -> FindString reg s = EmptyString.
Proof.
  intros H. unfold FindString. rewrite (no_marker_findFrom s None H). reflexivity.
Qed.

(** Text without the marker that does not end inside a word cannot
    hold the beginning of a match that reaches a marker after it. *)
Lemma marker_not_inside (M : string) :
  forall ps prev w rest,
    ps <> EmptyString ->
    hasSubstring "kind:" ps = false ->
    endsInWord prev ps = false ->
    allChars isWord w = true ->
    ps ++ "kind:" ++ M = w ++ "kind:" ++ rest -> False.
Proof.
  induction ps as [|c ps IH]; intros prev w rest Hne Hsub Hend Hw Heq;
    [congruence|].
  destruct w as [|a w].
  - (* the marker would begin at the head of [ps] *)
    pose proof (@hasSubstring_prefix _ _ _ Hsub) as Hp.
    cbn in Heq. injection Heq as Hc Heq. subst c.
    destruct ps as [|c2 ps]; [cbn in Hend; discriminate|].
    cbn in Heq. injection Heq as Hc Heq. subst c2.
    destruct ps as [|c3 ps]; [cbn in Hend; discriminate|].
    cbn in Heq. injection Heq as Hc Heq. subst c3.
    destruct ps as [|c4 ps]; [cbn in Hend; discriminate|].
    cbn in Heq. injection Heq as Hc Heq. subst c4.
    destruct ps as [|c5 ps]; [cbn in Hend; discriminate|].
    cbn in Heq. injection Heq as Hc Heq. subst c5.
    cbn in Hp. discriminate.
  - cbn in Heq. injection Heq as Hc Heq. subst a.
    cbn in Hw. apply andb_true_iff in Hw. destruct Hw as [Hc Hw].
    destruct ps as [|c2 ps].
    + cbn in Hend. congruence.
    + apply (IH (Some c) w rest); auto.
      * discriminate.
      * eapply hasSubstring_tail; eauto.
Qed.

Lemma no_match_inside (M ps : string) (prev : option ascii) :
  ps <> EmptyString ->
  hasSubstring "kind:" ps = false ->
  endsInWord prev ps = false ->
  matchAt reg prev (ps ++ "kind:" ++ M) accept = None.
Proof.
  intros Hne Hsub Hend.
  destruct (matchAt reg prev (ps ++ "kind:" ++ M) accept) as [n|] eqn:Hm;
    [|reflexivity].
  apply match_needs_marker in Hm. destruct Hm as (w & rest & Heq & Hw).
  exfalso. eapply marker_not_inside; eauto.
Qed.

(** The search passes over such a text and arrives at the marker. *)
Lemma findFrom_skips (M : string) :
  forall ps prev,
    hasSubstring "kind:" ps = false ->
    endsInWord prev ps = false ->
    exists prev', wordBefore prev' = false /\
      findFrom reg prev (ps ++ "kind:" ++ M) = findFrom reg prev' ("kind:" ++ M).
Proof.
  induction ps as [|c ps IH]; intros prev Hsub Hend.
  - exists prev. auto.
  - change ((String c ps) ++ "kind:" ++ M) with (String c (ps ++ "kind:" ++ M)).
    cbn [findFrom].
    change (String c (ps ++ "kind:" ++ M)) with ((String c ps) ++ "kind:" ++ M).
    rewrite (@no_match_inside M (String c ps) prev); [|discriminate|auto|auto].
    apply IH.
    + eapply hasSubstring_tail; eauto.
    + exact Hend.
Qed.

(** A greedy star runs to the end of a run of its class when the run
    stops there and the rest of the pattern accepts there. *)
Lemma star_greedy (p : ascii -> bool) (k : cont) (rest : string) (n : nat) :
  match rest with String r _ => p r = false | EmptyString => True end ->
  forall w prev,
    allChars p w = true ->
    k (lastChar prev w) rest = Some n ->
    star p prev (w ++ rest) k = Some (String.length w + n)%nat.
Proof.
  intros Hstop. induction w as [|c w IH]; intros prev Hw Hk.
  - cbn [append String.length lastChar plus] in *.
    destruct rest as [|r rest']; cbn [star].
    + exact Hk.
    + rewrite Hstop. exact Hk.
  - cbn in Hw. apply andb_true_iff in Hw. destruct Hw as [Hc Hw].
    cbn [append star]. rewrite Hc. cbn [lastChar] in Hk.
    rewrite (IH (Some c) Hw Hk). reflexivity.
Qed.

End RegexpFacts.

Section LabelFacts.

Lemma lastChar_word (w : string) (prev : option ascii) :
  w <> EmptyString -> allChars isWord w = true -> wordBefore (lastChar prev w) = true.
Proof.
  revert prev; induction w as [|c w IH]; intros prev Hne Hw; [congruence|].
  cbn in Hw. apply andb_true_iff in Hw. destruct Hw as [Hc Hw].
  cbn [lastChar]. destruct w as [|d w'].
  - exact Hc.
  - apply IH; [discriminate|exact Hw].
Qed.

Lemma allChars_word_dot (w : string) :
  allChars isWord w = true -> allChars (inClass Dot) w = true.
Proof.
  induction w as [|c w IH]; intros Hw; [reflexivity|].
  cbn in Hw. apply andb_true_iff in Hw. destruct Hw as [Hc Hw].
  cbn. destruct (isWord_ascii _ Hc) as (_ & _ & H3 & _). rewrite H3, (IH Hw).
  reflexivity.
Qed.

(** At the marker the pattern matches the marker, the blank and the
    word after it. *)
Lemma match_at_marker (prev : option ascii) (lbl rest : string) :
  wordBefore prev = false ->
  lbl <> EmptyString -> allChars isWord lbl = true -> lineEnds rest = true ->
  matchAt reg prev ("kind: " ++ lbl ++ rest) accept =
    Some (String.length ("kind: " ++ lbl)).
Proof.
  intros Hprev Hne Hw Hrest.
  unfold reg. cbn [matchAt]. unfold atBoundary at 1. rewrite Hprev.
  cbn.
  rewrite (@star_greedy (inClass Dot) _ rest 0).
  - cbn. rewrite Nat.add_0_r. reflexivity.
  - destruct rest as [|r rest']; [exact I|].
    cbn in Hrest. cbn. rewrite Hrest. reflexivity.
  - apply allChars_word_dot. exact Hw.
  - unfold atBoundary. rewrite (lastChar_word _ _ Hne Hw).
    destruct rest as [|r rest']; [reflexivity|].
    cbn in Hrest. cbn [wordAfter].
    assert (Hr : isWord r = false).
    { destruct (isWord r) eqn:Hr; [|reflexivity].
      destruct (isWord_ascii _ Hr) as (_ & _ & H3 & _). congruence. }
    rewrite Hr. reflexivity.
Qed.

(** The label of a text whose first marker [kind:] is followed by a
    blank and a word that ends the line: that word, whatever the text
    before the marker is, as long as it holds no marker and does not end
    inside a word. *)
Lemma label_of_first_marker (pre lbl rest : string) :
  hasSubstring "kind:" pre = false ->
  endsInWord None pre = false ->
  lbl <> EmptyString -> allChars isWord lbl = true -> lineEnds rest = true ->
  FindString reg (pre ++ "kind: " ++ lbl ++ rest) = "kind: " ++ lbl.
Proof.
  intros Hsub Hend Hne Hw Hrest. unfold FindString.
  destruct (@findFrom_skips (" " ++ lbl ++ rest) pre None Hsub Hend)
    as (prev' & Hprev' & Heq).
  change ("kind:" ++ " " ++ lbl ++ rest) with ("kind: " ++ lbl ++ rest) in Heq.
  rewrite Heq.
  destruct (lbl ++ rest) as [|x y] eqn:Hx.
  - destruct lbl; [congruence|discriminate].
  - rewrite <- Hx. clear Hx.
    change (findFrom reg prev' ("kind: " ++ lbl ++ rest))
      with (match matchAt reg prev' ("kind: " ++ lbl ++ rest) accept with
            | Some n => Some (substring 0 n ("kind: " ++ lbl ++ rest))
            | None => findFrom reg (Some "k"%char) ("ind: " ++ lbl ++ rest)
            end).
    rewrite (match_at_marker _ _ _ Hprev' Hne Hw Hrest).
    rewrite <- (append_assoc' "kind: " lbl rest).
    rewrite substring_app. reflexivity.
Qed.

Lemma pieces_of_marker_line (lbl : string) :
  allChars isWord lbl = true ->
  Strings.Split ("kind: " ++ lbl) ":" = ["kind"; " " ++ lbl].
Proof.
  intros Hw. cbn.
  assert (H : Strings.Split lbl ":" = [lbl]) by (apply Split_word; exact Hw).
  rewrite H. reflexivity.
Qed.

End LabelFacts.

Section ManifestClaims.
Context {P : Platform} {E : Externals P}.

Lemma isWordText_word (lbl : string) :
  isWordText lbl = true -> lbl <> EmptyString /\ allChars isWord lbl = true.
Proof. destruct lbl; cbn; [discriminate|]. intros H. split; [discriminate|exact H]. Qed.

Lemma labelOf_first_marker (pre lbl rest : string) :
  hasSubstring "kind:" pre = false ->
  endsInWord None pre = false ->
  isWordText lbl = true -> lineEnds rest = true ->
  labelOf (list_byte_of_string (pre ++ "kind: " ++ lbl ++ rest)) = Some lbl.
Proof.
  intros Hsub Hend Hlbl Hrest. apply isWordText_word in Hlbl.
  destruct Hlbl as [Hne Hw].
  unfold labelOf, pieces. rewrite string_of_list_byte_of_string.
  rewrite (label_of_first_marker _ _ _ Hsub Hend Hne Hw Hrest).
  rewrite (pieces_of_marker_line _ Hw). cbn [nth_error].
  change (" " ++ lbl) with (String " " lbl).
  rewrite (TrimSpace_blank_word _ Hne Hw). reflexivity.
Qed.

Lemma labelOf_no_marker (m : assetsFromFile) :
  hasSubstring "kind:" (string_of_list_byte m) = false ->
  pieces m = [EmptyString] /\ labelOf m = None.
Proof.
  intros H. unfold labelOf, pieces. rewrite (no_marker_FindString _ H).
  split; reflexivity.
Qed.

Lemma manifests_no_fuel (ms : list assetsFromFile) :
  forall st s, fst (forRange ms addManifest st s) <> OutOfFuel.
Proof.
  induction ms as [|m ms IH]; intros [res ctrl] s.
  - cbn. discriminate.
  - cbn [forRange]. unfold bind. rewrite addManifest_run.
    destruct (labelOf m) as [kind|]; [|cbn; discriminate].
    destruct (caseOf kind) as [[f c]|]; [|apply IH].
    destruct (snd (Decode f m (getField f res))); [cbn; discriminate|apply IH].
Qed.

(** The loop up to a manifest, and the manifest. *)
Lemma manifests_reach (pre post : list assetsFromFile) (m : assetsFromFile)
      (st st1 : Resources * controlFunc) (s s1 : Sys) :
  forRange pre addManifest st s = (Ret st1, s1) ->
  forRange (pre ++ m :: post)%list addManifest st s =
    bind (addManifest m st1) (forRange post addManifest) s1.
Proof.
  intros H. rewrite forRange_app. unfold bind at 1. rewrite H. reflexivity.
Qed.

(** A loop that returns has reached every manifest. *)
Lemma manifests_prefix_returns (pre post : list assetsFromFile)
      (st st' : Resources * controlFunc) (s s' : Sys) :
  forRange (pre ++ post)%list addManifest st s = (Ret st', s') ->
  exists st1 s1, forRange pre addManifest st s = (Ret st1, s1).
Proof.
  rewrite forRange_app. unfold bind. intros H.
  destruct (forRange pre addManifest st s) as [[st1|p|] s1];
    try discriminate. eauto.
Qed.

(** C4, as the code has it.  When the loop of [addResourcesControls]
    comes to a manifest of a recognized kind that the decoder refuses,
    stage construction panics with the error of the decoder: nothing is
    returned to the caller, whose result type has no place for an
    error.  And a directory that holds a manifest the decoder refuses
    whatever the object it decodes into, never yields a stage: the
    construction panics. *)
Theorem decode_failure_panics (path : string) (s s1 s2 : Sys)
        (pre post : list assetsFromFile) (m : assetsFromFile)
        (res : Resources) (ctrl : controlFunc) (f : field) (c : Ctl.control)
        (o : obj f) (e : error) :
  getAssetsFrom path s = (Ret (pre ++ m :: post)%list, s1) ->
  forRange pre addManifest (Resources_zero, []) s1 = (Ret (res, ctrl), s2) ->
  caseOfManifest m = Some (f, c) ->
  Decode f m (getField f res) = (o, Some e) ->
  addResourcesControls path s = (Panic (PanicError e), s2) /\
  ((forall o', snd (Decode f m o') <> None) ->
   forall path' t t1 ms, getAssetsFrom path' t = (Ret ms, t1) -> In m ms ->
     exists p t2, addResourcesControls path' t = (Panic p, t2)).
Proof.
  intros Hget Hpre Hcase Hdec. split.
  - rewrite (addResourcesControls_unfold _ _ _ _ Hget).
    rewrite (manifests_reach _ _ _ _ _ _ _ Hpre). unfold bind.
    rewrite addManifest_run. unfold caseOfManifest in Hcase.
    destruct (labelOf m) as [kind|]; [|discriminate].
    rewrite Hcase, Hdec. reflexivity.
  - intros Hall path' t t1 ms Hget' Hin.
    rewrite (addResourcesControls_unfold _ _ _ _ Hget').
    pose proof (manifests_no_fuel ms (Resources_zero, []) t1) as Hfuel.
    destruct (forRange ms addManifest (Resources_zero, []) t1)
      as [[st'|p|] t2] eqn:Hrun.
    + exfalso. apply in_split in Hin. destruct Hin as (l1 & l2 & ->).
      destruct (manifests_prefix_returns _ _ _ _ _ _ Hrun) as ([res1 ctrl1] & t3 & Hl1).
      rewrite (manifests_reach _ _ _ _ _ _ _ Hl1) in Hrun. unfold bind in Hrun.
      rewrite addManifest_run in Hrun. unfold caseOfManifest in Hcase.
      destruct (labelOf m) as [kind|]; [|discriminate].
      rewrite Hcase in Hrun.
      destruct (snd (Decode f m (getField f res1))) eqn:Hd;
        [discriminate|]. exact (Hall _ Hd).
    + eauto.
    + cbn in Hfuel. congruence.
Qed.

(** C10. A manifest whose text holds no [kind:] has no match; the empty
    match splits into one piece, and when the loop comes to the manifest
    the index 1 is out of range for it: stage construction panics.  A
    directory that holds such a manifest never yields a stage. *)
Theorem missing_marker_panics (path : string) (s s1 s2 : Sys)
        (pre post : list assetsFromFile) (m : assetsFromFile)
        (st : Resources * controlFunc) :
  getAssetsFrom path s = (Ret (pre ++ m :: post)%list, s1) ->
  forRange pre addManifest (Resources_zero, []) s1 = (Ret st, s2) ->
  hasSubstring "kind:" (string_of_list_byte m) = false ->
  FindString reg (string_of_list_byte m) = EmptyString /\
  pieces m = [EmptyString] /\
  addResourcesControls path s = (Panic (IndexOutOfRange 1 1), s2) /\
  (forall path' t t1 ms, getAssetsFrom path' t = (Ret ms, t1) -> In m ms ->
     exists p t2, addResourcesControls path' t = (Panic p, t2)).
Proof.
  intros Hget Hpre Hno.
  destruct (labelOf_no_marker _ Hno) as [Hp Hl].
  split; [apply no_marker_FindString; exact Hno|].
  split; [exact Hp|]. split.
  - rewrite (addResourcesControls_unfold _ _ _ _ Hget).
    rewrite (manifests_reach _ _ _ _ _ _ _ Hpre). unfold bind. destruct st as [res ctrl].
    rewrite addManifest_run, Hl, Hp. reflexivity.
  - intros path' t t1 ms Hget' Hin.
    rewrite (addResourcesControls_unfold _ _ _ _ Hget').
    pose proof (manifests_no_fuel ms (Resources_zero, []) t1) as Hfuel.
    destruct (forRange ms addManifest (Resources_zero, []) t1)
      as [[[res' ctrl']|p|] t2] eqn:Hrun.
    + exfalso. apply manifests_run in Hrun.
      destruct Hrun as (_ & _ & _ & _ & _ & _ & Hlab).
      rewrite forallb_forall in Hlab. specialize (Hlab m Hin).
      unfold hasLabel in Hlab. rewrite Hl in Hlab. discriminate.
    + eauto.
    + cbn in Hfuel. congruence.
Qed.

(** C8, as the code has it.  The label is read off the leftmost match
    of the pattern in the raw text, wherever that is: for a text whose
    first marker [kind:] comes after any text that holds no marker and
    does not end inside a word (lines of other fields, indentation of a
    nested field, a comment sign), followed by a blank and a word that
    ends its line, the label is that word, whatever comes after it. *)
Theorem label_is_first_marker (pre lbl rest : string) (s : Sys) :
  hasSubstring "kind:" pre = false ->
  endsInWord None pre = false ->
  isWordText lbl = true ->
  lineEnds rest = true ->
  FindString reg (pre ++ "kind: " ++ lbl ++ rest) = "kind: " ++ lbl /\
  kindOf (list_byte_of_string (pre ++ "kind: " ++ lbl ++ rest)) s = (Ret lbl, s).
Proof.
  intros Hsub Hend Hlbl Hrest. split.
  - apply isWordText_word in Hlbl. destruct Hlbl as [Hne Hw].
    apply label_of_first_marker; assumption.
  - rewrite kindOf_run, (labelOf_first_marker _ _ _ Hsub Hend Hlbl Hrest).
    reflexivity.
Qed.

Lemma caseOf_one_field (k1 k2 : string) (f : field) (c1 c2 : Ctl.control) :
  caseOf k1 = Some (f, c1) -> caseOf k2 = Some (f, c2) -> k1 = k2 /\ c1 = c2.
Proof.
  unfold caseOf.
  repeat match goal with
         | |- context [String.eqb ?a ?b] => destruct (String.eqb_spec a b)
         end; intros H1 H2; try discriminate; try congruence;
    inversion H1; subst; inversion H2; subst; split; congruence.
Qed.

Lemma getField_zero (f : field) : getField f Resources_zero = obj_zero f.
Proof. destruct f; reflexivity. Qed.


(** C9, as the code has it.  A stage construction that returns has put
    into each field of the bundle what the decoder left there when it
    was handed the last manifest of the kind of that field, in
    traversal order, and the field as the manifests before had left it:
    the code passes the address of the field.  That is the decode of
    the last manifest alone when no manifest before it has the kind, or
    when what the decoder makes of that manifest does not depend on the
    object it decodes into.  A manifest changes no field but its own; a
    field of which no manifest has the kind keeps its zero value; no two
    kinds share a field; and the control list holds one function for
    each recognized manifest, in order. *)
Theorem last_manifest_of_kind_wins (path : string) (s s1 s2 : Sys)
        (ms : list assetsFromFile) (res : Resources) (ctrl : controlFunc) :
  getAssetsFrom path s = (Ret ms, s1) ->
  addResourcesControls path s = (Ret (res, ctrl), s2) ->
  (forall pre m post f c,
      ms = (pre ++ m :: post)%list ->
      caseOfManifest m = Some (f, c) ->
      forallb (fun m' => negb (fieldIs f m')) post = true ->
      getField f res =
        fst (Decode f m (getField f (bundleOf pre Resources_zero))) /\
      (forallb (fun m' => negb (fieldIs f m')) pre = true ->
         getField f res = fst (Decode f m (obj_zero f))) /\
      ((forall o, fst (Decode f m o) = fst (Decode f m (obj_zero f))) ->
         getField f res = fst (Decode f m (obj_zero f))) /\
      forall g, g <> f ->
        getField g (bundleOf (pre ++ [m])%list Resources_zero) =
        getField g (bundleOf pre Resources_zero)) /\
  (forall f, forallb (fun m => negb (fieldIs f m)) ms = true ->
             getField f res = obj_zero f) /\
  (forall k1 k2 f c1 c2, caseOf k1 = Some (f, c1) -> caseOf k2 = Some (f, c2) ->
                         k1 = k2 /\ c1 = c2) /\
  ctrl = controlsOf ms /\
  List.length ctrl = List.length (filter recognized ms).
Proof.
  intros Hget Hrun.
  rewrite (addResourcesControls_unfold _ _ _ _ Hget) in Hrun.
  apply manifests_run in Hrun.
  destruct Hrun as (Hres & Hctrl & _). cbn [app] in Hctrl. subst res ctrl.
  split; [|split; [|split; [|split]]].
  - intros pre m post f c -> Hcase Hpost.
    assert (Hone : bundleOf (pre ++ [m])%list Resources_zero =
                   setField f (fst (Decode f m (getField f
                      (bundleOf pre Resources_zero))))
                     (bundleOf pre Resources_zero)).
    { rewrite bundleOf_app. cbn [bundleOf]. rewrite Hcase. reflexivity. }
    assert (Hlast : getField f (bundleOf (pre ++ m :: post)%list Resources_zero) =
                    fst (Decode f m (getField f (bundleOf pre Resources_zero)))).
    { change (pre ++ m :: post)%list with (pre ++ [m] ++ post)%list.
      rewrite app_assoc, bundleOf_app, (bundleOf_untouched _ _ _ Hpost), Hone.
      apply setField_same. }
    split; [exact Hlast|]. split; [|split].
    + intros Hpre. rewrite Hlast, (bundleOf_untouched _ _ _ Hpre), getField_zero.
      reflexivity.
    + intros Hfresh. rewrite Hlast. apply Hfresh.
    + intros g Hg. rewrite Hone. apply setField_other. congruence.
  - intros f Hf. rewrite (bundleOf_untouched _ _ _ Hf). apply getField_zero.
  - apply caseOf_one_field.
  - reflexivity.
  - apply controlsOf_length.
Qed.

End ManifestClaims.

(* ------------------------------------------------------------------ *)
(** ** Properties of [init] and [Reconcile] *)

Section FrameFacts.
Context {P : Platform} {E : Externals P}.

Lemma framed_ret {A} (a : A) : framed (ret a).
Proof.
  intros s. cbn. repeat split; try discriminate.
  exists []. rewrite app_nil_r. auto.
Qed.

Lemma framed_raise {A} (p : panic) : framed (@raise _ A p).
Proof.
  intros s. cbn. repeat split; try discriminate.
  exists []. rewrite app_nil_r. auto.
Qed.

Lemma framed_getDisk : framed getDisk.
Proof.
  intros s. cbn. repeat split; try discriminate.
  exists []. rewrite app_nil_r. auto.
Qed.

Lemma framed_emit (e : event) : isStepperCall e = false -> framed (emit e).
Proof.
  intros He s. cbn. repeat split; try discriminate.
  exists [e]. cbn. rewrite He. auto.
Qed.

Lemma framed_bind {A B} (m : M A) (k : A -> M B) :
  framed m -> (forall a, framed (k a)) -> framed (bind m k).
Proof.
  intros Hm Hk s. unfold bind.
  destruct (Hm s) as (H1 & H2 & H3 & H4 & evs & H5 & H6).
  destruct (m s) as [[a|p|] s1]; cbn [fst snd] in *.
  - destruct (Hk a s1) as (K1 & K2 & K3 & K4 & evs' & K5 & K6).
    rewrite K1, K2, K3, K5, H5. repeat split; auto.
    exists (evs ++ evs')%list. rewrite app_assoc, forallb_app, H6, K6. auto.
  - repeat split; auto; try discriminate. exists evs. auto.
  - congruence.
Qed.

Lemma framed_forRange {A B} (xs : list A) (body : A -> B -> M B) :
  (forall x acc, framed (body x acc)) -> forall acc, framed (forRange xs body acc).
Proof.
  intros Hb. induction xs as [|x xs IH]; intros acc; cbn [forRange].
  - apply framed_ret.
  - apply framed_bind; [apply Hb|exact IH].
Qed.

Lemma framed_getAssetsFrom (path : string) : framed (getAssetsFrom path).
Proof.
  unfold getAssetsFrom, filePathWalkDir.
  apply framed_bind.
  - apply framed_bind; [apply framed_emit; reflexivity|intros _].
    apply framed_bind; [apply framed_getDisk|intros d].
    apply framed_bind; [|intros files; apply framed_ret].
    apply framed_forRange. intros v files. unfold walkFn.
    destruct (visit_info v) as [info|]; [|apply framed_raise].
    destruct (negb (IsDir info)); apply framed_ret.
  - intros [files [e|]]; [apply framed_raise|].
    apply framed_forRange. intros file manifests.
    apply framed_bind; [apply framed_emit; reflexivity|intros _].
    apply framed_bind; [apply framed_getDisk|intros d].
    destruct (ReadFile d file) as [buffer [e|]];
      [apply framed_raise|apply framed_ret].
Qed.

Lemma framed_addManifest (m : assetsFromFile) (st : Resources * controlFunc) :
  framed (addManifest m st).
Proof.
  destruct st as [res ctrl]. unfold addManifest, kindOf, index, panicIfError.
  apply framed_bind.
  - apply framed_bind; [|intros piece; apply framed_ret].
    destruct ((0 <=? 1) && (1 <? GoInt.len _))%bool; [|apply framed_raise].
    destruct (nth_error _ _); [apply framed_ret|apply framed_raise].
  - intros kind. destruct (caseOf kind) as [[f c]|].
    + destruct (Decode f m (getField f res)) as [o [e|]].
      * apply framed_bind; [apply framed_raise|intros _; apply framed_ret].
      * apply framed_bind; [apply framed_ret|intros _; apply framed_ret].
    + apply framed_bind; [apply framed_emit; reflexivity|intros _].
      apply framed_ret.
Qed.

Lemma framed_addResourcesControls (path : string) :
  framed (addResourcesControls path).
Proof.
  unfold addResourcesControls.
  apply framed_bind; [apply framed_getAssetsFrom|intros ms].
  apply framed_forRange. intros m st. apply framed_addManifest.
Qed.

(** [addState], given what [addResourcesControls] does. *)
Lemma addState_run (path : string) (s : Sys) :
  addState path s =
    match addResourcesControls path s with
    | (Ret (res, ctrl), s1) => (Ret tt, withStage res ctrl s1)
    | (Panic p, s1) => (Panic p, s1)
    | (OutOfFuel, s1) => (OutOfFuel, s1)
    end.
Proof.
  unfold addState, bind at 1.
  destruct (addResourcesControls path s) as [[[res ctrl]|p|] s1]; reflexivity.
Qed.

(** [init] on a stepper whose stages are built. *)
Lemma init_built (r : NodeFeatureDiscoveryReconciler)
      (i : NodeFeatureDiscovery) (s : Sys) :
  controls (nfd s) <> [] -> init r i s = (Ret tt, initialised r i s).
Proof.
  intros H. destruct s as [n c d t]. destruct n as [rs cs rc i0 ix].
  cbn in H. destruct cs as [|c0 cs]; [congruence|]. reflexivity.
Qed.

(** [init] on a stepper without stages. *)
Lemma init_first (r : NodeFeatureDiscoveryReconciler)
      (i : NodeFeatureDiscovery) (s : Sys) :
  controls (nfd s) = [] ->
  init r i s =
    bind (addState "/opt/nfd/master") (fun _ => addState "/opt/nfd/worker")
         (initialised r i s).
Proof.
  intros H. destruct s as [n c d t]. destruct n as [rs cs rc i0 ix].
  cbn in H. subst cs. reflexivity.
Qed.

End FrameFacts.

Section ReconcileFacts.
Context {P : Platform} {E : Externals P}.

(** A call of [step] that returns [nil] was made on a cursor inside
    the list and has moved it. *)
Lemma step_nil (s s1 : Sys) :
  step s = (Ret None, s1) ->
  0 <= idx (nfd s) < GoInt.len (controls (nfd s)) /\
  idx (nfd s1) = GoInt.add (idx (nfd s)) 1 /\
  controls (nfd s1) = controls (nfd s).
Proof.
  intros H. destruct (currentStage (nfd s)) as [stage|] eqn:Hc.
  - destruct (step_run _ _ Hc) as (H1 & H2 & _). rewrite H in H1, H2.
    cbn [fst snd] in *.
    destruct (firstIndex halts (reports stage (nfd s) (cluster s))) as [k|] eqn:Hs.
    + destruct (firstIndex_Some _ _ _ Hs) as [[x [Hx _]] _].
      rewrite Hx in H1. discriminate.
    + rewrite H2. split; [|split; reflexivity].
      exact (currentStage_range _ _ Hc).
  - rewrite (step_outside _ Hc) in H. discriminate.
Qed.

Lemma stepMany_keeps_stages (k : nat) (s : Sys) :
  controls (nfd (snd (stepMany k s))) = controls (nfd s) /\
  resources (nfd (snd (stepMany k s))) = resources (nfd s).
Proof.
  revert s; induction k as [|k IH]; intros s; [cbn; auto|].
  cbn [stepMany]. unfold bind.
  destruct (step_keeps_stages s) as [H1 H2].
  destruct (step s) as [[o|p|] s1]; cbn [fst snd] in *; auto.
  destruct (IH s1) as [K1 K2]. rewrite K1, K2. auto.
Qed.

(** The loop returns the error of a [step] that fails. *)
Lemma loop_error (fuel : nat) (s s1 : Sys) (e : error) :
  step s = (Ret (Some e), s1) ->
  reconcileLoop (S fuel) s = (Ret (Some (Result_zero, Some e)), s1).
Proof. intros H. cbn [reconcileLoop]. unfold bind. rewrite H. reflexivity. Qed.

(** Passes that go on use one unit of the bound each. *)
Lemma loop_passes (j : nat) :
  forall s s2 fuel,
    passes j s = Some s2 -> reconcileLoop (j + fuel) s = reconcileLoop fuel s2.
Proof.
  induction j as [|j IH]; intros s s2 fuel H; cbn [passes] in H.
  - inversion H; subst. reflexivity.
  - cbn [plus reconcileLoop]. unfold bind.
    destruct (step s) as [[[e|]|p|] s1]; try discriminate.
    destruct (last s1) as [[[|]|p|] sb]; try discriminate.
    apply IH. exact H.
Qed.

Lemma passes_cursor (j : nat) :
  forall s s2,
    passes j s = Some s2 ->
    GoInt.len (controls (nfd s)) <= GoInt.MaxInt ->
    controls (nfd s2) = controls (nfd s) /\
    idx (nfd s2) = idx (nfd s) + Z.of_nat j.
Proof.
  induction j as [|j IH]; intros s s2 H Hlen; cbn [passes] in H.
  - inversion H; subst. split; [reflexivity|lia].
  - destruct (step s) as [[[e|]|p|] s1] eqn:Hs; try discriminate.
    rewrite last_run in H.
    destruct (idx (nfd s1) =? GoInt.len (controls (nfd s1))); [discriminate|].
    destruct (step_nil _ _ Hs) as (Hr & Hi & Hc).
    apply IH in H; cbn [nfd]; [|rewrite Hc; exact Hlen].
    cbn [nfd] in H. destruct H as [H1 H2]. rewrite H1, H2, Hc, Hi.
    split; [reflexivity|]. unfold GoInt.add. rewrite wrap_small.
    + lia.
    + unfold GoInt.MinInt, GoInt.MaxInt in *. lia.
Qed.

(** [Reconcile] after a fetch that went well. *)
Lemma Reconcile_fetched (r : NodeFeatureDiscoveryReconciler) (ctx : Ctx)
      (req : Request) (s : Sys) (i : NodeFeatureDiscovery) :
  Get r ctx (NamespacedName_ req) (cluster s) NodeFeatureDiscovery_zero
    = (i, None) ->
  Reconcile r ctx req s =
    bind (init r i)
         (fun _ =>
            n <- getNFD ;;
            returned <- reconcileLoop (S (List.length (controls n))) ;;
            match returned with
            | Some res => ret res
            | None => ret (Result_zero, None)
            end)
         (fetched req s).
Proof.
  intros H. unfold Reconcile. unfold bind at 1, emit at 1.
  unfold bind at 1, emit at 1. unfold bind at 1, getCluster.
  cbn [cluster]. rewrite H. unfold bind at 1, emit at 1.
  cbn [nfd cluster disk trace]. unfold fetched.
  rewrite <- !app_assoc. reflexivity.
Qed.

Lemma init_cursor (r : NodeFeatureDiscoveryReconciler)
      (i : NodeFeatureDiscovery) (s s1 : Sys) :
  init r i s = (Ret tt, s1) -> idx (nfd s1) = 0 /\ controls (nfd s1) <> [].
Proof.
  destruct (controls (nfd s)) as [|c cs] eqn:Hc.
  - rewrite (init_first _ _ _ Hc). unfold bind. rewrite addState_run.
    pose proof (framed_addResourcesControls "/opt/nfd/master" (initialised r i s))
      as (F1 & _).
    destruct (addResourcesControls "/opt/nfd/master" (initialised r i s))
      as [[[res1 ctl1]|p|] sa]; try discriminate.
    rewrite addState_run.
    pose proof (framed_addResourcesControls "/opt/nfd/worker"
                  (withStage res1 ctl1 sa)) as (F2 & _).
    destruct (addResourcesControls "/opt/nfd/worker" (withStage res1 ctl1 sa))
      as [[[res2 ctl2]|p|] sb]; try discriminate.
    intros H. inversion H; subst s1. cbn [fst snd] in *.
    cbn [withStage nfd set_resources set_controls idx controls] in *.
    rewrite F2. cbn [idx controls]. rewrite F1. cbn. split; [reflexivity|].
    intros Hnil. apply app_eq_nil in Hnil. destruct Hnil; discriminate.
  - rewrite init_built; [|congruence]. intros H. inversion H; subst s1.
    cbn. rewrite Hc. split; [reflexivity|discriminate].
Qed.

Lemma init_no_fuel (r : NodeFeatureDiscoveryReconciler)
      (i : NodeFeatureDiscovery) (s : Sys) :
  fst (init r i s) <> OutOfFuel.
Proof.
  destruct (controls (nfd s)) as [|c cs] eqn:Hc.
  - rewrite (init_first _ _ _ Hc). unfold bind. rewrite addState_run.
    pose proof (framed_addResourcesControls "/opt/nfd/master" (initialised r i s))
      as (_ & _ & _ & F1 & _).
    destruct (addResourcesControls "/opt/nfd/master" (initialised r i s))
      as [[[res1 ctl1]|p|] sa]; cbn [fst] in *; try discriminate; [|congruence].
    rewrite addState_run.
    pose proof (framed_addResourcesControls "/opt/nfd/worker"
                  (withStage res1 ctl1 sa)) as (_ & _ & _ & F2 & _).
    destruct (addResourcesControls "/opt/nfd/worker" (withStage res1 ctl1 sa))
      as [[[res2 ctl2]|p|] sb]; cbn [fst] in *; try discriminate; congruence.
  - rewrite init_built; [|congruence]. discriminate.
Qed.

(** The bound of the loop is never reached: a cursor that is an [int],
    starts inside the list and goes up by one on each pass leaves the
    list, or the range of [int], before the bound is used up. *)
Lemma loop_no_fuel (fuel : nat) :
  forall s,
    (0 <= idx (nfd s) <= GoInt.len (controls (nfd s)) /\
     idx (nfd s) <= GoInt.MaxInt /\
     Z.of_nat fuel + idx (nfd s) > GoInt.len (controls (nfd s))) \/
    (idx (nfd s) < 0 /\ (1 <= fuel)%nat) ->
    fst (reconcileLoop fuel s) <> OutOfFuel.
Proof.
  induction fuel as [|fuel IH]; intros s Hinv.
  - exfalso. destruct Hinv as [(H1 & H2 & H3)|[_ H]]; lia.
  - cbn [reconcileLoop]. unfold bind.
    destruct (currentStage (nfd s)) as [stage|] eqn:Hc.
    + destruct (step s) as [[[e|]|p|] s1] eqn:Hs; try (cbn; discriminate).
      * destruct (step_nil _ _ Hs) as (Hr & Hi & Hk).
        rewrite last_run.
        destruct (idx (nfd s1) =? GoInt.len (controls (nfd s1))) eqn:Hl;
          [cbn; discriminate|].
        apply Z.eqb_neq in Hl. apply IH. cbn [nfd].
        destruct Hinv as [(H1 & H2 & H3)|[H _]]; [|lia].
        rewrite Hk, Hi in *. unfold GoInt.add, GoInt.wrap, GoInt.MaxInt in *.
        destruct (Z.eq_dec (idx (nfd s)) (2 ^ 63 - 1)) as [Hmax|Hmax].
        -- right. rewrite Hmax. split; [reflexivity|lia].
        -- left. rewrite Z.mod_small in * by lia. lia.
      * destruct (step_run _ _ Hc) as (H1 & _). rewrite Hs in H1.
        cbn [fst] in H1. discriminate.
    + rewrite (step_outside _ Hc). cbn. discriminate.
Qed.

(** [Reconcile] returns or panics, whatever the state it starts in. *)
Lemma Reconcile_returns_or_panics (r : NodeFeatureDiscoveryReconciler)
      (ctx : Ctx) (req : Request) (s : Sys) :
  fst (Reconcile r ctx req s) <> OutOfFuel.
Proof.
  destruct (Get r ctx (NamespacedName_ req) (cluster s) NodeFeatureDiscovery_zero)
    as [i [e|]] eqn:Hget.
  - unfold Reconcile, bind, emit, getCluster. cbn [cluster]. rewrite Hget.
    destruct (k8serrors.IsNotFound e); cbn; discriminate.
  - rewrite (Reconcile_fetched _ _ _ _ _ Hget). unfold bind at 1.
    pose proof (init_no_fuel r i (fetched req s)) as Hf.
    destruct (init r i (fetched req s)) as [[[]|p|] s1] eqn:Hi;
      cbn [fst] in *; try discriminate; [|congruence].
    destruct (init_cursor _ _ _ _ Hi) as [H0 _].
    unfold bind, getNFD.
    assert (Hl : fst (reconcileLoop (S (List.length (controls (nfd s1)))) s1)
                 <> OutOfFuel).
    { apply loop_no_fuel. left. rewrite H0.
      unfold GoInt.len, GoInt.MaxInt. lia. }
    destruct (reconcileLoop (S (List.length (controls (nfd s1)))) s1)
      as [[[res|]|p|] s2]; cbn [fst] in *; try discriminate. congruence.
Qed.

End ReconcileFacts.

Section ReconcileClaims.
Context {P : Platform} {E : Externals P}.

(** C7. When the fetch of the instance fails, [Reconcile] returns
    without a call of the stepper: the stepper, the cluster and the disk
    are as before and the events are those of the fetch and of the
    logger of the reconciler.  For an error that says "not found" it
    returns no requeue and [nil]; for any other error it returns a
    requeue and the error. *)
Theorem fetch_failure_skips_stepper (r : NodeFeatureDiscoveryReconciler)
        (ctx : Ctx) (req : Request) (s : Sys) (i : NodeFeatureDiscovery)
        (e : error) :
  Get r ctx (NamespacedName_ req) (cluster s) NodeFeatureDiscovery_zero
    = (i, Some e) ->
  fst (Reconcile r ctx req s) =
    (if k8serrors.IsNotFound e
     then Ret ({| Requeue := false; RequeueAfter := 0 |}, None)
     else Ret ({| Requeue := true; RequeueAfter := 0 |}, Some e)) /\
  nfd (snd (Reconcile r ctx req s)) = nfd s /\
  cluster (snd (Reconcile r ctx req s)) = cluster s /\
  disk (snd (Reconcile r ctx req s)) = disk s /\
  exists evs,
    trace (snd (Reconcile r ctx req s)) = (trace s ++ evs)%list /\
    forallb (fun ev => negb (isStepperCall ev)) evs = true /\
    forallb (fun ev => negb (isFsEvent ev)) evs = true.
Proof.
  intros Hget. unfold Reconcile, bind, emit, getCluster. cbn [cluster].
  rewrite Hget. destruct (k8serrors.IsNotFound e);
    cbn [fst snd nfd cluster disk trace ret]; repeat split; auto.
  - eexists. rewrite <- !app_assoc. cbn [app]. split; [reflexivity|].
    split; reflexivity.
  - eexists. rewrite <- !app_assoc. cbn [app]. split; [reflexivity|].
    split; reflexivity.
Qed.

(** C6. A call of [init] on a stepper without stages that returns has
    built the stage of [/opt/nfd/master] and then the stage of
    [/opt/nfd/worker] and appended them in this order.  A call on a
    stepper with stages binds reconciler and instance, sets the cursor
    to 0 and does nothing else: stage list and bundles are untouched and
    no file is walked or read.  After a call that returned the list is
    not empty, and [step] keeps it, so every later call is of the second
    sort. *)
Theorem init_builds_stages_once (r : NodeFeatureDiscoveryReconciler)
        (i : NodeFeatureDiscovery) (s : Sys) :
  (controls (nfd s) = [] -> forall s', init r i s = (Ret tt, s') ->
     exists res1 ctl1 sa res2 ctl2 sb,
       addResourcesControls "/opt/nfd/master" (initialised r i s)
         = (Ret (res1, ctl1), sa) /\
       addResourcesControls "/opt/nfd/worker" (withStage res1 ctl1 sa)
         = (Ret (res2, ctl2), sb) /\
       s' = withStage res2 ctl2 sb /\
       controls (nfd s') = [ctl1; ctl2] /\
       resources (nfd s') = (resources (nfd s) ++ [res1; res2])%list /\
       idx (nfd s') = 0) /\
  (controls (nfd s) <> [] ->
     init r i s = (Ret tt, initialised r i s) /\
     controls (nfd (initialised r i s)) = controls (nfd s) /\
     resources (nfd (initialised r i s)) = resources (nfd s) /\
     idx (nfd (initialised r i s)) = 0 /\
     trace (initialised r i s) = (trace s ++ [CallInit])%list) /\
  (forall s', init r i s = (Ret tt, s') ->
     forall k r' i',
       let t := snd (stepMany k s') in
       init r' i' t = (Ret tt, initialised r' i' t) /\
       controls (nfd (initialised r' i' t)) = controls (nfd s') /\
       resources (nfd (initialised r' i' t)) = resources (nfd s')).
Proof.
  split; [|split].
  - intros Hc s'. rewrite (init_first _ _ _ Hc). unfold bind.
    rewrite addState_run.
    pose proof (framed_addResourcesControls "/opt/nfd/master" (initialised r i s))
      as (F1 & _).
    destruct (addResourcesControls "/opt/nfd/master" (initialised r i s))
      as [[[res1 ctl1]|p|] sa]; try discriminate.
    rewrite addState_run.
    pose proof (framed_addResourcesControls "/opt/nfd/worker"
                  (withStage res1 ctl1 sa)) as (F2 & _).
    destruct (addResourcesControls "/opt/nfd/worker" (withStage res1 ctl1 sa))
      as [[[res2 ctl2]|p|] sb] eqn:Hb; try discriminate.
    intros H. inversion H; subst s'. cbn [fst snd] in *.
    exists res1, ctl1, sa, res2, ctl2, sb.
    split; [reflexivity|]. split; [exact Hb|]. split; [reflexivity|].
    cbn [withStage nfd set_resources set_controls idx controls resources] in *.
    rewrite F2. cbn [idx controls resources]. rewrite F1.
    cbn [initialised nfd set_idx set_ins set_rec idx controls resources].
    rewrite Hc. cbn. rewrite <- app_assoc. auto.
  - intros Hc. split; [apply init_built; exact Hc|]. cbn. auto.
  - intros s' Hi k r' i'. cbv zeta.
    destruct (init_cursor _ _ _ _ Hi) as [_ Hne].
    destruct (stepMany_keeps_stages k s') as [Hk Hr].
    split; [|split].
    + apply init_built. rewrite Hk. exact Hne.
    + cbn. exact Hk.
    + cbn. exact Hr.
Qed.

(** C3, as the code has it.  When, in a pass of the loop of
    [Reconcile], the first function of the current stage that ends the
    stage reports [NotReady] without an error, [step] returns the error
    "ResourceNotReady" and leaves the cursor where it was, at the number
    of passes made before; and [Reconcile] returns that error next to
    the zero [Result], whose [Requeue] is false: it is the error, not
    the flag, that brings the request back.  The error is an
    [errorString] like any that [errors.New] makes: a caller tells it
    from an error of a control function by its text alone. *)
Theorem not_ready_ends_reconcile (r : NodeFeatureDiscoveryReconciler)
        (ctx : Ctx) (req : Request) (s s1 s2 : Sys) (i : NodeFeatureDiscovery)
        (j k : nat) (stage : controlFunc) :
  Get r ctx (NamespacedName_ req) (cluster s) NodeFeatureDiscovery_zero
    = (i, None) ->
  init r i (fetched req s) = (Ret tt, s1) ->
  GoInt.len (controls (nfd s1)) <= GoInt.MaxInt ->
  passes j s1 = Some s2 ->
  currentStage (nfd s2) = Some stage ->
  firstIndex halts (reports stage (nfd s2) (cluster s2)) = Some k ->
  nth_error (reports stage (nfd s2) (cluster s2)) k = Some (NotReady, None) ->
  fst (step s2) = Ret (Some (errors.New "ResourceNotReady")) /\
  idx (nfd (snd (step s2))) = idx (nfd s2) /\
  idx (nfd s2) = Z.of_nat j /\
  Reconcile r ctx req s =
    (Ret (Result_zero, Some (errors.New "ResourceNotReady")), snd (step s2)) /\
  Requeue Result_zero = false /\
  (forall e', Error e' <> "ResourceNotReady" ->
              e' <> errors.New "ResourceNotReady").
Proof.
  intros Hget Hinit Hlen Hpass Hstage Hstop Hrep.
  destruct (step_run _ _ Hstage) as (H1 & H2 & _).
  rewrite Hstop, Hrep in H1. rewrite Hstop in H2. cbn [option_map stopError] in H1.
  destruct (init_cursor _ _ _ _ Hinit) as [H0 _].
  destruct (passes_cursor _ _ _ Hpass Hlen) as [Hc Hi]. rewrite H0 in Hi.
  split; [exact H1|]. split; [rewrite H2; reflexivity|]. split; [lia|].
  split; [|split; [reflexivity|]].
  - rewrite (Reconcile_fetched _ _ _ _ _ Hget). unfold bind at 1.
    rewrite Hinit. unfold bind at 1, getNFD. unfold bind at 1.
    pose proof (currentStage_range _ _ Hstage) as Hr.
    rewrite Hc in Hr. unfold GoInt.len in Hr.
    assert (Hj : (j < List.length (controls (nfd s1)))%nat) by lia.
    replace (S (List.length (controls (nfd s1))))
      with (j + S (List.length (controls (nfd s1)) - j))%nat by lia.
    rewrite (loop_passes _ _ _ _ Hpass).
    rewrite (loop_error _ s2 (snd (step s2)) (errors.New "ResourceNotReady")).
    + reflexivity.
    + destruct (step s2) as [o s3]. cbn [fst snd] in *. subst o. reflexivity.
  - intros e' He' ->. apply He'. reflexivity.
Qed.

End ReconcileClaims.

(* ------------------------------------------------------------------ *)
(** ** The properties at work on the small world *)

Import Fixture.

(** On an empty cluster the second stage stops at its second function,
    which fails; the third is not called. *)
Lemma step_short_circuits_witness :
  currentStage (nfd (running 1 [])) = Some stageWorker /\
  ((exists r,
       nth_error (reports (E := externals) stageWorker (nfd (running 1 [])) []) 1
         = Some r /\
       halts r = true /\
       fst (step (E := externals) (running 1 [])) = Ret (Some (stopError r))) /\
   (forall j r, (j < 1)%nat ->
       nth_error (reports (E := externals) stageWorker (nfd (running 1 [])) []) j
         = Some r -> r = (Ready, None)) /\
   trace (snd (step (E := externals) (running 1 []))) =
     [CallStep; CallControl Ctl.ServiceAccount;
      CallControl Ctl.SecurityContextConstraints]).
Proof.
  split; [reflexivity|].
  exact (step_short_circuits (E := externals) (running 1 []) stageWorker eq_refl).
Defined.

(** The stepper of the small world, right after [init]. *)
Lemma cursor_advances_by_one_witness :
  GoInt.len (controls (nfd afterInit)) <= GoInt.MaxInt /\
  (forall stage, currentStage (nfd afterInit) = Some stage ->
     allReady (E := externals) stage (nfd afterInit) (cluster afterInit) = true ->
     fst (step (E := externals) afterInit) = Ret None /\
     idx (nfd (snd (step (E := externals) afterInit))) = idx (nfd afterInit) + 1) /\
  (forall e, fst (step (E := externals) afterInit) = Ret (Some e) ->
     idx (nfd (snd (step (E := externals) afterInit))) = idx (nfd afterInit)) /\
  (forall k, idx (nfd afterInit)
             <= idx (nfd (snd (stepMany (E := externals) k afterInit)))) /\
  (exists b, fst (last afterInit) = Ret b /\
     (b = true <-> idx (nfd afterInit) = GoInt.len (controls (nfd afterInit)))).
Proof.
  assert (H : GoInt.len (controls (nfd afterInit)) <= GoInt.MaxInt)
    by (apply Z.leb_le; vm_compute; reflexivity).
  exact (conj H (cursor_advances_by_one (E := externals) afterInit H)).
Defined.

(** The first stage is ready, the daemon set of the second is not. *)
Lemma not_ready_ends_reconcile_witness :
  Get reconciler tt (NamespacedName_ (request "nfd"))
      (cluster (boot disk0 halfReady)) NodeFeatureDiscovery_zero = ("nfd", None) /\
  init (E := externals) reconciler "nfd"
       (fetched (request "nfd") (boot disk0 halfReady)) = (Ret tt, afterInit) /\
  GoInt.len (controls (nfd afterInit)) <= GoInt.MaxInt /\
  passes (E := externals) 1 afterInit = Some secondPass /\
  currentStage (nfd secondPass) = Some stageWorker /\
  firstIndex halts
    (reports (E := externals) stageWorker (nfd secondPass) (cluster secondPass))
    = Some 2%nat /\
  nth_error
    (reports (E := externals) stageWorker (nfd secondPass) (cluster secondPass)) 2
    = Some (NotReady, None) /\
  (fst (step (E := externals) secondPass)
     = Ret (Some (errors.New "ResourceNotReady")) /\
   idx (nfd (snd (step (E := externals) secondPass))) = idx (nfd secondPass) /\
   idx (nfd secondPass) = Z.of_nat 1 /\
   Reconcile (E := externals) reconciler tt (request "nfd") (boot disk0 halfReady) =
     (Ret (Result_zero, Some (errors.New "ResourceNotReady")),
      snd (step (E := externals) secondPass)) /\
   Requeue Result_zero = false /\
   (forall e', Error e' <> "ResourceNotReady" ->
               e' <> errors.New "ResourceNotReady")).
Proof.
  assert (H1 : Get reconciler tt (NamespacedName_ (request "nfd"))
                 (cluster (boot disk0 halfReady)) NodeFeatureDiscovery_zero
               = ("nfd", None)) by reflexivity.
  assert (H2 : init (E := externals) reconciler "nfd"
                 (fetched (request "nfd") (boot disk0 halfReady))
               = (Ret tt, afterInit)) by (vm_compute; reflexivity).
  assert (H3 : GoInt.len (controls (nfd afterInit)) <= GoInt.MaxInt)
    by (apply Z.leb_le; vm_compute; reflexivity).
  assert (H4 : passes (E := externals) 1 afterInit = Some secondPass)
    by (vm_compute; reflexivity).
  assert (H5 : currentStage (nfd secondPass) = Some stageWorker)
    by (vm_compute; reflexivity).
  assert (H6 : firstIndex halts
                 (reports (E := externals) stageWorker (nfd secondPass)
                    (cluster secondPass)) = Some 2%nat)
    by (vm_compute; reflexivity).
  assert (H7 : nth_error
                 (reports (E := externals) stageWorker (nfd secondPass)
                    (cluster secondPass)) 2 = Some (NotReady, None))
    by (vm_compute; reflexivity).
  repeat (split; [assumption|]).
  exact (not_ready_ends_reconcile (E := externals) reconciler tt (request "nfd")
           (boot disk0 halfReady) afterInit secondPass "nfd" 1 2 stageWorker
           H1 H2 H3 H4 H5 H6 H7).
Defined.

(** The daemon set of [diskBroken] is refused after the service account
    before it has been decoded. *)
Lemma decode_failure_panics_witness :
  let path := "/opt/nfd/worker" in
  let pre := [manifest "ServiceAccount" "nfd-worker"] in
  let m := manifest "DaemonSet" "nfd-worker!" in
  let post := [manifest "SecurityContextConstraints" "nfd-worker"] in
  let res := setField (P := platform) FServiceAccount
               (manifest "ServiceAccount" "nfd-worker") Resources_zero in
  let e := foreignError "yaml" "cannot unmarshal" in
  getAssetsFrom path (boot diskBroken [])
    = (Ret (pre ++ m :: post)%list, scanned diskBroken path) /\
  forRange pre (addManifest (E := externals)) (Resources_zero, [])
           (scanned diskBroken path)
    = (Ret (res, [Ctl.ServiceAccount]), scanned diskBroken path) /\
  caseOfManifest m = Some (FDaemonSet, Ctl.DaemonSet) /\
  Decode (Externals := externals) FDaemonSet m (getField FDaemonSet res)
    = ([], Some e) /\
  (addResourcesControls (E := externals) path (boot diskBroken [])
     = (Panic (PanicError e), scanned diskBroken path) /\
   ((forall o', snd (Decode (Externals := externals) FDaemonSet m o') <> None) ->
    forall path' t t1 ms, getAssetsFrom path' t = (Ret ms, t1) -> In m ms ->
      exists p t2,
        addResourcesControls (E := externals) path' t = (Panic p, t2))).
Proof.
  intros path pre m post res e.
  assert (H1 : getAssetsFrom path (boot diskBroken [])
               = (Ret (pre ++ m :: post)%list, scanned diskBroken path))
    by (vm_compute; reflexivity).
  assert (H2 : forRange pre (addManifest (E := externals)) (Resources_zero, [])
                 (scanned diskBroken path)
               = (Ret (res, [Ctl.ServiceAccount]), scanned diskBroken path))
    by (vm_compute; reflexivity).
  assert (H3 : caseOfManifest m = Some (FDaemonSet, Ctl.DaemonSet))
    by (vm_compute; reflexivity).
  assert (H4 : Decode (Externals := externals) FDaemonSet m
                 (getField FDaemonSet res) = ([], Some e))
    by (vm_compute; reflexivity).
  repeat (split; [assumption|]).
  exact (decode_failure_panics (E := externals) path (boot diskBroken [])
           (scanned diskBroken path) (scanned diskBroken path) pre post m res
           [Ctl.ServiceAccount] FDaemonSet Ctl.DaemonSet [] e H1 H2 H3 H4).
Defined.

(** The file without a marker of [diskStray] is reached after the
    namespace before it. *)
Lemma missing_marker_panics_witness :
  let path := "/opt/nfd/master" in
  let pre := [manifest "Namespace" "nfd"] in
  let post := [manifest "DaemonSet" "nfd-master"] in
  let st := (setField (P := platform) FNamespace (manifest "Namespace" "nfd")
               Resources_zero, [Ctl.Namespace]) in
  getAssetsFrom path (boot diskStray [])
    = (Ret (pre ++ notes :: post)%list, scanned diskStray path) /\
  forRange pre (addManifest (E := externals)) (Resources_zero, [])
           (scanned diskStray path) = (Ret st, scanned diskStray path) /\
  hasSubstring "kind:" (string_of_list_byte notes) = false /\
  (FindString reg (string_of_list_byte notes) = EmptyString /\
   pieces notes = [EmptyString] /\
   addResourcesControls (E := externals) path (boot diskStray [])
     = (Panic (IndexOutOfRange 1 1), scanned diskStray path) /\
   (forall path' t t1 ms, getAssetsFrom path' t = (Ret ms, t1) -> In notes ms ->
      exists p t2,
        addResourcesControls (E := externals) path' t = (Panic p, t2))).
Proof.
  intros path pre post st.
  assert (H1 : getAssetsFrom path (boot diskStray [])
               = (Ret (pre ++ notes :: post)%list, scanned diskStray path))
    by (vm_compute; reflexivity).
  assert (H2 : forRange pre (addManifest (E := externals)) (Resources_zero, [])
                 (scanned diskStray path) = (Ret st, scanned diskStray path))
    by (vm_compute; reflexivity).
  assert (H3 : hasSubstring "kind:" (string_of_list_byte notes) = false)
    by (vm_compute; reflexivity).
  repeat (split; [assumption|]).
  exact (missing_marker_panics (E := externals) path (boot diskStray [])
           (scanned diskStray path) (scanned diskStray path) pre post notes st
           H1 H2 H3).
Defined.

(** A comment sign and a blank before the first marker. *)
Lemma label_is_first_marker_witness :
  let pre := "# " in
  let lbl := "Pod" in
  let rest := nl ++ "kind: Namespace" ++ nl in
  hasSubstring "kind:" pre = false /\
  endsInWord None pre = false /\
  isWordText lbl = true /\
  lineEnds rest = true /\
  (FindString reg (pre ++ "kind: " ++ lbl ++ rest) = "kind: " ++ lbl /\
   kindOf (list_byte_of_string (pre ++ "kind: " ++ lbl ++ rest)) (boot disk0 [])
     = (Ret lbl, boot disk0 [])).
Proof.
  intros pre lbl rest.
  assert (H1 : hasSubstring "kind:" pre = false) by reflexivity.
  assert (H2 : endsInWord None pre = false) by reflexivity.
  assert (H3 : isWordText lbl = true) by reflexivity.
  assert (H4 : lineEnds rest = true) by reflexivity.
  repeat (split; [assumption|]).
  exact (label_is_first_marker pre lbl rest (boot disk0 []) H1 H2 H3 H4).
Defined.


(** Two service accounts in one directory, and a decoder that makes of
    a manifest the same whatever the object it decodes into holds. *)
Lemma last_manifest_of_kind_wins_witness :
  let path := "/opt/nfd/master" in
  let ms := assetsIn diskMixed path in
  let res := fst (stageOf diskMixed path) in
  let ctrl := snd (stageOf diskMixed path) in
  getAssetsFrom path (boot diskMixed []) = (Ret ms, scanned diskMixed path) /\
  addResourcesControls (E := externals) path (boot diskMixed [])
    = (Ret (res, ctrl), constructed diskMixed path) /\
  ServiceAccount res = manifest "ServiceAccount" "second" /\
  ctrl = [Ctl.Namespace; Ctl.ServiceAccount; Ctl.ServiceAccount; Ctl.DaemonSet] /\
  ((forall pre m post f c,
       ms = (pre ++ m :: post)%list ->
       caseOfManifest m = Some (f, c) ->
       forallb (fun m' => negb (fieldIs f m')) post = true ->
       getField f res =
         fst (Decode (Externals := externals) f m
                (getField f (bundleOf (E := externals) pre Resources_zero))) /\
       (forallb (fun m' => negb (fieldIs f m')) pre = true ->
          getField f res =
            fst (Decode (Externals := externals) f m (obj_zero f))) /\
       ((forall o, fst (Decode (Externals := externals) f m o) =
                   fst (Decode (Externals := externals) f m (obj_zero f))) ->
          getField f res =
            fst (Decode (Externals := externals) f m (obj_zero f))) /\
       forall g, g <> f ->
         getField g (bundleOf (E := externals) (pre ++ [m])%list Resources_zero) =
         getField g (bundleOf (E := externals) pre Resources_zero)) /\
   (forall f, forallb (fun m => negb (fieldIs f m)) ms = true ->
              getField f res = obj_zero f) /\
   (forall k1 k2 f c1 c2, caseOf k1 = Some (f, c1) -> caseOf k2 = Some (f, c2) ->
                          k1 = k2 /\ c1 = c2) /\
   ctrl = controlsOf ms /\
   List.length ctrl = List.length (filter recognized ms)).
Proof.
  intros path ms res ctrl.
  assert (H1 : getAssetsFrom path (boot diskMixed [])
               = (Ret ms, scanned diskMixed path)) by (vm_compute; reflexivity).
  assert (H2 : addResourcesControls (E := externals) path (boot diskMixed [])
               = (Ret (res, ctrl), constructed diskMixed path))
    by (vm_compute; reflexivity).
  split; [exact H1|]. split; [exact H2|].
  split; [vm_compute; reflexivity|]. split; [vm_compute; reflexivity|].
  exact (last_manifest_of_kind_wins (E := externals) path (boot diskMixed [])
           (scanned diskMixed path) (constructed diskMixed path) ms res ctrl H1 H2).
Defined.

(** An instance that is gone. *)
Lemma fetch_failure_skips_stepper_witness :
  let s := boot disk0 [] in
  let e := StatusError "NotFound" "not found" in
  Get reconciler tt (NamespacedName_ (request "gone")) (cluster s)
      NodeFeatureDiscovery_zero = (EmptyString, Some e) /\
  (fst (Reconcile (E := externals) reconciler tt (request "gone") s) =
     (if k8serrors.IsNotFound e
      then Ret ({| Requeue := false; RequeueAfter := 0 |}, None)
      else Ret ({| Requeue := true; RequeueAfter := 0 |}, Some e)) /\
   nfd (snd (Reconcile (E := externals) reconciler tt (request "gone") s)) = nfd s /\
   cluster (snd (Reconcile (E := externals) reconciler tt (request "gone") s))
     = cluster s /\
   disk (snd (Reconcile (E := externals) reconciler tt (request "gone") s))
     = disk s /\
   exists evs,
     trace (snd (Reconcile (E := externals) reconciler tt (request "gone") s))
       = (trace s ++ evs)%list /\
     forallb (fun ev => negb (isStepperCall ev)) evs = true /\
     forallb (fun ev => negb (isFsEvent ev)) evs = true).
Proof.
  intros s e.
  assert (H : Get reconciler tt (NamespacedName_ (request "gone")) (cluster s)
                NodeFeatureDiscovery_zero = (EmptyString, Some e)) by reflexivity.
  exact (conj H (fetch_failure_skips_stepper (E := externals) reconciler tt
                   (request "gone") s EmptyString e H)).
Defined.

(** The first call of [init] in the small world, and a second call
    after two steps. *)
Lemma init_builds_stages_once_witness :
  controls (nfd (fetched (request "nfd") (boot disk0 halfReady))) = [] /\
  init (E := externals) reconciler "nfd"
       (fetched (request "nfd") (boot disk0 halfReady)) = (Ret tt, afterInit) /\
  controls (nfd afterInit) = [stageMaster; stageWorker] /\
  (let t := snd (stepMany (E := externals) 2 afterInit) in
   init (E := externals) reconciler "other" t
     = (Ret tt, initialised reconciler "other" t) /\
   controls (nfd (initialised reconciler "other" t)) = controls (nfd afterInit) /\
   resources (nfd (initialised reconciler "other" t)) = resources (nfd afterInit)).
Proof.
  assert (H2 : init (E := externals) reconciler "nfd"
                 (fetched (request "nfd") (boot disk0 halfReady))
               = (Ret tt, afterInit)) by (vm_compute; reflexivity).
  split; [reflexivity|]. split; [exact H2|]. split; [vm_compute; reflexivity|].
  exact (proj2 (proj2 (init_builds_stages_once (E := externals) reconciler "nfd"
                         (fetched (request "nfd") (boot disk0 halfReady))))
           afterInit H2 2%nat reconciler "other").
Defined.

(** Against C3 as stated: the daemon set of the second stage reports
    [NotReady], and the [Result] that [Reconcile] returns has [Requeue]
    false, not true; and control functions that return a plain error with
    the same text make [Reconcile] return the very same values, so that
    its caller cannot tell the two apart. *)
Lemma not_ready_requeue_flag_is_false :
  nth_error
    (reports (E := externals) stageWorker (nfd secondPass) (cluster secondPass)) 2
    = Some (NotReady, None) /\
  fst (Reconcile (E := externals) reconciler tt (request "nfd")
         (boot disk0 halfReady))
    = Ret ({| Requeue := false; RequeueAfter := 0 |},
           Some (errors.New "ResourceNotReady")) /\
  (forall res err,
      fst (Reconcile (E := externals) reconciler tt (request "nfd")
             (boot disk0 halfReady)) = Ret (res, err) ->
      Requeue res <> true) /\
  nth_error
    (reports (E := externalsPlain) stageWorker (nfd secondPass) (cluster secondPass)) 2
    = Some (Ready, Some (errors.New "ResourceNotReady")) /\
  fst (Reconcile (E := externalsPlain) reconciler tt (request "nfd")
         (boot disk0 halfReady))
    = fst (Reconcile (E := externals) reconciler tt (request "nfd")
             (boot disk0 halfReady)).
Proof.
  assert (H : fst (Reconcile (E := externals) reconciler tt (request "nfd")
                     (boot disk0 halfReady))
              = Ret ({| Requeue := false; RequeueAfter := 0 |},
                     Some (errors.New "ResourceNotReady")))
    by (vm_compute; reflexivity).
  split; [vm_compute; reflexivity|]. split; [exact H|]. split.
  - intros res err Hr. rewrite H in Hr. inversion Hr; subst. discriminate.
  - split; vm_compute; reflexivity.
Qed.

(** Against C4 as stated: on a daemon set that the decoder refuses,
    stage construction does not return (an error or anything else): it
    panics with the error of the decoder. *)
Lemma decode_failure_aborts :
  caseOfManifest (manifest "DaemonSet" "nfd-worker!")
    = Some (FDaemonSet, Ctl.DaemonSet) /\
  (forall o, snd (Decode (Externals := externals) FDaemonSet
                    (manifest "DaemonSet" "nfd-worker!") o) <> None) /\
  fst (addResourcesControls (E := externals) "/opt/nfd/worker" (boot diskBroken []))
    = Panic (PanicError (foreignError "yaml" "cannot unmarshal")) /\
  (forall st,
      fst (addResourcesControls (E := externals) "/opt/nfd/worker"
             (boot diskBroken [])) <> Ret st).
Proof.
  assert (H : fst (addResourcesControls (E := externals) "/opt/nfd/worker"
                     (boot diskBroken []))
              = Panic (PanicError (foreignError "yaml" "cannot unmarshal")))
    by (vm_compute; reflexivity).
  split; [vm_compute; reflexivity|]. split; [|split].
  - intros o. vm_compute. discriminate.
  - exact H.
  - intros st Hst. rewrite H in Hst. discriminate.
Qed.

(** Against C8 as stated: the label of a namespace manifest with a
    comment above its root field is read from the comment, and that of
    one with a nested field named [kind] before the root field from the
    nested field; neither is the kind at the document root. *)
Lemma label_read_from_comment :
  rootKind commented = Some "Namespace" /\
  labelOf commented = Some "Pod" /\
  rootKind nested = Some "Namespace" /\
  labelOf nested = Some "Role" /\
  labelOf commented <> rootKind commented /\
  labelOf nested <> rootKind nested.
Proof.
  assert (H1 : rootKind commented = Some "Namespace") by (vm_compute; reflexivity).
  assert (H2 : labelOf commented = Some "Pod") by (vm_compute; reflexivity).
  assert (H3 : rootKind nested = Some "Namespace") by (vm_compute; reflexivity).
  assert (H4 : labelOf nested = Some "Role") by (vm_compute; reflexivity).
  repeat (split; [assumption|]). split.
  - rewrite H1, H2. discriminate.
  - rewrite H3, H4. discriminate.
Qed.

(** Against C9 as stated: with a decoder that decodes into what the
    object holds, the field of the service account, of which the
    directory has two manifests, is after a stage construction that
    returns not the decode of the last of them: it holds the first one
    too.  The decode of a manifest is no function of the manifest alone,
    the code passes the field as it is. *)
Lemma earlier_manifest_stays_in_field :
  let path := "/opt/nfd/master" in
  let first := Fixture.manifest "ServiceAccount" "first" in
  let second := Fixture.manifest "ServiceAccount" "second" in
  exists res ctrl s',
    addResourcesControls (E := FixtureMore.externalsInto) path
      (boot diskMixed []) = (Ret (res, ctrl), s') /\
    filter (fieldIs FServiceAccount) (assetsIn diskMixed path) = [first; second] /\
    Decode (Externals := FixtureMore.externalsInto) FServiceAccount second
      (obj_zero FServiceAccount) = (second, None) /\
    ServiceAccount res = (first ++ second)%list /\
    ServiceAccount res <>
      fst (Decode (Externals := FixtureMore.externalsInto) FServiceAccount second
             (obj_zero FServiceAccount)) /\
    ctrl = [Ctl.Namespace; Ctl.ServiceAccount; Ctl.ServiceAccount; Ctl.DaemonSet].
Proof.
  intros path first second.
  destruct (addResourcesControls (E := FixtureMore.externalsInto) path
              (boot diskMixed [])) as [[[res ctrl]|p|] s'] eqn:Hrun;
    try (exfalso; vm_compute in Hrun; discriminate Hrun).
  exists res, ctrl, s'. split; [reflexivity|].
  assert (Hres : ServiceAccount res = (first ++ second)%list).
  { vm_compute in Hrun. inversion Hrun; subst. reflexivity. }
  assert (Hctrl : ctrl = [Ctl.Namespace; Ctl.ServiceAccount; Ctl.ServiceAccount;
                          Ctl.DaemonSet]).
  { vm_compute in Hrun. inversion Hrun; subst. reflexivity. }
  split; [vm_compute; reflexivity|]. split; [vm_compute; reflexivity|].
  split; [exact Hres|]. split; [|exact Hctrl].
  rewrite Hres. vm_compute. discriminate.
Qed.


(* ------------------------------------------------------------------ *)
(** ** Further properties: reading the manifests *)

Section AssetProperties.
Context {P : Platform} {E : Externals P}.

(** The body of the loop of [getAssetsFrom] over the files. *)
Local Abbreviation readBody :=
  (fun (file : string) (manifests : list assetsFromFile) =>
     emit (FsReadFile file) ;;;
     d <- getDisk ;;
     let '(buffer, err) := ReadFile d file in
     match err with
     | Some e => raise (PanicError e)
     | None => ret (manifests ++ [buffer])%list
     end).

(** The callback over a walk in which every visit has file information. *)
Lemma walk_collects (vs : list visit) :
  forall files s,
    forallb hasInfo vs = true ->
    forRange vs walkFn files s = (Ret (files ++ filesOf vs)%list, s).
Proof.
  induction vs as [|v vs IH]; intros files s H.
  - cbn. rewrite app_nil_r. reflexivity.
  - cbn [forallb] in H. apply andb_true_iff in H. destruct H as [Hv H].
    cbn [forRange]. unfold bind, walkFn, filesOf, isFile, hasInfo in *.
    cbn [filter]. destruct (visit_info v) as [info|]; [|discriminate].
    destruct (IsDir info); cbn [negb ret].
    + apply IH. exact H.
    + rewrite (IH _ _ H). cbn [map]. rewrite <- app_assoc. reflexivity.
Qed.

(** The callback over a walk in which some visit has none. *)
Lemma walk_dereferences (vs : list visit) :
  forall files s,
    forallb hasInfo vs = false ->
    forRange vs walkFn files s = (Panic NilDereference, s).
Proof.
  induction vs as [|v vs IH]; intros files s H.
  - discriminate.
  - cbn [forallb] in H. cbn [forRange]. unfold bind, walkFn, hasInfo in *.
    destruct (visit_info v) as [info|]; [|reflexivity].
    cbn [andb] in H. destruct (negb (IsDir info)); cbn [ret]; apply IH; exact H.
Qed.

(** [filePathWalkDir] on a walk in which every visit has file
    information. *)
Lemma walk_returns (root : string) (s : Sys) :
  forallb hasInfo (Walk (disk s) root) = true ->
  filePathWalkDir root s =
    (Ret (filesOf (Walk (disk s) root), None), logged (FsWalk root) s).
Proof.
  intros H. unfold filePathWalkDir, bind at 1, emit. fold (logged (FsWalk root) s).
  unfold bind at 1, getDisk. unfold bind at 1.
  change (disk (logged (FsWalk root) s)) with (disk s).
  rewrite (walk_collects _ [] _ H). reflexivity.
Qed.

(** [filePathWalkDir] on a walk in which some visit has none. *)
Lemma walk_panics (root : string) (s : Sys) :
  forallb hasInfo (Walk (disk s) root) = false ->
  filePathWalkDir root s = (Panic NilDereference, logged (FsWalk root) s).
Proof.
  intros H. unfold filePathWalkDir, bind at 1, emit.
  fold (logged (FsWalk root) s). unfold bind at 1, getDisk. unfold bind at 1.
  change (disk (logged (FsWalk root) s)) with (disk s).
  rewrite (walk_dereferences _ [] _ H). reflexivity.
Qed.

(** X1. When [Lstat] succeeds on everything the walk visits,
    [filePathWalkDir] returns the paths that are not directories, in
    the order of the walk, with a [nil] error: a path is in the result
    exactly when the walk visits it and it is no directory.  It walks
    the root once and changes nothing else. *)
Theorem filePathWalkDir_lists_files (root : string) (s : Sys) :
  forallb hasInfo (Walk (disk s) root) = true ->
  filePathWalkDir root s =
    (Ret (filesOf (Walk (disk s) root), None), logged (FsWalk root) s) /\
  (forall path,
      In path (filesOf (Walk (disk s) root)) <->
      exists v, In v (Walk (disk s) root) /\ visit_path v = path /\
                exists info, visit_info v = Some info /\ IsDir info = false).
Proof.
  intros H. split; [exact (walk_returns root s H)|].
  intros path. unfold filesOf. rewrite in_map_iff. split.
  - intros (v & Hp & Hin). apply filter_In in Hin. destruct Hin as [Hin Hf].
    exists v. split; [exact Hin|]. split; [exact Hp|].
    unfold isFile in Hf. destruct (visit_info v) as [info|]; [|discriminate].
    exists info. split; [reflexivity|]. destruct (IsDir info); [discriminate|reflexivity].
  - intros (v & Hin & Hp & info & Hi & Hd). exists v. split; [exact Hp|].
    apply filter_In. split; [exact Hin|]. unfold isFile. rewrite Hi, Hd. reflexivity.
Qed.

(** [getAssetsFrom] after a walk that returned. *)
Lemma getAssetsFrom_after_walk (path : string) (s : Sys) :
  forallb hasInfo (Walk (disk s) path) = true ->
  getAssetsFrom path s =
    forRange (filesOf (Walk (disk s) path)) readBody []
      (logged (FsWalk path) s).
Proof.
  intros Hi. unfold getAssetsFrom, bind at 1.
  rewrite (walk_returns _ _ Hi). reflexivity.
Qed.

(** The loop that reads the files, when all of them can be read. *)
Lemma read_all (files : list string) :
  forall acc s,
    forallb (readable (disk s)) files = true ->
    forRange files readBody acc s =
    (Ret (acc ++ map (fun file => fst (ReadFile (disk s) file)) files)%list,
     {| nfd := nfd s; cluster := cluster s; disk := disk s;
        trace := (trace s ++ map FsReadFile files)%list |}).
Proof.
  induction files as [|f files IH]; intros acc s H.
  - cbn. rewrite !app_nil_r. destruct s; reflexivity.
  - cbn [forallb] in H. apply andb_true_iff in H. destruct H as [Hf H].
    cbn [forRange]. unfold bind at 1. unfold bind at 1, emit.
    unfold bind at 1, getDisk. cbn [disk]. unfold readable in Hf.
    destruct (ReadFile (disk s) f) as [buffer [e|]] eqn:Hr; [discriminate|].
    cbn [ret]. rewrite IH; cbn [nfd cluster disk trace]; [|exact H].
    cbn [map fst]. rewrite Hr. cbn [fst]. rewrite <- !app_assoc. reflexivity.
Qed.


(** A panic of the loop carries the error of a file of the list. *)
Lemma read_panics_with_file_error (files : list string) :
  forall acc t e t',
    forRange files readBody acc t = (Panic (PanicError e), t') ->
    exists file, In file files /\ snd (ReadFile (disk t) file) = Some e.
Proof.
  induction files as [|f fl IH]; intros acc t e t' H.
  - cbn in H. discriminate.
  - cbn [forRange] in H. unfold bind at 1 in H. unfold bind at 1, emit in H.
    unfold bind at 1, getDisk in H. cbn [disk] in H.
    destruct (ReadFile (disk t) f) as [buffer [e'|]] eqn:Hr.
    + cbn in H. inversion H; subst. exists f. split; [left; reflexivity|].
      rewrite Hr. reflexivity.
    + cbn [ret] in H. apply IH in H. cbn [disk] in H.
      destruct H as (file & Hin & Hf). exists file. split; [right|]; assumption.
Qed.

(** A loop that returns has read every file. *)
Lemma read_returns_readable (files : list string) :
  forall acc t ms t',
    forRange files readBody acc t = (Ret ms, t') ->
    forallb (readable (disk t)) files = true.
Proof.
  induction files as [|f fl IH]; intros acc t ms t' H.
  - reflexivity.
  - cbn [forallb]. cbn [forRange] in H.
    unfold bind at 1 in H. unfold bind at 1, emit in H.
    unfold bind at 1, getDisk in H. cbn [disk] in H. unfold readable at 1.
    destruct (ReadFile (disk t) f) as [buffer [e'|]] eqn:Hrd.
    + cbn in H. discriminate.
    + cbn [ret snd andb] in *. apply IH in H. exact H.
Qed.

(** X2. [filePathWalkDir] never returns an error: whatever the disk,
    its error result is [nil] when it returns.  When [Lstat] fails on
    something the walk visits (a root that does not exist, say), the
    callback dereferences the [nil] file information and the function
    panics with that run-time error, not with the error of the walk; so
    the [panic(err)] of [getAssetsFrom] after the walk is never reached. *)
Theorem filePathWalkDir_never_errs (root : string) (s : Sys) :
  (forall files err s',
      filePathWalkDir root s = (Ret (files, err), s') -> err = None) /\
  (forallb hasInfo (Walk (disk s) root) = false ->
     filePathWalkDir root s = (Panic NilDereference, logged (FsWalk root) s) /\
     getAssetsFrom root s = (Panic NilDereference, logged (FsWalk root) s)) /\
  (forall e s', getAssetsFrom root s = (Panic (PanicError e), s') ->
     exists file, In file (filesOf (Walk (disk s) root)) /\
                  snd (ReadFile (disk s) file) = Some e).
Proof.
  split; [|split].
  - intros files err s' H.
    destruct (forallb hasInfo (Walk (disk s) root)) eqn:Hi.
    + rewrite (walk_returns _ _ Hi) in H. congruence.
    + rewrite (walk_panics _ _ Hi) in H. discriminate.
  - intros H. split; [exact (walk_panics _ _ H)|].
    unfold getAssetsFrom, bind at 1. rewrite (walk_panics _ _ H). reflexivity.
  - intros e s' H.
    destruct (forallb hasInfo (Walk (disk s) root)) eqn:Hi.
    + rewrite (getAssetsFrom_after_walk _ _ Hi) in H.
      apply read_panics_with_file_error in H. exact H.
    + unfold getAssetsFrom, bind at 1 in H. rewrite (walk_panics _ _ Hi) in H.
      discriminate.
Qed.

(** [getAssetsFrom] on a directory that can be walked and read. *)
Lemma assets_run (path : string) (s : Sys) :
  forallb hasInfo (Walk (disk s) path) = true ->
  forallb (readable (disk s)) (filesOf (Walk (disk s) path)) = true ->
  getAssetsFrom path s =
    (Ret (map (fun file => fst (ReadFile (disk s) file))
              (filesOf (Walk (disk s) path))),
     {| nfd := nfd s; cluster := cluster s; disk := disk s;
        trace := (trace s ++ FsWalk path
                    :: map FsReadFile (filesOf (Walk (disk s) path)))%list |}).
Proof.
  intros Hi Hr. rewrite (getAssetsFrom_after_walk _ _ Hi).
  rewrite (read_all _ [] (logged (FsWalk path) s) Hr).
  cbn [logged nfd cluster disk trace app]. rewrite <- app_assoc. reflexivity.
Qed.

(** X3. When [Lstat] succeeds on everything the walk visits and every
    file can be read, [getAssetsFrom] returns the contents of the files
    of the directory, one manifest for each file that is no directory,
    in the order of the walk (the manifest at a position is the content
    of the file at that position); it walks once, reads each file once,
    in that order, and does nothing else. *)
Theorem getAssetsFrom_reads_in_walk_order (path : string) (s : Sys) :
  forallb hasInfo (Walk (disk s) path) = true ->
  forallb (readable (disk s)) (filesOf (Walk (disk s) path)) = true ->
  exists ms,
    getAssetsFrom path s =
      (Ret ms,
       {| nfd := nfd s; cluster := cluster s; disk := disk s;
          trace := (trace s ++ FsWalk path
                      :: map FsReadFile (filesOf (Walk (disk s) path)))%list |}) /\
    List.length ms = List.length (filter isFile (Walk (disk s) path)) /\
    (forall k file, nth_error (filesOf (Walk (disk s) path)) k = Some file ->
                    nth_error ms k = Some (fst (ReadFile (disk s) file))).
Proof.
  intros Hi Hr. eexists. split; [exact (assets_run path s Hi Hr)|]. split.
  - unfold filesOf. rewrite !length_map. reflexivity.
  - intros k file Hk. rewrite nth_error_map, Hk. reflexivity.
Qed.


Lemma caseOf_never_pod (kind : string) (c : Ctl.control) :
  caseOf kind <> Some (FPod, c).
Proof.
  unfold caseOf.
  repeat match goal with
         | |- context [String.eqb ?a ?b] => destruct (String.eqb a b)
         end; discriminate.
Qed.

Lemma no_manifest_is_pod (ms : list assetsFromFile) :
  forallb (fun m => negb (fieldIs FPod m)) ms = true.
Proof.
  induction ms as [|m ms IH]; [reflexivity|]. cbn [forallb]. rewrite IH.
  unfold fieldIs, caseOfManifest. destruct (labelOf m) as [kind|]; [|reflexivity].
  destruct (caseOf kind) as [[f c]|] eqn:Hc; [|reflexivity].
  destruct (field_eq_dec FPod f) as [<-|]; [|reflexivity].
  exfalso. exact (caseOf_never_pod _ _ Hc).
Qed.

(** X5. The [Pod] field of [Resources] is never written: no case of the
    [switch] decodes into it, so in every bundle that stage construction
    returns it holds the zero value, whatever the manifests are, also
    for manifests of kind "Pod", which are skipped as unknown. *)
Theorem pod_field_stays_zero (path : string) (s s' : Sys) (res : Resources)
        (ctrl : controlFunc) :
  addResourcesControls path s = (Ret (res, ctrl), s') ->
  Pod res = obj_zero FPod /\
  (forall m, labelOf m = Some "Pod" -> recognized m = false).
Proof.
  intros H. split.
  - unfold addResourcesControls, bind in H.
    destruct (getAssetsFrom path s) as [[ms|p|] s1]; try discriminate.
    apply manifests_run in H. destruct H as (-> & _).
    exact (bundleOf_untouched FPod ms Resources_zero (no_manifest_is_pod ms)).
  - intros m Hm. unfold recognized, caseOfManifest. rewrite Hm. reflexivity.
Qed.

(** X6. The events of a stage construction that returns are the walk of
    the directory, the reads of its files in the order of the walk, and
    after them one log entry for each manifest of an unknown kind; the
    stepper, the cluster and the disk are as before: building a stage
    calls no control function and nothing of the cluster. *)
Theorem stage_construction_events (path : string) (s s' : Sys)
        (res : Resources) (ctrl : controlFunc) :
  addResourcesControls path s = (Ret (res, ctrl), s') ->
  exists ms,
    fst (getAssetsFrom path s) = Ret ms /\
    ms = map (fun file => fst (ReadFile (disk s) file))
             (filesOf (Walk (disk s) path)) /\
    trace s' = (trace s ++ FsWalk path
                  :: map FsReadFile (filesOf (Walk (disk s) path))
                  ++ map skipEvent (filter unrecognized ms))%list /\
    nfd s' = nfd s /\ cluster s' = cluster s /\ disk s' = disk s.
Proof.
  intros H.
  destruct (forallb hasInfo (Walk (disk s) path)) eqn:Hi.
  - destruct (forallb (readable (disk s)) (filesOf (Walk (disk s) path))) eqn:Hr.
    + pose proof (assets_run path s Hi Hr) as Hget.
      unfold addResourcesControls, bind in H. rewrite Hget in H.
      apply manifests_run in H.
      destruct H as (_ & _ & Hn & Hc & Hd & Ht & _).
      cbn [nfd cluster disk trace] in *.
      eexists. rewrite Hget. split; [reflexivity|]. split; [reflexivity|].
      rewrite Ht, <- app_assoc. cbn [app]. auto.
    + exfalso. unfold addResourcesControls, bind in H.
      destruct (getAssetsFrom path s) as [[ms|p|] s1] eqn:Hget; try discriminate.
      rewrite (getAssetsFrom_after_walk _ _ Hi) in Hget.
      apply read_returns_readable in Hget. cbn [logged disk] in Hget. congruence.
  - unfold addResourcesControls, bind at 1, getAssetsFrom, bind at 1 in H.
    rewrite (walk_panics _ _ Hi) in H. discriminate.
Qed.

End AssetProperties.

(* ------------------------------------------------------------------ *)
(** ** Further properties: the stepper and [Reconcile] *)

Section LoopProperties.
Context {P : Platform} {E : Externals P}.

Lemma currentStage_inside (n : NFD) :
  0 <= idx n < GoInt.len (controls n) -> exists stage, currentStage n = Some stage.
Proof.
  intros H. unfold currentStage.
  assert (Hb : ((0 <=? idx n) && (idx n <? GoInt.len (controls n)))%bool = true).
  { apply andb_true_iff. split; [apply Z.leb_le|apply Z.ltb_lt]; lia. }
  rewrite Hb.
  destruct (nth_error (controls n) (Z.to_nat (idx n))) as [stage|] eqn:Hn;
    [eauto|].
  apply nth_error_None in Hn. unfold GoInt.len in H. lia.
Qed.

Lemma currentStage_outside (n : NFD) :
  ~ (0 <= idx n < GoInt.len (controls n)) -> currentStage n = None.
Proof.
  intros H. destruct (currentStage n) as [stage|] eqn:Hc; [|reflexivity].
  exfalso. apply H. exact (currentStage_range _ _ Hc).
Qed.

(** X7. [step] panics exactly when the cursor is outside the stage
    list, with the run-time error of the index and before anything of
    the stepper has changed; on a cursor inside the list it returns.
    In particular a call of [step] on a stepper for which [last] has
    just answered true panics. *)
Theorem step_panics_exactly_outside (s : Sys) :
  (0 <= idx (nfd s) < GoInt.len (controls (nfd s)) ->
     exists o, fst (step s) = Ret o) /\
  (~ (0 <= idx (nfd s) < GoInt.len (controls (nfd s))) ->
     step s = (Panic (IndexOutOfRange (idx (nfd s)) (GoInt.len (controls (nfd s)))),
               stepped s)) /\
  (fst (last s) = Ret true ->
     fst (step (snd (last s))) =
       Panic (IndexOutOfRange (GoInt.len (controls (nfd s)))
                              (GoInt.len (controls (nfd s)))) /\
     nfd (snd (step (snd (last s)))) = nfd s).
Proof.
  split; [|split].
  - intros H. destruct (currentStage_inside _ H) as [stage Hc].
    destruct (step_run _ _ Hc) as (H1 & _). rewrite H1. eauto.
  - intros H. apply step_outside. apply currentStage_outside. exact H.
  - rewrite last_run. cbn [fst snd]. intros H. inversion H as [Hi].
    apply Z.eqb_eq in Hi.
    rewrite step_outside.
    + cbn [fst snd stepped nfd]. rewrite Hi. split; reflexivity.
    + apply currentStage_outside. cbn [nfd]. lia.
Qed.

Lemma skipn_current {A} (cs : list A) :
  forall (i : nat) (st : A) (rest : list A),
    skipn i cs = st :: rest ->
    nth_error cs i = Some st /\ skipn (S i) cs = rest /\
    List.length cs = (i + S (List.length rest))%nat.
Proof.
  induction cs as [|c cs IH]; intros i st rest H.
  - destruct i; discriminate.
  - destruct i as [|i].
    + cbn in H. inversion H; subst. cbn. auto.
    + cbn [skipn] in H. destruct (IH _ _ _ H) as (H1 & H2 & H3).
      cbn [nth_error List.length]. split; [exact H1|]. split; [exact H2|]. lia.
Qed.

Lemma set_idx_same (n : NFD) (v : Z) : idx n = v -> set_idx v n = n.
Proof. intros <-. destruct n; reflexivity. Qed.

(** The loop of [Reconcile] over stages that are all ready. *)
Lemma loop_converges (rest : list controlFunc) :
  forall s fuel,
    0 <= idx (nfd s) ->
    skipn (Z.to_nat (idx (nfd s))) (controls (nfd s)) = rest ->
    rest <> [] ->
    GoInt.len (controls (nfd s)) <= GoInt.MaxInt ->
    readyFrom rest (nfd s) (cluster s) = true ->
    (List.length rest <= fuel)%nat ->
    exists s',
      reconcileLoop fuel s = (Ret None, s') /\
      nfd s' = set_idx (GoInt.len (controls (nfd s))) (nfd s) /\
      cluster s' = clusterAfterStages rest (nfd s) (cluster s) /\
      disk s' = disk s /\
      trace s' = (trace s ++ callsOfStages rest)%list.
Proof.
  induction rest as [|st rest IH]; intros s fuel H0 Hskip Hne Hlen Hready Hfuel;
    [congruence|].
  destruct fuel as [|fuel]; [cbn in Hfuel; lia|].
  destruct (skipn_current _ _ _ _ Hskip) as (Hnth & Hnext & Hcount).
  assert (Hin : 0 <= idx (nfd s) < GoInt.len (controls (nfd s)))
    by (unfold GoInt.len; lia).
  assert (Hc : currentStage (nfd s) = Some st).
  { destruct (currentStage_inside _ Hin) as [stage Hc]. rewrite Hc.
    unfold currentStage in Hc.
    destruct ((0 <=? idx (nfd s)) && (idx (nfd s) <? GoInt.len (controls (nfd s))))%bool;
      congruence. }
  cbn [readyFrom] in Hready. apply andb_true_iff in Hready.
  destruct Hready as [Hst Hready].
  destruct (step_run _ _ Hc) as (H1 & H2 & H3 & H4 & H5).
  unfold called in H4, H5. unfold allReady in Hst.
  apply firstIndex_None in Hst. rewrite Hst in H1, H2, H4, H5.
  assert (Hadd : GoInt.add (idx (nfd s)) 1 = idx (nfd s) + 1).
  { unfold GoInt.add. apply wrap_small.
    unfold GoInt.MinInt, GoInt.MaxInt in *. lia. }
  rewrite Hadd in H2.
  cbn [reconcileLoop]. unfold bind at 1.
  destruct (step s) as [o s1]. cbn [fst snd] in *. subst o.
  destruct s1 as [n1 c1 d1 t1]. cbn [nfd cluster disk trace] in H2, H3, H4, H5.
  subst n1 c1 d1 t1.
  unfold bind at 1. rewrite last_run. cbn [nfd cluster disk trace set_idx idx controls].
  destruct rest as [|st2 rest].
  - (* the last stage *)
    assert (Hl : idx (nfd s) + 1 = GoInt.len (controls (nfd s)))
      by (unfold GoInt.len; cbn [List.length] in Hcount; lia).
    rewrite Hl, Z.eqb_refl. eexists. split; [reflexivity|].
    cbn [nfd cluster disk trace callsOfStages callsOfStage clusterAfterStages].
    rewrite app_nil_r, <- app_assoc. auto.
  - assert (Hl : idx (nfd s) + 1 <> GoInt.len (controls (nfd s)))
      by (unfold GoInt.len; cbn [List.length] in Hcount; lia).
    apply Z.eqb_neq in Hl. rewrite Hl.
    destruct (IH {| nfd := set_idx (idx (nfd s) + 1) (nfd s);
                    cluster := clusterAfter st (nfd s) (cluster s);
                    disk := disk s;
                    trace := ((trace s ++ CallStep :: map CallControl st)
                                ++ [CallLast])%list |} fuel)
      as (s' & K1 & K2 & K3 & K4 & K5);
      cbn [nfd cluster disk trace set_idx idx controls].
    + lia.
    + replace (Z.to_nat (idx (nfd s) + 1)) with (S (Z.to_nat (idx (nfd s))))
        by lia. exact Hnext.
    + discriminate.
    + exact Hlen.
    + exact Hready.
    + cbn [List.length] in *. lia.
    + exists s'. split; [exact K1|].
      cbn [nfd cluster disk trace set_idx idx controls resources rec ins] in *.
      rewrite K2, K3, K4, K5.
      cbn [callsOfStages callsOfStage clusterAfterStages].
      rewrite <- !app_assoc. cbn [app].
      split; [reflexivity|]. split; [reflexivity|]. split; [reflexivity|].
      change (callsOfStage st)
        with (CallStep :: map CallControl st ++ [CallLast])%list.
      cbn [app]. rewrite <- app_assoc. reflexivity.
Qed.

(** X8. When every stage is ready as its turn comes, [Reconcile] makes
    one pass for each stage, calls every control function of every
    stage once, in the order of the stages and within a stage in the
    order of the list, and returns the zero [Result] with a [nil] error;
    the cursor ends at the number of stages, where [last] is true. *)
Theorem Reconcile_converges (r : NodeFeatureDiscoveryReconciler) (ctx : Ctx)
        (req : Request) (s s1 : Sys) (i : NodeFeatureDiscovery) :
  Get r ctx (NamespacedName_ req) (cluster s) NodeFeatureDiscovery_zero
    = (i, None) ->
  init r i (fetched req s) = (Ret tt, s1) ->
  GoInt.len (controls (nfd s1)) <= GoInt.MaxInt ->
  readyFrom (controls (nfd s1)) (nfd s1) (cluster s1) = true ->
  exists s',
    Reconcile r ctx req s = (Ret (Result_zero, None), s') /\
    idx (nfd s') = GoInt.len (controls (nfd s1)) /\
    controls (nfd s') = controls (nfd s1) /\
    trace s' = (trace s1 ++ callsOfStages (controls (nfd s1)))%list /\
    cluster s' = clusterAfterStages (controls (nfd s1)) (nfd s1) (cluster s1) /\
    fst (last s') = Ret true.
Proof.
  intros Hget Hinit Hlen Hready.
  destruct (init_cursor _ _ _ _ Hinit) as [H0 Hne].
  destruct (loop_converges (controls (nfd s1)) s1
              (S (List.length (controls (nfd s1)))))
    as (s' & K1 & K2 & K3 & K4 & K5); auto.
  - lia.
  - rewrite H0. reflexivity.
  - exists s'. rewrite (Reconcile_fetched _ _ _ _ _ Hget). unfold bind at 1.
    rewrite Hinit. unfold bind at 1, getNFD. unfold bind at 1. rewrite K1.
    split; [reflexivity|]. rewrite last_run, K2, K3, K5.
    cbn [set_idx idx controls fst]. rewrite Z.eqb_refl. auto.
Qed.

(** X9. When the first report that ends a stage comes, in some pass of
    the loop, with an error, [Reconcile] returns that very error next
    to the zero [Result]; the cursor stays at the stage, the functions
    after the failing one and the later stages are not called. *)
Theorem control_error_is_returned (r : NodeFeatureDiscoveryReconciler)
        (ctx : Ctx) (req : Request) (s s1 s2 : Sys) (i : NodeFeatureDiscovery)
        (j k : nat) (stage : controlFunc) (stat : ResourceStatus) (e : error) :
  Get r ctx (NamespacedName_ req) (cluster s) NodeFeatureDiscovery_zero
    = (i, None) ->
  init r i (fetched req s) = (Ret tt, s1) ->
  GoInt.len (controls (nfd s1)) <= GoInt.MaxInt ->
  passes j s1 = Some s2 ->
  currentStage (nfd s2) = Some stage ->
  firstIndex halts (reports stage (nfd s2) (cluster s2)) = Some k ->
  nth_error (reports stage (nfd s2) (cluster s2)) k = Some (stat, Some e) ->
  exists s',
    Reconcile r ctx req s = (Ret (Result_zero, Some e), s') /\
    idx (nfd s') = Z.of_nat j /\
    trace s' = (trace s2 ++ CallStep :: map CallControl (firstn (S k) stage))%list.
Proof.
  intros Hget Hinit Hlen Hpass Hstage Hstop Hrep.
  destruct (step_run _ _ Hstage) as (H1 & H2 & _ & _ & H5).
  unfold called in H5. rewrite Hstop in H1, H2, H5. rewrite Hrep in H1.
  cbn [option_map stopError] in H1.
  destruct (init_cursor _ _ _ _ Hinit) as [H0 _].
  destruct (passes_cursor _ _ _ Hpass Hlen) as [Hc Hi]. rewrite H0 in Hi.
  pose proof (currentStage_range _ _ Hstage) as Hr.
  rewrite Hc in Hr. unfold GoInt.len in Hr.
  exists (snd (step s2)). split; [|split].
  - rewrite (Reconcile_fetched _ _ _ _ _ Hget). unfold bind at 1.
    rewrite Hinit. unfold bind at 1, getNFD. unfold bind at 1.
    replace (S (List.length (controls (nfd s1))))
      with (j + S (List.length (controls (nfd s1)) - j))%nat by lia.
    rewrite (loop_passes _ _ _ _ Hpass).
    rewrite (loop_error _ s2 (snd (step s2)) e); [reflexivity|].
    destruct (step s2) as [o s3]. cbn [fst snd] in *. subst o. reflexivity.
  - rewrite H2. lia.
  - exact H5.
Qed.

(** The loop on a cursor inside the list returns, with the cursor
    still inside the list or at its end. *)
Lemma loop_returns (fuel : nat) :
  forall t,
    0 <= idx (nfd t) < GoInt.len (controls (nfd t)) ->
    GoInt.len (controls (nfd t)) <= GoInt.MaxInt ->
    GoInt.len (controls (nfd t)) - idx (nfd t) <= Z.of_nat fuel ->
    exists o t',
      reconcileLoop fuel t = (Ret o, t') /\
      0 <= idx (nfd t') <= GoInt.len (controls (nfd t')) /\
      (o = None <-> idx (nfd t') = GoInt.len (controls (nfd t'))) /\
      (forall x, o = Some x -> fst x = Result_zero /\ snd x <> None).
Proof.
  induction fuel as [|fuel IH]; intros t Hin Hl Hf; [lia|].
  destruct (currentStage_inside _ Hin) as [stage Hc].
  destruct (step_run _ _ Hc) as (H1 & H2 & _).
  cbn [reconcileLoop]. unfold bind at 1.
  destruct (step t) as [o t1]. cbn [fst snd] in *. subst o.
  destruct t1 as [n1 c1 d1 tr1]. cbn [nfd] in H2. subst n1.
  destruct (firstIndex halts (reports stage (nfd t) (cluster t))) as [k|] eqn:Hs.
  - destruct (firstIndex_Some _ _ _ Hs) as [[x [Hx _]] _]. rewrite Hx.
    cbn [option_map ret]. eexists. eexists. split; [reflexivity|].
    cbn [nfd]. split; [lia|]. split.
    + split; [discriminate|]. lia.
    + intros y Hy. inversion Hy; subst. cbn. split; [reflexivity|discriminate].
  - unfold bind at 1. rewrite last_run. cbn [nfd cluster disk trace set_idx idx controls].
    assert (Hadd : GoInt.add (idx (nfd t)) 1 = idx (nfd t) + 1).
    { unfold GoInt.add. apply wrap_small.
      unfold GoInt.MinInt, GoInt.MaxInt in *. lia. }
    rewrite Hadd.
    destruct (idx (nfd t) + 1 =? GoInt.len (controls (nfd t))) eqn:Hlast.
    + apply Z.eqb_eq in Hlast. eexists. eexists. split; [reflexivity|].
      cbn [nfd set_idx idx controls]. split; [lia|].
      split; [split; auto|]. intros y Hy. discriminate.
    + apply Z.eqb_neq in Hlast.
      apply IH; cbn [nfd set_idx idx controls]; try lia.
Qed.

(** X10. Once [init] has returned, [Reconcile] returns: its loop never
    takes the cursor outside the stage list, so the index of [step]
    never panics, and the loop ends after at most as many passes as
    there are stages.  The [Result] is the zero value in every case, and
    the error is [nil] exactly when the cursor has reached the end of
    the list. *)
Theorem Reconcile_returns_after_init (r : NodeFeatureDiscoveryReconciler)
        (ctx : Ctx) (req : Request) (s s1 : Sys) (i : NodeFeatureDiscovery) :
  Get r ctx (NamespacedName_ req) (cluster s) NodeFeatureDiscovery_zero
    = (i, None) ->
  init r i (fetched req s) = (Ret tt, s1) ->
  GoInt.len (controls (nfd s1)) <= GoInt.MaxInt ->
  exists res err s',
    Reconcile r ctx req s = (Ret (res, err), s') /\
    res = Result_zero /\
    0 <= idx (nfd s') <= GoInt.len (controls (nfd s')) /\
    (err = None <-> idx (nfd s') = GoInt.len (controls (nfd s'))).
Proof.
  intros Hget Hinit Hlen.
  destruct (init_cursor _ _ _ _ Hinit) as [H0 Hne].
  assert (Hpos : 0 < GoInt.len (controls (nfd s1))).
  { unfold GoInt.len. destruct (controls (nfd s1)); [congruence|cbn; lia]. }
  rewrite (Reconcile_fetched _ _ _ _ _ Hget). unfold bind at 1.
  rewrite Hinit. unfold bind at 1, getNFD. unfold bind at 1.
  destruct (loop_returns (S (List.length (controls (nfd s1)))) s1)
    as (o & t' & Hrun & Hrange & Hnone & Hsome).
  - lia.
  - exact Hlen.
  - unfold GoInt.len. lia.
  - rewrite Hrun. destruct o as [[res err]|].
    + destruct (Hsome _ eq_refl) as [Hres Herr]. cbn [fst snd] in *.
      exists res, err, t'. split; [reflexivity|]. split; [exact Hres|].
      split; [exact Hrange|]. split; [intros ->; congruence|].
      intros Hi. apply Hnone in Hi. discriminate.
    + exists Result_zero, None, t'. split; [reflexivity|]. split; [reflexivity|].
      split; [exact Hrange|]. split; [intros _; apply Hnone; reflexivity|auto].
Qed.

End LoopProperties.

Section StepperStateProperties.
Context {P : Platform} {E : Externals P}.

Lemma initialised_sameStages (r : NodeFeatureDiscoveryReconciler)
      (i : NodeFeatureDiscovery) (a b : Sys) :
  sameStages a b -> initialised r i a = initialised r i b.
Proof.
  intros (H1 & H2 & H3 & H4 & H5).
  destruct a as [na ca da ta], b as [nb cb db tb].
  destruct na, nb. cbn in *. subst. reflexivity.
Qed.

Lemma init_sameStages (r : NodeFeatureDiscoveryReconciler)
      (i : NodeFeatureDiscovery) (a b : Sys) :
  sameStages a b -> init r i a = init r i b.
Proof.
  intros H. pose proof (initialised_sameStages r i a b H) as Hi.
  destruct H as (Hc & _).
  destruct (controls (nfd a)) as [|c cs] eqn:Ha.
  - rewrite (init_first r i a Ha), (init_first r i b (eq_sym Hc)), Hi.
    reflexivity.
  - rewrite (init_built r i a), (init_built r i b), Hi; congruence.
Qed.

(** X11. [Reconcile] does not carry the cursor or the bindings of the
    stepper over from one call to the next: on two states that differ
    in nothing but the cursor, the bound reconciler and the bound
    instance, it returns the same values, and after a fetch that went
    well it also ends in the same state.  A cursor left in the middle of
    the stages by a call that stopped at a resource that was not ready
    has no effect on the next call, which begins at the first stage. *)
Theorem Reconcile_forgets_cursor (r : NodeFeatureDiscoveryReconciler)
        (ctx : Ctx) (req : Request) (a b : Sys) :
  sameStages a b ->
  fst (Reconcile r ctx req a) = fst (Reconcile r ctx req b) /\
  (forall i, Get r ctx (NamespacedName_ req) (cluster a)
               NodeFeatureDiscovery_zero = (i, None) ->
             Reconcile r ctx req a = Reconcile r ctx req b).
Proof.
  intros H. pose proof H as (Hc & Hr & Hcl & Hd & Ht).
  assert (Hfetched : sameStages (fetched req a) (fetched req b)).
  { unfold sameStages, fetched. cbn [nfd cluster disk trace]. rewrite Ht. auto. }
  assert (Hok : forall i, Get r ctx (NamespacedName_ req) (cluster a)
                            NodeFeatureDiscovery_zero = (i, None) ->
                          Reconcile r ctx req a = Reconcile r ctx req b).
  { intros i Hget. rewrite (Reconcile_fetched r ctx req a i Hget).
    rewrite Hcl in Hget. rewrite (Reconcile_fetched r ctx req b i Hget).
    unfold bind at 1. unfold bind at 4.
    rewrite (init_sameStages r i _ _ Hfetched). reflexivity. }
  split; [|exact Hok].
  destruct (Get r ctx (NamespacedName_ req) (cluster a) NodeFeatureDiscovery_zero)
    as [i [e|]] eqn:Hget.
  - unfold Reconcile, bind, emit, getCluster. cbn [cluster].
    rewrite <- Hcl, Hget. destruct (k8serrors.IsNotFound e); reflexivity.
  - rewrite (Hok i eq_refl). reflexivity.
Qed.

Lemma Reconcile_run (r : NodeFeatureDiscoveryReconciler) (ctx : Ctx)
      (req : Request) (s : Sys) (i : NodeFeatureDiscovery) :
  Get r ctx (NamespacedName_ req) (cluster s) NodeFeatureDiscovery_zero
    = (i, None) ->
  Reconcile r ctx req s =
    match init r i (fetched req s) with
    | (Ret _, s1) =>
        match reconcileLoop (S (List.length (controls (nfd s1)))) s1 with
        | (Ret (Some res), s2) => (Ret res, s2)
        | (Ret None, s2) => (Ret (Result_zero, None), s2)
        | (Panic p, s2) => (Panic p, s2)
        | (OutOfFuel, s2) => (OutOfFuel, s2)
        end
    | (Panic p, s1) => (Panic p, s1)
    | (OutOfFuel, s1) => (OutOfFuel, s1)
    end.
Proof.
  intros Hget. rewrite (Reconcile_fetched _ _ _ _ _ Hget). unfold bind at 1.
  destruct (init r i (fetched req s)) as [[[]|p|] s1]; try reflexivity.
  unfold bind at 1, getNFD. unfold bind at 1.
  destruct (reconcileLoop (S (List.length (controls (nfd s1)))) s1)
    as [[[res|]|p|] s2]; reflexivity.
Qed.

Lemma Reconcile_not_fetched (r : NodeFeatureDiscoveryReconciler) (ctx : Ctx)
      (req : Request) (s : Sys) (i : NodeFeatureDiscovery) (e : error) :
  Get r ctx (NamespacedName_ req) (cluster s) NodeFeatureDiscovery_zero
    = (i, Some e) ->
  exists res evs,
    Reconcile r ctx req s =
      (Ret res, {| nfd := nfd s; cluster := cluster s; disk := disk s;
                   trace := (trace s ++ evs)%list |}) /\
    forallb (fun ev => negb (isFsEvent ev)) evs = true.
Proof.
  intros Hget. unfold Reconcile, bind, emit, getCluster. cbn [cluster].
  rewrite Hget.
  destruct (k8serrors.IsNotFound e); cbn [nfd cluster disk trace ret];
    eexists; eexists; rewrite <- !app_assoc; cbn [app];
    (split; [reflexivity|reflexivity]).
Qed.

Lemma reconcileLoop_pass (fuel : nat) (s : Sys) :
  reconcileLoop (S fuel) s =
    match step s with
    | (Ret (Some e), s1) => (Ret (Some (Result_zero, Some e)), s1)
    | (Ret None, s1) =>
        let s2 := {| nfd := nfd s1; cluster := cluster s1; disk := disk s1;
                     trace := (trace s1 ++ [CallLast])%list |} in
        if idx (nfd s1) =? GoInt.len (controls (nfd s1))
        then (Ret None, s2) else reconcileLoop fuel s2
    | (Panic p, s1) => (Panic p, s1)
    | (OutOfFuel, s1) => (OutOfFuel, s1)
    end.
Proof.
  cbn [reconcileLoop]. unfold bind at 1.
  destruct (step s) as [[[e|]|p|] s1]; try reflexivity.
  unfold bind. rewrite last_run.
  destruct (idx (nfd s1) =? GoInt.len (controls (nfd s1))); reflexivity.
Qed.

(** The loop keeps the stage list, the bundles and the disk, and all
    its events are calls of the stepper. *)
Lemma loop_frame (fuel : nat) :
  forall s,
    controls (nfd (snd (reconcileLoop fuel s))) = controls (nfd s) /\
    resources (nfd (snd (reconcileLoop fuel s))) = resources (nfd s) /\
    disk (snd (reconcileLoop fuel s)) = disk s /\
    exists evs,
      trace (snd (reconcileLoop fuel s)) = (trace s ++ evs)%list /\
      forallb isStepperCall evs = true.
Proof.
  induction fuel as [|fuel IH]; intros s.
  - cbn. repeat split. exists []. rewrite app_nil_r. auto.
  - rewrite reconcileLoop_pass.
    assert (Hstep : controls (nfd (snd (step s))) = controls (nfd s) /\
                    resources (nfd (snd (step s))) = resources (nfd s) /\
                    disk (snd (step s)) = disk s /\
                    exists evs, trace (snd (step s)) = (trace s ++ evs)%list /\
                                forallb isStepperCall evs = true).
    { destruct (step_keeps_stages s) as [K1 K2].
      split; [exact K1|]. split; [exact K2|].
      destruct (currentStage (nfd s)) as [stage|] eqn:Hc.
      - destruct (step_run _ _ Hc) as (_ & _ & H3 & _ & H5).
        split; [exact H3|]. eexists. split; [exact H5|].
        cbn [forallb isStepperCall andb]. rewrite forallb_forall.
        intros x Hx. apply in_map_iff in Hx. destruct Hx as (c & <- & _).
        reflexivity.
      - rewrite (step_outside _ Hc). cbn [snd stepped disk trace].
        split; [reflexivity|]. exists [CallStep]. auto. }
    destruct (step s) as [[[e|]|p|] s1]; cbn [fst snd] in *;
      [exact Hstep | | exact Hstep | exact Hstep].
    destruct Hstep as (K1 & K2 & K3 & evs & K4 & K5). cbv zeta.
    destruct (idx (nfd s1) =? GoInt.len (controls (nfd s1))).
    + cbn [ret snd nfd disk trace]. split; [exact K1|]. split; [exact K2|].
      split; [exact K3|]. exists (evs ++ [CallLast])%list.
      rewrite K4, <- app_assoc, forallb_app, K5. auto.
    + destruct (IH {| nfd := nfd s1; cluster := cluster s1; disk := disk s1;
                      trace := (trace s1 ++ [CallLast])%list |})
        as (J1 & J2 & J3 & evs' & J4 & J5).
      cbn [nfd disk trace] in *. rewrite J1, J2, J3, J4, K1, K2, K3, K4.
      repeat split. exists (evs ++ CallLast :: evs')%list.
      rewrite <- !app_assoc, forallb_app, K5. cbn [app forallb isStepperCall andb].
      rewrite J5. auto.
Qed.

(** X12. A [Reconcile] on a stepper whose stages are built reads
    nothing from the disk: none of its events is a walk or a read, and
    the stage list, the bundles and the disk are after the call what
    they were before, however the call ends. *)
Theorem Reconcile_reuses_stages (r : NodeFeatureDiscoveryReconciler)
        (ctx : Ctx) (req : Request) (s : Sys) :
  controls (nfd s) <> [] ->
  controls (nfd (snd (Reconcile r ctx req s))) = controls (nfd s) /\
  resources (nfd (snd (Reconcile r ctx req s))) = resources (nfd s) /\
  disk (snd (Reconcile r ctx req s)) = disk s /\
  exists evs,
    trace (snd (Reconcile r ctx req s)) = (trace s ++ evs)%list /\
    forallb (fun ev => negb (isFsEvent ev)) evs = true.
Proof.
  intros Hne.
  destruct (Get r ctx (NamespacedName_ req) (cluster s) NodeFeatureDiscovery_zero)
    as [i [e|]] eqn:Hget.
  - destruct (Reconcile_not_fetched _ _ _ _ _ _ Hget) as (res & evs & -> & Hevs).
    cbn [snd nfd disk trace]. repeat split. exists evs. auto.
  - rewrite (Reconcile_run _ _ _ _ _ Hget).
    rewrite init_built; [|exact Hne].
    destruct (loop_frame
                (S (List.length (controls (nfd (initialised r i (fetched req s))))))
                (initialised r i (fetched req s)))
      as (K1 & K2 & K3 & evs & K4 & K5).
    assert (Hgoal :
      controls (nfd (snd (reconcileLoop
         (S (List.length (controls (nfd (initialised r i (fetched req s))))))
         (initialised r i (fetched req s))))) = controls (nfd s) /\
      resources (nfd (snd (reconcileLoop
         (S (List.length (controls (nfd (initialised r i (fetched req s))))))
         (initialised r i (fetched req s))))) = resources (nfd s) /\
      disk (snd (reconcileLoop
         (S (List.length (controls (nfd (initialised r i (fetched req s))))))
         (initialised r i (fetched req s)))) = disk s /\
      exists evs0,
        trace (snd (reconcileLoop
         (S (List.length (controls (nfd (initialised r i (fetched req s))))))
         (initialised r i (fetched req s)))) = (trace s ++ evs0)%list /\
        forallb (fun ev => negb (isFsEvent ev)) evs0 = true).
    { split; [exact K1|]. split; [exact K2|]. split; [exact K3|].
      exists ([LogInfo reconcilerLog "Fetch the NodeFeatureDiscovery instance" [];
               ApiGet (NamespacedName_ req);
               LogInfo reconcilerLog "Ready to apply components" [];
               CallInit] ++ evs)%list.
      split.
      - rewrite K4. cbn [initialised fetched trace].
        rewrite <- !app_assoc. reflexivity.
      - rewrite forallb_app. cbn [forallb isFsEvent negb andb].
        rewrite forallb_forall. intros x Hx.
        rewrite forallb_forall in K5. specialize (K5 x Hx).
        destruct x; try discriminate; reflexivity. }
    destruct (reconcileLoop _ (initialised r i (fetched req s)))
      as [[[res|]|p|] s']; exact Hgoal.
Qed.

Lemma init_aligned (r : NodeFeatureDiscoveryReconciler)
      (i : NodeFeatureDiscovery) (s : Sys) :
  List.length (resources (nfd s)) = List.length (controls (nfd s)) ->
  List.length (resources (nfd (snd (init r i s))))
    = List.length (controls (nfd (snd (init r i s)))).
Proof.
  intros H. destruct (controls (nfd s)) as [|c cs] eqn:Hc.
  - assert (H0 : List.length (resources (nfd (initialised r i s)))
                 = List.length (controls (nfd (initialised r i s)))).
    { cbn. rewrite Hc. exact H. }
    rewrite (init_first _ _ _ Hc). unfold bind. rewrite addState_run.
    pose proof (framed_addResourcesControls "/opt/nfd/master" (initialised r i s))
      as (F1 & _).
    rewrite <- F1 in H0.
    destruct (addResourcesControls "/opt/nfd/master" (initialised r i s))
      as [[[res1 ctl1]|p|] sa]; cbn [fst snd] in *; try exact H0.
    assert (H1 : List.length (resources (nfd (withStage res1 ctl1 sa)))
                 = List.length (controls (nfd (withStage res1 ctl1 sa)))).
    { cbn. rewrite !length_app, H0. reflexivity. }
    rewrite addState_run.
    pose proof (framed_addResourcesControls "/opt/nfd/worker"
                  (withStage res1 ctl1 sa)) as (F2 & _).
    rewrite <- F2 in H1.
    destruct (addResourcesControls "/opt/nfd/worker" (withStage res1 ctl1 sa))
      as [[[res2 ctl2]|p|] sb]; cbn [fst snd] in *; try exact H1.
    cbn. rewrite !length_app, H1. reflexivity.
  - rewrite init_built; [|congruence]. cbn. rewrite Hc. exact H.
Qed.

(** X13. Stage list and bundles stay in step: when the stepper holds as
    many bundles as stages before a call of [Reconcile], it does so
    after the call, however the call ends, also when it panics in the
    middle of building the stages; so a cursor inside the stage list
    is inside the list of bundles. *)
Theorem bundles_match_stages (r : NodeFeatureDiscoveryReconciler)
        (ctx : Ctx) (req : Request) (s : Sys) :
  List.length (resources (nfd s)) = List.length (controls (nfd s)) ->
  List.length (resources (nfd (snd (Reconcile r ctx req s))))
    = List.length (controls (nfd (snd (Reconcile r ctx req s)))).
Proof.
  intros H.
  destruct (Get r ctx (NamespacedName_ req) (cluster s) NodeFeatureDiscovery_zero)
    as [i [e|]] eqn:Hget.
  - destruct (Reconcile_not_fetched _ _ _ _ _ _ Hget) as (res & evs & -> & _).
    exact H.
  - rewrite (Reconcile_run _ _ _ _ _ Hget).
    pose proof (init_aligned r i (fetched req s) H) as Hi.
    destruct (init r i (fetched req s)) as [[[]|p|] s1]; cbn [fst snd] in *;
      try exact Hi.
    destruct (loop_frame (S (List.length (controls (nfd s1)))) s1)
      as (K1 & K2 & _).
    rewrite <- K1, <- K2 in Hi.
    destruct (reconcileLoop (S (List.length (controls (nfd s1)))) s1)
      as [[[res|]|p|] s']; exact Hi.
Qed.

(** X14. The stages are built once and for all, also when that goes
    wrong half way: when, in the first call of [init], the master stage
    is built and the construction of the worker stage panics, the
    stepper is left with the master stage alone, and a later call of
    [init] on it (in a process that recovers from the panic) finds a
    list that is not empty and builds nothing: the worker stage stays
    missing. *)
Theorem half_built_stages_stay (r : NodeFeatureDiscoveryReconciler)
        (i : NodeFeatureDiscovery) (s sa sb : Sys) (res1 : Resources)
        (ctl1 : controlFunc) (p : panic) :
  controls (nfd s) = [] ->
  addResourcesControls "/opt/nfd/master" (initialised r i s)
    = (Ret (res1, ctl1), sa) ->
  addResourcesControls "/opt/nfd/worker" (withStage res1 ctl1 sa)
    = (Panic p, sb) ->
  init r i s = (Panic p, sb) /\
  controls (nfd sb) = [ctl1] /\
  forall r' i',
    init r' i' sb = (Ret tt, initialised r' i' sb) /\
    controls (nfd (initialised r' i' sb)) = [ctl1].
Proof.
  intros Hc Ha Hb.
  pose proof (framed_addResourcesControls "/opt/nfd/master" (initialised r i s))
    as (F1 & _).
  pose proof (framed_addResourcesControls "/opt/nfd/worker"
                (withStage res1 ctl1 sa)) as (F2 & _).
  rewrite Ha in F1. rewrite Hb in F2. cbn [fst snd] in *.
  assert (Hsb : controls (nfd sb) = [ctl1]).
  { rewrite F2. cbn [withStage nfd set_resources set_controls controls].
    rewrite F1. cbn. rewrite Hc. reflexivity. }
  split; [|split; [exact Hsb|]].
  - rewrite (init_first _ _ _ Hc). unfold bind. rewrite addState_run, Ha.
    rewrite addState_run, Hb. reflexivity.
  - intros r' i'. split.
    + apply init_built. rewrite Hsb. discriminate.
    + cbn. exact Hsb.
Qed.

End StepperStateProperties.

Section FilterProperties.

(** X15. [validateUpdateEvent] accepts an update exactly when both the
    old and the new object are there; it writes nothing to the log when
    it accepts and one entry when it refuses, the one about the old
    object whenever that is missing, whether or not the new one is. *)
Theorem validateUpdateEvent_needs_both {Object : Type} (e : UpdateEvent Object) :
  (fst (validateUpdateEvent e) = true <->
     ObjectOld e <> None /\ ObjectNew e <> None) /\
  (fst (validateUpdateEvent e) = true -> snd (validateUpdateEvent e) = []) /\
  (fst (validateUpdateEvent e) = false ->
     List.length (snd (validateUpdateEvent e)) = 1%nat) /\
  (ObjectOld e = None ->
     validateUpdateEvent e =
       (false, ["Update event has no old runtime object to update"])) /\
  (ObjectOld e <> None -> ObjectNew e = None ->
     validateUpdateEvent e =
       (false, ["Update event has no new runtime object for update"])).
Proof.
  unfold validateUpdateEvent.
  destruct (ObjectOld e) as [o|], (ObjectNew e) as [n|]; cbn;
    repeat split; try congruence; try discriminate;
    try (intros [H1 H2]; congruence); intros; congruence.
Qed.

End FilterProperties.

Section LineProperties.
Context {P : Platform} {E : Externals P}.

Lemma endsInWord_lastChar (s : string) :
  forall prev, endsInWord prev s = wordBefore (lastChar prev s).
Proof. induction s as [|c s IH]; intros prev; cbn; [reflexivity|apply IH]. Qed.

Lemma endsInWord_from (s : string) (p q : option ascii) :
  s <> EmptyString -> endsInWord p s = endsInWord q s.
Proof. destruct s as [|c s]; [congruence|reflexivity]. Qed.

Lemma lastChar_app (a b : string) :
  forall prev, lastChar prev (a ++ b) = lastChar (lastChar prev a) b.
Proof. induction a as [|c a IH]; intros prev; cbn; [reflexivity|apply IH]. Qed.

Lemma lastChar_padding (t : string) :
  forall prev, t <> EmptyString -> allChars padding t = true ->
               wordBefore (lastChar prev t) = false.
Proof.
  induction t as [|c t IH]; intros prev Hne Ht; [congruence|].
  cbn in Ht. apply andb_true_iff in Ht. destruct Ht as [Hc Ht].
  cbn [lastChar]. destruct t as [|d t'].
  - cbn. unfold padding in Hc. apply andb_true_iff in Hc.
    destruct Hc as [Hc _]. apply negb_true_iff in Hc. exact Hc.
  - apply IH; [discriminate|exact Ht].
Qed.

Lemma wordAfter_padding (t rest : string) :
  allChars padding t = true -> lineEnds rest = true ->
  wordAfter (t ++ rest) = false.
Proof.
  intros Ht Hrest. destruct t as [|c t].
  - cbn [append]. destruct rest as [|r rest']; [reflexivity|].
    cbn in *. destruct (isWord r) eqn:Hr; [|reflexivity].
    destruct (isWord_ascii _ Hr) as (_ & _ & H3 & _). congruence.
  - cbn in *. apply andb_true_iff in Ht. destruct Ht as [Hc _].
    unfold padding in Hc. apply andb_true_iff in Hc. destruct Hc as [Hc _].
    apply negb_true_iff in Hc. exact Hc.
Qed.

Lemma padding_dot (t : string) :
  allChars padding t = true -> allChars (inClass Dot) t = true.
Proof.
  induction t as [|c t IH]; intros Ht; [reflexivity|].
  cbn in Ht. apply andb_true_iff in Ht. destruct Ht as [Hc Ht].
  unfold padding in Hc. apply andb_true_iff in Hc. destruct Hc as [_ Hc].
  cbn [allChars]. rewrite Hc, (IH Ht). reflexivity.
Qed.

(** A greedy star takes a run of its class before it tries what comes
    after the run. *)
Lemma star_upto (p : ascii -> bool) (k : cont) (rest : string) (n : nat) :
  forall w prev,
    allChars p w = true ->
    star p (lastChar prev w) rest k = Some n ->
    star p prev (w ++ rest) k = Some (String.length w + n)%nat.
Proof.
  induction w as [|c w IH]; intros prev Hw Hk.
  - exact Hk.
  - cbn in Hw. apply andb_true_iff in Hw. destruct Hw as [Hc Hw].
    cbn [append star]. rewrite Hc. cbn [lastChar] in Hk.
    rewrite (IH (Some c) Hw Hk). reflexivity.
Qed.

(** A greedy star gives back all it took of a run after every position
    of which the rest of the pattern fails. *)
Lemma star_backtrack (p : ascii -> bool) (k : cont) (rest : string) :
  match rest with String r _ => p r = false | EmptyString => True end ->
  forall t prev,
    (forall t1 t2, t = t1 ++ t2 -> t1 <> EmptyString ->
                   k (lastChar prev t1) (t2 ++ rest) = None) ->
    star p prev (t ++ rest) k = k prev (t ++ rest).
Proof.
  intros Hstop. induction t as [|c t IH]; intros prev Hfail.
  - cbn [append]. destruct rest as [|r rest']; cbn [star]; [reflexivity|].
    rewrite Hstop. reflexivity.
  - cbn [append star]. destruct (p c); [|reflexivity].
    rewrite IH.
    + assert (H0 : k (Some c) (t ++ rest) = None).
      { apply (Hfail (String c EmptyString) t); [reflexivity|discriminate]. }
      rewrite H0. reflexivity.
    + intros t1 t2 Heq Hne. subst t.
      apply (Hfail (String c t1) t2); [reflexivity|discriminate].
Qed.

(** At the marker the pattern matches up to the last word character of
    the line. *)
Lemma match_to_last_word (prev : option ascii) (body tail rest : string) :
  wordBefore prev = false ->
  allChars (inClass Dot) body = true ->
  endsInWord None body = true ->
  allChars padding tail = true ->
  lineEnds rest = true ->
  matchAt reg prev ("kind: " ++ body ++ tail ++ rest) accept =
    Some (String.length ("kind: " ++ body)).
Proof.
  intros Hprev Hbody Hend Htail Hrest.
  assert (Hne : body <> EmptyString).
  { intros ->. cbn in Hend. discriminate. }
  unfold reg. cbn [matchAt]. unfold atBoundary at 1. rewrite Hprev.
  cbn.
  rewrite (@star_upto (inClass Dot) _ (tail ++ rest) 0%nat).
  - cbn. rewrite Nat.add_0_r. reflexivity.
  - exact Hbody.
  - rewrite star_backtrack.
    + unfold atBoundary.
      rewrite <- endsInWord_lastChar.
      rewrite (endsInWord_from body (Some " "%char) None Hne), Hend.
      rewrite (wordAfter_padding _ _ Htail Hrest). reflexivity.
    + destruct rest as [|r rest']; [exact I|].
      cbn in Hrest. cbn. rewrite Hrest. reflexivity.
    + intros t1 t2 Heq Hne1. subst tail.
      assert (H1 : allChars padding t1 = true /\ allChars padding t2 = true).
      { clear - Htail. induction t1 as [|c t1 IH]; cbn in *; [auto|].
        apply andb_true_iff in Htail. destruct Htail as [Hc Ht].
        destruct (IH Ht) as [Ha Hb]. rewrite Hc, Ha. auto. }
      destruct H1 as [Ht1 Ht2]. unfold atBoundary.
      rewrite (lastChar_padding _ _ Hne1 Ht1).
      rewrite (wordAfter_padding _ _ Ht2 Hrest). reflexivity.
Qed.

Lemma match_of_marker_line (pre body tail rest : string) :
  hasSubstring "kind:" pre = false ->
  endsInWord None pre = false ->
  allChars (inClass Dot) body = true ->
  endsInWord None body = true ->
  allChars padding tail = true ->
  lineEnds rest = true ->
  FindString reg (pre ++ "kind: " ++ body ++ tail ++ rest) = "kind: " ++ body.
Proof.
  intros Hsub Hend Hbody Hword Htail Hrest. unfold FindString.
  destruct (@findFrom_skips (" " ++ body ++ tail ++ rest) pre None Hsub Hend)
    as (prev' & Hprev' & Heq).
  change ("kind:" ++ " " ++ body ++ tail ++ rest)
    with ("kind: " ++ body ++ tail ++ rest) in Heq.
  rewrite Heq.
  change (findFrom reg prev' ("kind: " ++ body ++ tail ++ rest))
    with (match matchAt reg prev' ("kind: " ++ body ++ tail ++ rest) accept with
          | Some n => Some (substring 0 n ("kind: " ++ body ++ tail ++ rest))
          | None => findFrom reg (Some "k"%char) ("ind: " ++ body ++ tail ++ rest)
          end).
  rewrite (match_to_last_word _ _ _ _ Hprev' Hbody Hword Htail Hrest).
  rewrite <- (append_assoc' "kind: " body (tail ++ rest)).
  rewrite substring_app. reflexivity.
Qed.

Lemma Split_nonempty (s : string) (sep : ascii) : Strings.Split s sep <> [].
Proof.
  destruct s as [|c r]; cbn; [discriminate|].
  destruct (Ascii.eqb c sep); [discriminate|].
  destruct (Strings.Split r sep); discriminate.
Qed.

Lemma piece_of_marker_line (body : string) :
  nth_error (Strings.Split ("kind: " ++ body) ":") 1
    = Some (String " " (upToColon body)).
Proof.
  unfold upToColon. cbn.
  pose proof (Split_nonempty body ":") as Hne.
  destruct (Strings.Split body ":") as [|piece rest]; [congruence|].
  reflexivity.
Qed.

Lemma TrimSpace_blank (s : string) :
  Strings.TrimSpace (String " " s) = Strings.TrimSpace s.
Proof. reflexivity. Qed.

(** X16. The label is what stands between the first marker and the
    next colon, or the last word character of the line of the marker
    when no colon comes before it, with the blanks around it removed:
    for a text whose first marker [kind:] is followed by a blank and by
    any text [body] of the same line that ends in a word character, the
    match runs to the end of [body], whatever characters other than
    word characters stand between it and the end of the line, and the
    label is [body] up to its first colon, trimmed.  So a remark after
    the value of the field is part of the label. *)
Theorem label_runs_to_last_word (pre body tail rest : string) (s : Sys) :
  hasSubstring "kind:" pre = false ->
  endsInWord None pre = false ->
  allChars (inClass Dot) body = true ->
  endsInWord None body = true ->
  allChars padding tail = true ->
  lineEnds rest = true ->
  FindString reg (pre ++ "kind: " ++ body ++ tail ++ rest) = "kind: " ++ body /\
  kindOf (list_byte_of_string (pre ++ "kind: " ++ body ++ tail ++ rest)) s
    = (Ret (Strings.TrimSpace (upToColon body)), s) /\
  caseOfManifest (list_byte_of_string (pre ++ "kind: " ++ body ++ tail ++ rest))
    = caseOf (Strings.TrimSpace (upToColon body)).
Proof.
  intros Hsub Hend Hbody Hword Htail Hrest.
  pose proof (match_of_marker_line _ _ _ _ Hsub Hend Hbody Hword Htail Hrest)
    as Hfind.
  split; [exact Hfind|].
  assert (Hlabel :
    labelOf (list_byte_of_string (pre ++ "kind: " ++ body ++ tail ++ rest))
      = Some (Strings.TrimSpace (upToColon body))).
  { unfold labelOf, pieces. rewrite string_of_list_byte_of_string, Hfind.
    rewrite piece_of_marker_line, TrimSpace_blank. reflexivity. }
  split.
  - rewrite kindOf_run, Hlabel. reflexivity.
  - unfold caseOfManifest. rewrite Hlabel. reflexivity.
Qed.

End LineProperties.

(* ------------------------------------------------------------------ *)
(** ** The further properties at work on the small world *)

Import FixtureMore.

(** The master directory with its sub-directory: the two directories
    are left out, the files come in the order of the walk. *)
Lemma filePathWalkDir_lists_files_witness :
  forallb hasInfo (Walk (disk (boot diskNested [])) "/opt/nfd/master") = true /\
  filePathWalkDir "/opt/nfd/master" (boot diskNested []) =
    (Ret (["/opt/nfd/master/0100_namespace.yaml";
           "/opt/nfd/master/rbac/0200_serviceaccount.yaml"], None),
     logged (FsWalk "/opt/nfd/master") (boot diskNested [])).
Proof.
  assert (H : forallb hasInfo (Walk (disk (boot diskNested [])) "/opt/nfd/master")
              = true) by (vm_compute; reflexivity).
  split; [exact H|].
  exact (proj1 (filePathWalkDir_lists_files (P := platform) "/opt/nfd/master"
                  (boot diskNested []) H)).
Defined.

(** A directory that does not exist. *)
Lemma filePathWalkDir_never_errs_witness :
  forallb hasInfo (Walk (disk (boot disk0 [])) "/opt/nfd/nowhere") = false /\
  filePathWalkDir "/opt/nfd/nowhere" (boot disk0 []) =
    (Panic NilDereference, logged (FsWalk "/opt/nfd/nowhere") (boot disk0 [])) /\
  getAssetsFrom "/opt/nfd/nowhere" (boot disk0 []) =
    (Panic NilDereference, logged (FsWalk "/opt/nfd/nowhere") (boot disk0 [])).
Proof.
  assert (H : forallb hasInfo (Walk (disk (boot disk0 [])) "/opt/nfd/nowhere")
              = false) by (vm_compute; reflexivity).
  split; [exact H|].
  exact (proj1 (proj2 (filePathWalkDir_never_errs (P := platform)
                         "/opt/nfd/nowhere" (boot disk0 []))) H).
Defined.

Lemma getAssetsFrom_reads_in_walk_order_witness :
  forallb hasInfo (Walk (disk (boot diskNested [])) "/opt/nfd/master") = true /\
  forallb (readable (disk (boot diskNested [])))
    (filesOf (Walk (disk (boot diskNested [])) "/opt/nfd/master")) = true /\
  exists ms,
    getAssetsFrom "/opt/nfd/master" (boot diskNested []) =
      (Ret ms,
       {| nfd := nfd (boot diskNested []); cluster := cluster (boot diskNested []);
          disk := diskNested;
          trace := [FsWalk "/opt/nfd/master";
                    FsReadFile "/opt/nfd/master/0100_namespace.yaml";
                    FsReadFile "/opt/nfd/master/rbac/0200_serviceaccount.yaml"] |}) /\
    List.length ms = 2%nat /\
    (forall k file,
        nth_error (filesOf (Walk (disk (boot diskNested [])) "/opt/nfd/master")) k
          = Some file ->
        nth_error ms k = Some (fst (ReadFile (disk (boot diskNested [])) file))).
Proof.
  assert (H1 : forallb hasInfo (Walk (disk (boot diskNested [])) "/opt/nfd/master")
               = true) by (vm_compute; reflexivity).
  assert (H2 : forallb (readable (disk (boot diskNested [])))
                 (filesOf (Walk (disk (boot diskNested [])) "/opt/nfd/master"))
               = true) by (vm_compute; reflexivity).
  split; [exact H1|]. split; [exact H2|].
  exact (getAssetsFrom_reads_in_walk_order (P := platform) "/opt/nfd/master"
           (boot diskNested []) H1 H2).
Defined.


(** A directory with the manifest of a pod: the stage is built, the
    [Pod] field is empty. *)
Lemma pod_field_stays_zero_witness :
  addResourcesControls (E := externals) "/opt/nfd/master" (boot diskPod [])
    = (Ret (stageOf diskPod "/opt/nfd/master"),
       constructed diskPod "/opt/nfd/master") /\
  In (manifest "Pod" "nfd-probe") (assetsIn diskPod "/opt/nfd/master") /\
  labelOf (manifest "Pod" "nfd-probe") = Some "Pod" /\
  Pod (fst (stageOf diskPod "/opt/nfd/master")) = @obj_zero platform FPod /\
  recognized (manifest "Pod" "nfd-probe") = false.
Proof.
  assert (H : addResourcesControls (E := externals) "/opt/nfd/master"
                (boot diskPod [])
              = (Ret (fst (stageOf diskPod "/opt/nfd/master"),
                      snd (stageOf diskPod "/opt/nfd/master")),
                 constructed diskPod "/opt/nfd/master"))
    by (vm_compute; reflexivity).
  assert (Hl : labelOf (manifest "Pod" "nfd-probe") = Some "Pod")
    by (vm_compute; reflexivity).
  split; [vm_compute; reflexivity|].
  split; [vm_compute; auto|]. split; [exact Hl|].
  destruct (pod_field_stays_zero (E := externals) "/opt/nfd/master"
              (boot diskPod []) (constructed diskPod "/opt/nfd/master")
              (fst (stageOf diskPod "/opt/nfd/master"))
              (snd (stageOf diskPod "/opt/nfd/master")) H) as [Hz Hr].
  split; [exact Hz|exact (Hr _ Hl)].
Defined.

(** The directory with the manifest of an unknown kind. *)
Lemma stage_construction_events_witness :
  addResourcesControls (E := externals) "/opt/nfd/master" (boot diskMixed [])
    = (Ret (fst (stageOf diskMixed "/opt/nfd/master"),
            snd (stageOf diskMixed "/opt/nfd/master")),
       constructed diskMixed "/opt/nfd/master") /\
  exists ms,
    fst (getAssetsFrom "/opt/nfd/master" (boot diskMixed [])) = Ret ms /\
    ms = map (fun file => fst (ReadFile (disk (boot diskMixed [])) file))
             (filesOf (Walk (disk (boot diskMixed [])) "/opt/nfd/master")) /\
    trace (constructed diskMixed "/opt/nfd/master") =
      (trace (boot diskMixed []) ++ FsWalk "/opt/nfd/master"
         :: map FsReadFile
              (filesOf (Walk (disk (boot diskMixed [])) "/opt/nfd/master"))
         ++ map skipEvent (filter unrecognized ms))%list /\
    nfd (constructed diskMixed "/opt/nfd/master") = nfd (boot diskMixed []) /\
    cluster (constructed diskMixed "/opt/nfd/master") = cluster (boot diskMixed []) /\
    disk (constructed diskMixed "/opt/nfd/master") = disk (boot diskMixed []).
Proof.
  assert (H : addResourcesControls (E := externals) "/opt/nfd/master"
                (boot diskMixed [])
              = (Ret (fst (stageOf diskMixed "/opt/nfd/master"),
                      snd (stageOf diskMixed "/opt/nfd/master")),
                 constructed diskMixed "/opt/nfd/master"))
    by (vm_compute; reflexivity).
  split; [exact H|].
  exact (stage_construction_events (E := externals) "/opt/nfd/master"
           (boot diskMixed []) (constructed diskMixed "/opt/nfd/master")
           (fst (stageOf diskMixed "/opt/nfd/master"))
           (snd (stageOf diskMixed "/opt/nfd/master")) H).
Defined.

(** The stepper of the small world with the cursor behind its two
    stages. *)
Lemma step_panics_exactly_outside_witness :
  ~ (0 <= idx (nfd (running 2 [])) < GoInt.len (controls (nfd (running 2 [])))) /\
  step (E := externals) (running 2 []) =
    (Panic (IndexOutOfRange (idx (nfd (running 2 [])))
              (GoInt.len (controls (nfd (running 2 []))))),
     stepped (running 2 [])).
Proof.
  assert (H : ~ (0 <= idx (nfd (running 2 []))
                 < GoInt.len (controls (nfd (running 2 [])))))
    by (vm_compute; intros [_ H]; discriminate H).
  split; [exact H|].
  exact (proj1 (proj2 (step_panics_exactly_outside (E := externals)
                         (running 2 []))) H).
Defined.

(** A cluster on which everything is there. *)
Lemma Reconcile_converges_witness :
  let s := boot disk0 allReadyCluster in
  let s1 := started allReadyCluster in
  Get reconciler tt (NamespacedName_ (request "nfd")) (cluster s)
      NodeFeatureDiscovery_zero = ("nfd", None) /\
  init (E := externals) reconciler "nfd" (fetched (request "nfd") s)
    = (Ret tt, s1) /\
  GoInt.len (controls (nfd s1)) <= GoInt.MaxInt /\
  readyFrom (E := externals) (controls (nfd s1)) (nfd s1) (cluster s1) = true /\
  exists s',
    Reconcile (E := externals) reconciler tt (request "nfd") s
      = (Ret (Result_zero, None), s') /\
    idx (nfd s') = GoInt.len (controls (nfd s1)) /\
    controls (nfd s') = controls (nfd s1) /\
    trace s' = (trace s1 ++ callsOfStages (controls (nfd s1)))%list /\
    cluster s' = clusterAfterStages (E := externals) (controls (nfd s1)) (nfd s1)
                   (cluster s1) /\
    fst (last s') = Ret true.
Proof.
  intros s s1.
  assert (H1 : Get reconciler tt (NamespacedName_ (request "nfd")) (cluster s)
                 NodeFeatureDiscovery_zero = ("nfd", None)) by reflexivity.
  assert (H2 : init (E := externals) reconciler "nfd" (fetched (request "nfd") s)
               = (Ret tt, s1)) by (vm_compute; reflexivity).
  assert (H3 : GoInt.len (controls (nfd s1)) <= GoInt.MaxInt)
    by (apply Z.leb_le; vm_compute; reflexivity).
  assert (H4 : readyFrom (E := externals) (controls (nfd s1)) (nfd s1) (cluster s1)
               = true) by (vm_compute; reflexivity).
  repeat (split; [assumption|]).
  exact (Reconcile_converges (E := externals) reconciler tt (request "nfd")
           s s1 "nfd" H1 H2 H3 H4).
Defined.

(** A cluster without security context constraints: the second function
    of the second stage fails. *)
Lemma control_error_is_returned_witness :
  let s := boot disk0 forbidding in
  let s1 := started forbidding in
  let s2 := secondPassOn forbidding in
  let e := StatusError "Forbidden" "no such resource type" in
  Get reconciler tt (NamespacedName_ (request "nfd")) (cluster s)
      NodeFeatureDiscovery_zero = ("nfd", None) /\
  init (E := externals) reconciler "nfd" (fetched (request "nfd") s)
    = (Ret tt, s1) /\
  GoInt.len (controls (nfd s1)) <= GoInt.MaxInt /\
  passes (E := externals) 1 s1 = Some s2 /\
  currentStage (nfd s2) = Some stageWorker /\
  firstIndex halts (reports (E := externals) stageWorker (nfd s2) (cluster s2))
    = Some 1%nat /\
  nth_error (reports (E := externals) stageWorker (nfd s2) (cluster s2)) 1
    = Some (NotReady, Some e) /\
  exists s',
    Reconcile (E := externals) reconciler tt (request "nfd") s
      = (Ret (Result_zero, Some e), s') /\
    idx (nfd s') = Z.of_nat 1 /\
    trace s' = (trace s2 ++ CallStep
                  :: map CallControl (firstn 2 stageWorker))%list.
Proof.
  intros s s1 s2 e.
  assert (H1 : Get reconciler tt (NamespacedName_ (request "nfd")) (cluster s)
                 NodeFeatureDiscovery_zero = ("nfd", None)) by reflexivity.
  assert (H2 : init (E := externals) reconciler "nfd" (fetched (request "nfd") s)
               = (Ret tt, s1)) by (vm_compute; reflexivity).
  assert (H3 : GoInt.len (controls (nfd s1)) <= GoInt.MaxInt)
    by (apply Z.leb_le; vm_compute; reflexivity).
  assert (H4 : passes (E := externals) 1 s1 = Some s2)
    by (vm_compute; reflexivity).
  assert (H5 : currentStage (nfd s2) = Some stageWorker)
    by (vm_compute; reflexivity).
  assert (H6 : firstIndex halts
                 (reports (E := externals) stageWorker (nfd s2) (cluster s2))
               = Some 1%nat) by (vm_compute; reflexivity).
  assert (H7 : nth_error
                 (reports (E := externals) stageWorker (nfd s2) (cluster s2)) 1
               = Some (NotReady, Some e)) by (vm_compute; reflexivity).
  repeat (split; [assumption|]).
  exact (control_error_is_returned (E := externals) reconciler tt (request "nfd")
           s s1 s2 "nfd" 1 1 stageWorker NotReady e H1 H2 H3 H4 H5 H6 H7).
Defined.

Lemma Reconcile_returns_after_init_witness :
  let s := boot disk0 halfReady in
  Get reconciler tt (NamespacedName_ (request "nfd")) (cluster s)
      NodeFeatureDiscovery_zero = ("nfd", None) /\
  init (E := externals) reconciler "nfd" (fetched (request "nfd") s)
    = (Ret tt, afterInit) /\
  GoInt.len (controls (nfd afterInit)) <= GoInt.MaxInt /\
  exists res err s',
    Reconcile (E := externals) reconciler tt (request "nfd") s
      = (Ret (res, err), s') /\
    res = Result_zero /\
    0 <= idx (nfd s') <= GoInt.len (controls (nfd s')) /\
    (err = None <-> idx (nfd s') = GoInt.len (controls (nfd s'))).
Proof.
  intros s.
  assert (H1 : Get reconciler tt (NamespacedName_ (request "nfd")) (cluster s)
                 NodeFeatureDiscovery_zero = ("nfd", None)) by reflexivity.
  assert (H2 : init (E := externals) reconciler "nfd" (fetched (request "nfd") s)
               = (Ret tt, afterInit)) by (vm_compute; reflexivity).
  assert (H3 : GoInt.len (controls (nfd afterInit)) <= GoInt.MaxInt)
    by (apply Z.leb_le; vm_compute; reflexivity).
  repeat (split; [assumption|]).
  exact (Reconcile_returns_after_init (E := externals) reconciler tt
           (request "nfd") s afterInit "nfd" H1 H2 H3).
Defined.

(** The stepper with the cursor left at the second stage, and the same
    with the cursor at the first. *)
Lemma Reconcile_forgets_cursor_witness :
  sameStages (running 1 halfReady) (running 0 halfReady) /\
  idx (nfd (running 1 halfReady)) <> idx (nfd (running 0 halfReady)) /\
  Reconcile (E := externals) reconciler tt (request "nfd") (running 1 halfReady)
    = Reconcile (E := externals) reconciler tt (request "nfd")
        (running 0 halfReady).
Proof.
  assert (H : sameStages (running 1 halfReady) (running 0 halfReady))
    by (repeat split; reflexivity).
  split; [exact H|]. split; [vm_compute; discriminate|].
  exact (proj2 (Reconcile_forgets_cursor (E := externals) reconciler tt
                  (request "nfd") (running 1 halfReady) (running 0 halfReady) H)
           "nfd" eq_refl).
Defined.

Lemma Reconcile_reuses_stages_witness :
  let s := running 1 halfReady in
  controls (nfd s) <> [] /\
  controls (nfd (snd (Reconcile (E := externals) reconciler tt (request "nfd") s)))
    = controls (nfd s) /\
  resources (nfd (snd (Reconcile (E := externals) reconciler tt (request "nfd") s)))
    = resources (nfd s) /\
  disk (snd (Reconcile (E := externals) reconciler tt (request "nfd") s)) = disk s /\
  exists evs,
    trace (snd (Reconcile (E := externals) reconciler tt (request "nfd") s))
      = (trace s ++ evs)%list /\
    forallb (fun ev => negb (isFsEvent ev)) evs = true.
Proof.
  intros s.
  assert (H : controls (nfd s) <> []) by (vm_compute; discriminate).
  split; [exact H|].
  exact (Reconcile_reuses_stages (E := externals) reconciler tt (request "nfd")
           s H).
Defined.

(** A first [Reconcile] that panics while it builds the second stage. *)
Lemma bundles_match_stages_witness :
  let s := boot diskBroken [] in
  List.length (resources (nfd s)) = List.length (controls (nfd s)) /\
  fst (Reconcile (E := externals) reconciler tt (request "nfd") s)
    = Panic (PanicError (foreignError "yaml" "cannot unmarshal")) /\
  List.length
    (resources (nfd (snd (Reconcile (E := externals) reconciler tt
                            (request "nfd") s))))
  = List.length
      (controls (nfd (snd (Reconcile (E := externals) reconciler tt
                             (request "nfd") s)))).
Proof.
  intros s.
  assert (H : List.length (resources (nfd s)) = List.length (controls (nfd s)))
    by reflexivity.
  split; [exact H|]. split; [vm_compute; reflexivity|].
  exact (bundles_match_stages (E := externals) reconciler tt (request "nfd") s H).
Defined.

(** The worker directory of [diskHalf] holds a file without marker. *)
Lemma half_built_stages_stay_witness :
  let s := boot diskHalf [] in
  let p := IndexOutOfRange 1 1 in
  controls (nfd s) = [] /\
  addResourcesControls (E := externals) "/opt/nfd/master"
    (initialised reconciler "nfd" s)
    = (Ret (fst masterStage, snd masterStage), masterScanned) /\
  addResourcesControls (E := externals) "/opt/nfd/worker"
    (withStage (fst masterStage) (snd masterStage) masterScanned)
    = (Panic p, workerFailed) /\
  init (E := externals) reconciler "nfd" s = (Panic p, workerFailed) /\
  controls (nfd workerFailed) = [snd masterStage] /\
  forall r' i',
    init (E := externals) r' i' workerFailed
      = (Ret tt, initialised r' i' workerFailed) /\
    controls (nfd (initialised r' i' workerFailed)) = [snd masterStage].
Proof.
  intros s p.
  assert (H1 : controls (nfd s) = []) by reflexivity.
  assert (H2 : addResourcesControls (E := externals) "/opt/nfd/master"
                 (initialised reconciler "nfd" s)
               = (Ret (fst masterStage, snd masterStage), masterScanned))
    by (vm_compute; reflexivity).
  assert (H3 : addResourcesControls (E := externals) "/opt/nfd/worker"
                 (withStage (fst masterStage) (snd masterStage) masterScanned)
               = (Panic p, workerFailed))
    by (vm_compute; reflexivity).
  repeat (split; [assumption|]).
  exact (half_built_stages_stay (E := externals) reconciler "nfd" s
           masterScanned workerFailed (fst masterStage) (snd masterStage) p
           H1 H2 H3).
Defined.

(** An update without a new object. *)
Lemma validateUpdateEvent_needs_both_witness :
  validateUpdateEvent {| ObjectOld := Some tt; ObjectNew := None |} =
    (false, ["Update event has no new runtime object for update"]).
Proof.
  refine (proj2 (proj2 (proj2 (proj2
            (validateUpdateEvent_needs_both
               {| ObjectOld := Some tt; ObjectNew := None |})))) _ eq_refl).
  discriminate.
Defined.

(** A remark after the value: the label is the value and the remark. *)
Lemma label_runs_to_last_word_witness :
  let pre := "apiVersion: v1" ++ nl in
  let body := "Service # the core one" in
  let tail := " ..." in
  let rest := nl ++ "metadata:" ++ nl ++ "  name: nfd-master" ++ nl in
  pre ++ "kind: " ++ body ++ tail ++ rest = remarked /\
  hasSubstring "kind:" pre = false /\
  endsInWord None pre = false /\
  allChars (inClass Dot) body = true /\
  endsInWord None body = true /\
  allChars padding tail = true /\
  lineEnds rest = true /\
  FindString reg remarked = "kind: Service # the core one" /\
  kindOf (list_byte_of_string remarked) (boot disk0 [])
    = (Ret "Service # the core one", boot disk0 []) /\
  caseOfManifest (list_byte_of_string remarked) = None.
Proof.
  intros pre body tail rest.
  assert (H0 : pre ++ "kind: " ++ body ++ tail ++ rest = remarked) by reflexivity.
  assert (H1 : hasSubstring "kind:" pre = false) by reflexivity.
  assert (H2 : endsInWord None pre = false) by reflexivity.
  assert (H3 : allChars (inClass Dot) body = true) by reflexivity.
  assert (H4 : endsInWord None body = true) by reflexivity.
  assert (H5 : allChars padding tail = true) by reflexivity.
  assert (H6 : lineEnds rest = true) by reflexivity.
  repeat (split; [assumption|]).
  exact (label_runs_to_last_word (P := platform) pre body tail rest
           (boot disk0 []) H1 H2 H3 H4 H5 H6).
Defined.
